(** * acme_tiny.py: a shallow embedding of the ACME client and its properties

    The development follows [get_crt] of [acme_tiny.py] (the fork shipped
    with letsencrypt-esxi).  Python values that come from the network are
    JSON values; a Python [str] is a [string] whose characters are the code
    points below 256, and [bytes] are strings too (every [encode]/[decode]
    of the program is applied to ASCII text).  Effects are threaded through
    a state-and-exception monad over a [world] that records every call the
    program makes to the outside (HTTP exchanges, child processes, the
    challenge file, sleeping) together with what the outside answered. *)

From Stdlib Require Import String Ascii List ZArith NArith Lia Bool Arith DecimalString.
Import ListNotations.
Local Open Scope string_scope.
Local Open Scope list_scope.

Set Implicit Arguments.
Set Warnings "-register-all".

(* ================================================================= *)
(** ** Characters and strings *)

Module Str.

Definition code (c : ascii) : N := N_of_ascii c.

(** The double quote, written by its code. *)
Definition dq : string := String "034"%char EmptyString.

Definition in_range (lo hi : N) (c : ascii) : bool :=
  (lo <=? code c)%N && (code c <=? hi)%N.

Definition is_upper := in_range 65 90.
Definition is_lower := in_range 97 122.
Definition is_digit := in_range 48 57.

Fixpoint map (f : ascii -> ascii) (s : string) : string :=
  match s with
  | EmptyString => EmptyString
  | String c t => String (f c) (map f t)
  end.

Fixpoint filter (p : ascii -> bool) (s : string) : string :=
  match s with
  | EmptyString => EmptyString
  | String c t => if p c then String c (filter p t) else filter p t
  end.

Fixpoint forallb (p : ascii -> bool) (s : string) : bool :=
  match s with
  | EmptyString => true
  | String c t => p c && forallb p t
  end.

(** [needle in hay] *)
Fixpoint contains (needle hay : string) : bool :=
  String.prefix needle hay ||
  match hay with
  | EmptyString => false
  | String _ t => contains needle t
  end.

(** [s.startswith(p)] *)
Definition startswith (p s : string) : bool := String.prefix p s.

(** [s.endswith(c)] for a one-character suffix *)
Fixpoint endswith_char (c : ascii) (s : string) : bool :=
  match s with
  | EmptyString => false
  | String a EmptyString => Ascii.eqb a c
  | String _ t => endswith_char c t
  end.

(** [s[n:]] *)
Fixpoint drop (n : nat) (s : string) : string :=
  match n, s with
  | O, _ => s
  | S n', String _ t => drop n' t
  | S _, EmptyString => EmptyString
  end.

(** [s.split(sep)] for a non-empty separator. *)
Fixpoint split_aux (sep : string) (acc : string) (s : string) : list string :=
  match s with
  | EmptyString => [acc]
  | String c t =>
      if String.prefix sep s
      then acc :: split_aux' sep (String.length sep - 1) t
      else split_aux sep (acc ++ String c EmptyString) t
  end
with split_aux' (sep : string) (skip : nat) (s : string) : list string :=
  match skip, s with
  | O, _ =>
      match s with
      | EmptyString => [EmptyString]
      | String c t =>
          if String.prefix sep s
          then EmptyString :: split_aux' sep (String.length sep - 1) t
          else split_aux sep (String c EmptyString) t
      end
  | S k, String _ t => split_aux' sep k t
  | S _, EmptyString => [EmptyString]
  end.

Definition split (sep s : string) : list string := split_aux sep EmptyString s.

End Str.

(* ================================================================= *)
(** ** Encodings used by the program: hexadecimal, base64url, decimal *)

Module Codec.

Definition hex_digit (n : N) : ascii :=
  if (n <? 10)%N then ascii_of_N (48 + n) else ascii_of_N (87 + n).

(** The value of a hexadecimal digit, either case, as [binascii.unhexlify]
    reads it. *)
Definition hex_val (c : ascii) : option N :=
  let n := N_of_ascii c in
  if Str.is_digit c then Some (n - 48)%N
  else if Str.in_range 97 102 c then Some (n - 87)%N
  else if Str.in_range 65 70 c then Some (n - 55)%N
  else None.

(** ["{0:x}".format(n)] for a non-negative integer: the shortest lower-case
    hexadecimal numeral, ["0"] for zero. *)
Fixpoint hex_of (fuel : nat) (n : N) : string :=
  match fuel with
  | O => EmptyString
  | S f =>
      if (n <? 16)%N then String (hex_digit n) EmptyString
      else hex_of f (n / 16) ++ String (hex_digit (n mod 16)) EmptyString
  end.

Definition format_x (n : N) : string := hex_of (S (N.size_nat n)) n.

(** [binascii.unhexlify]: two hexadecimal digits per byte; an odd number of
    digits or a character that is no digit raises [binascii.Error]. *)
Fixpoint unhexlify (s : string) : option string :=
  match s with
  | EmptyString => Some EmptyString
  | String _ EmptyString => None
  | String h (String l t) =>
      match hex_val h, hex_val l, unhexlify t with
      | Some a, Some b, Some r => Some (String (ascii_of_N (16 * a + b)) r)
      | _, _, _ => None
      end
  end.

(** [int(s)] on a string of ASCII decimal digits (what the pattern
    [[0-9]+] lets through). *)
Fixpoint int_of_digits_acc (acc : N) (s : string) : option N :=
  match s with
  | EmptyString => Some acc
  | String c t =>
      if Str.is_digit c
      then int_of_digits_acc (10 * acc + (N_of_ascii c - 48))%N t
      else None
  end.

Definition int_of_digits (s : string) : option N :=
  match s with
  | EmptyString => None
  | _ => int_of_digits_acc 0 s
  end.

Definition b64_alphabet : string :=
  "ABCDEFGHIJKLMNOPQRSTUVWXYZabcdefghijklmnopqrstuvwxyz0123456789-_".

Definition b64_char (i : N) : ascii :=
  match String.get (N.to_nat i) b64_alphabet with
  | Some c => c
  | None => "="%char
  end.

(** [base64.urlsafe_b64encode] *)
Fixpoint urlsafe_b64encode (b : string) : string :=
  match b with
  | EmptyString => EmptyString
  | String x EmptyString =>
      let a := N_of_ascii x in
      String (b64_char (a / 4))
        (String (b64_char ((a mod 4) * 16)) "==")
  | String x (String y EmptyString) =>
      let a := N_of_ascii x in
      let b := N_of_ascii y in
      String (b64_char (a / 4))
        (String (b64_char ((a mod 4) * 16 + b / 16))
           (String (b64_char ((b mod 16) * 4)) "="))
  | String x (String y (String z t)) =>
      let a := N_of_ascii x in
      let b := N_of_ascii y in
      let c := N_of_ascii z in
      String (b64_char (a / 4))
        (String (b64_char ((a mod 4) * 16 + b / 16))
           (String (b64_char ((b mod 16) * 4 + c / 64))
              (String (b64_char (c mod 64)) (urlsafe_b64encode t))))
  end.

(** [_b64_encode_jose]: [urlsafe_b64encode(b).decode('utf8').replace("=", "")] *)
Definition _b64_encode_jose (b : string) : string :=
  Str.filter (fun c => negb (Ascii.eqb c "="%char)) (urlsafe_b64encode b).

End Codec.

(* ================================================================= *)
(** ** Python values that travel as JSON *)

(** A response body is either decoded by [json.loads] or left as the text
    it was; both a decoded JSON string and an undecoded body are a Python
    [str], here [JStr].  A number keeps its literal text: the program only
    ever compares decoded values with strings. *)
Inductive json : Type :=
| JNull
| JBool (b : bool)
| JNum (lit : string)
| JStr (s : string)
| JArr (items : list json)
| JObj (fields : list (string * json)).

Module Json.

(** *** [json.dumps] *)

Definition hex2 (n : N) : string :=
  String (Codec.hex_digit (n / 16)) (String (Codec.hex_digit (n mod 16)) EmptyString).

(** One character inside a string literal, [ensure_ascii] being on: the
    printable ASCII characters stand for themselves except the quote and
    the backslash. *)
Definition escape_char (c : ascii) : string :=
  let n := N_of_ascii c in
  if (n =? 34)%N then String "092" Str.dq
  else if (n =? 92)%N then String "092" (String "092" EmptyString)
  else if (n =? 10)%N then String "092" "n"
  else if (n =? 13)%N then String "092" "r"
  else if (n =? 9)%N then String "092" "t"
  else if (n =? 8)%N then String "092" "b"
  else if (n =? 12)%N then String "092" "f"
  else if Str.in_range 32 126 c then String c EmptyString
  else String "092" ("u00" ++ hex2 n).

Fixpoint escape (s : string) : string :=
  match s with
  | EmptyString => EmptyString
  | String c t => escape_char c ++ escape t
  end.

Definition quote (s : string) : string := Str.dq ++ escape s ++ Str.dq.

Fixpoint insert_by_key (kv : string * string) (l : list (string * string))
  : list (string * string) :=
  match l with
  | [] => [kv]
  | kv' :: t =>
      if String.leb (fst kv) (fst kv') then kv :: l else kv' :: insert_by_key kv t
  end.

Definition sort_by_key (l : list (string * string)) : list (string * string) :=
  fold_right insert_by_key [] l.

Section Dumps.

Variable sort_keys : bool.
Variables item_sep key_sep : string.

Definition join_items (l : list string) : string := String.concat item_sep l.

Definition render_field (kv : string * string) : string :=
  quote (fst kv) ++ key_sep ++ snd kv.

Fixpoint dumps_with (v : json) : string :=
  match v with
  | JNull => "null"
  | JBool true => "true"
  | JBool false => "false"
  | JNum lit => lit
  | JStr s => quote s
  | JArr items =>
      "[" ++ join_items
               ((fix each (l : list json) : list string :=
                   match l with
                   | [] => []
                   | x :: t => dumps_with x :: each t
                   end) items) ++ "]"
  | JObj fields =>
      let rendered :=
        (fix each (l : list (string * json)) : list (string * string) :=
           match l with
           | [] => []
           | (k, x) :: t => (k, dumps_with x) :: each t
           end) fields in
      "{" ++ join_items
               (List.map render_field
                  (if sort_keys then sort_by_key rendered else rendered)) ++ "}"
  end.

End Dumps.

(** [json.dumps(v)] *)
Definition dumps : json -> string := dumps_with false ", " ": ".

(** [json.dumps(v, sort_keys=True, separators=(',', ':'))] *)
Definition dumps_sorted_compact : json -> string := dumps_with true "," ":".

(** *** Subscripting and comparing decoded values *)

Fixpoint assoc (k : string) (l : list (string * json)) : option json :=
  match l with
  | [] => None
  | (k', v) :: t => if String.eqb k k' then Some v else assoc k t
  end.

(** [v == s] for a string [s] *)
Definition eq_str (v : json) (s : string) : bool :=
  match v with
  | JStr t => String.eqb t s
  | _ => false
  end.

(** [v in l] for a list [l] of strings *)
Definition in_strs (v : json) (l : list string) : bool :=
  existsb (eq_str v) l.

(** [None] in a JSON position *)
Definition of_option (o : option string) : json :=
  match o with
  | Some s => JStr s
  | None => JNull
  end.

(** *** [json.loads]

    A reader for JSON text as Python's decoder accepts it (strict mode):
    objects, arrays, string literals with their escapes, numbers, the three
    names, and the extra names [NaN], [Infinity] and [-Infinity].  A
    repeated key keeps its first position and its last value, as a [dict]
    does.  An escape [\uXXXX] above code point 255 lies outside the
    character model and is rejected. *)

Definition is_ws (c : ascii) : bool :=
  let n := N_of_ascii c in
  (n =? 32)%N || (n =? 9)%N || (n =? 10)%N || (n =? 13)%N.

Fixpoint skip_ws (s : string) : string :=
  match s with
  | String c t => if is_ws c then skip_ws t else s
  | EmptyString => s
  end.

Definition snoc (s : string) (c : ascii) : string := s ++ String c EmptyString.

Definition hex4 (a b c d : ascii) : option N :=
  match Codec.hex_val a, Codec.hex_val b, Codec.hex_val c, Codec.hex_val d with
  | Some x, Some y, Some z, Some w => Some (((x * 16 + y) * 16 + z) * 16 + w)%N
  | _, _, _, _ => None
  end.

(** The rest of a string literal, after its opening quote. *)
Fixpoint read_string (s : string) (acc : string) : option (string * string) :=
  match s with
  | EmptyString => None
  | String c t =>
      let n := N_of_ascii c in
      if (n =? 34)%N then Some (acc, t)
      else if (n =? 92)%N then
        match t with
        | EmptyString => None
        | String e t' =>
            let m := N_of_ascii e in
            if (m =? 34)%N || (m =? 92)%N || (m =? 47)%N then read_string t' (snoc acc e)
            else if (m =? 98)%N then read_string t' (snoc acc "008")
            else if (m =? 102)%N then read_string t' (snoc acc "012")
            else if (m =? 110)%N then read_string t' (snoc acc "010")
            else if (m =? 114)%N then read_string t' (snoc acc "013")
            else if (m =? 116)%N then read_string t' (snoc acc "009")
            else if (m =? 117)%N then
              match t' with
              | String h1 (String h2 (String h3 (String h4 t''))) =>
                  match hex4 h1 h2 h3 h4 with
                  | Some cp =>
                      if (cp <? 256)%N then read_string t'' (snoc acc (ascii_of_N cp))
                      else None
                  | None => None
                  end
              | _ => None
              end
            else None
        end
      else if (n <? 32)%N then None
      else read_string t (snoc acc c)
  end.

Fixpoint span_digits (s : string) : string * string :=
  match s with
  | String c t =>
      if Str.is_digit c
      then let (d, r) := span_digits t in (String c d, r)
      else (EmptyString, s)
  | EmptyString => (EmptyString, s)
  end.

(** A number literal: an optional minus sign, then zero or a digit string
    without a leading zero, then optionally a point with digits, then
    optionally an exponent. *)
Definition read_number (s : string) : option (string * string) :=
  let (sign, s1) :=
    match s with
    | String "-" t => ("-", t)
    | _ => (EmptyString, s)
    end in
  let int_part :=
    match s1 with
    | String "0" t => Some ("0", t)
    | String c _ => if Str.is_digit c then Some (span_digits s1) else None
    | EmptyString => None
    end in
  match int_part with
  | None => None
  | Some (i, s2) =>
      let (frac, s3) :=
        match s2 with
        | String "." t =>
            match span_digits t with
            | (EmptyString, _) => (EmptyString, s2)
            | (d, r) => (String "." d, r)
            end
        | _ => (EmptyString, s2)
        end in
      let (ex, s4) :=
        match s3 with
        | String c t =>
            if Ascii.eqb c "e" || Ascii.eqb c "E" then
              let (sg, t1) :=
                match t with
                | String "+" u => ("+", u)
                | String "-" u => ("-", u)
                | _ => (EmptyString, t)
                end in
              match span_digits t1 with
              | (EmptyString, _) => (EmptyString, s3)
              | (d, r) => (String c (sg ++ d)%string, r)
              end
            else (EmptyString, s3)
        | EmptyString => (EmptyString, s3)
        end in
      Some ((sign ++ i ++ frac ++ ex)%string, s4)
  end.

Fixpoint dict_set (k : string) (v : json) (l : list (string * json))
  : list (string * json) :=
  match l with
  | [] => [(k, v)]
  | (k', v') :: t =>
      if String.eqb k k' then (k, v) :: t else (k', v') :: dict_set k v t
  end.

Definition after (p s : string) : option string :=
  if String.prefix p s then Some (Str.drop (String.length p) s) else None.

Fixpoint read_value (fuel : nat) (s : string) : option (json * string) :=
  match fuel with
  | O => None
  | S f =>
      match s with
      | EmptyString => None
      | String c t =>
          let n := N_of_ascii c in
          if (n =? 34)%N then
            match read_string t EmptyString with
            | Some (x, r) => Some (JStr x, r)
            | None => None
            end
          else if (n =? 123)%N then
            match skip_ws t with
            | String "}" r => Some (JObj [], r)
            | t1 => read_members f t1 []
            end
          else if (n =? 91)%N then
            match skip_ws t with
            | String "]" r => Some (JArr [], r)
            | t1 => read_items f t1 []
            end
          else
            match after "null" s, after "true" s, after "false" s with
            | Some r, _, _ => Some (JNull, r)
            | _, Some r, _ => Some (JBool true, r)
            | _, _, Some r => Some (JBool false, r)
            | _, _, _ =>
                match after "NaN" s, after "Infinity" s, after "-Infinity" s with
                | Some r, _, _ => Some (JNum "NaN", r)
                | _, Some r, _ => Some (JNum "Infinity", r)
                | _, _, Some r => Some (JNum "-Infinity", r)
                | _, _, _ =>
                    match read_number s with
                    | Some (lit, r) => Some (JNum lit, r)
                    | None => None
                    end
                end
            end
      end
  end
with read_members (fuel : nat) (s : string) (acc : list (string * json))
  : option (json * string) :=
  match fuel with
  | O => None
  | S f =>
      match s with
      | String c t =>
          if (N_of_ascii c =? 34)%N then
            match read_string t EmptyString with
            | Some (k, r) =>
                match skip_ws r with
                | String ":" r1 =>
                    match read_value f (skip_ws r1) with
                    | Some (v, r2) =>
                        match skip_ws r2 with
                        | String "}" r3 => Some (JObj (dict_set k v acc), r3)
                        | String "," r3 => read_members f (skip_ws r3) (dict_set k v acc)
                        | _ => None
                        end
                    | None => None
                    end
                | _ => None
                end
            | None => None
            end
          else None
      | EmptyString => None
      end
  end
with read_items (fuel : nat) (s : string) (acc : list json)
  : option (json * string) :=
  match fuel with
  | O => None
  | S f =>
      match read_value f s with
      | Some (v, r) =>
          match skip_ws r with
          | String "]" r1 => Some (JArr (acc ++ [v]), r1)
          | String "," r1 => read_items f (skip_ws r1) (acc ++ [v])
          | _ => None
          end
      | None => None
      end
  end.

Definition loads (s : string) : option json :=
  match read_value (S (String.length s)) (skip_ws s) with
  | Some (v, r) =>
      match skip_ws r with
      | EmptyString => Some v
      | _ => None
      end
  | None => None
  end.

End Json.

(* ================================================================= *)
(** ** Exceptions, calls to the outside, and the world *)

(** The classes of the exceptions that library calls raise, as far as the
    program's [except] clauses tell them apart.  In Python's library
    [urllib.error.HTTPError] is a subclass of [urllib.error.URLError],
    which is a subclass of [OSError] (alias [IOError]); [socket.timeout]
    is a subclass of [OSError] too.  [OtherClass] stands for every class
    outside [OSError], [ValueError], [IndexError] and [AssertionError]. *)
Inductive exn_class : Type :=
| SocketTimeout
| HTTPError
| URLError
| OSError
| ValueErrorClass
| OtherClass.

(** [isinstance(e, socket.timeout)] *)
Definition is_socket_timeout (c : exn_class) : bool :=
  match c with SocketTimeout => true | _ => false end.

(** [isinstance(e, URLError)] *)
Definition is_URLError (c : exn_class) : bool :=
  match c with HTTPError | URLError => true | _ => false end.

(** [isinstance(e, IOError)] *)
Definition is_IOError (c : exn_class) : bool :=
  match c with SocketTimeout | HTTPError | URLError | OSError => true | _ => false end.

(** An exception raised by a library call, with the attributes the program
    looks at: [str(e.reason)] when [e] has a [reason], [e.read().decode()]
    when [e] has a [read], [e.code] when it has one, and [str(e)]. *)
Record libexn : Type := {
  e_class : exn_class;
  e_reason : option string;
  e_read : option string;
  e_code : option Z;
  e_str : string
}.

(** The headers that come with a response: the message object of a
    response that arrived, whose subscript gives the value of a header or
    [None] without it, or the empty [dict] that [_do_request] puts in its
    place after an [IOError]. *)
Inductive headers : Type :=
| Message (get : string -> option string)
| EmptyDict.

(** The body of a signed request: the three members of the flattened JWS of
    line 64, the protected header before its encoding. *)
Record signed_body : Type := {
  sb_protected : json;
  sb_payload64 : string;
  sb_signature : string
}.

Inductive exn : Type :=
| Lib (e : libexn)
| ValueError (m : message)
| IOError_command (err_msg error_msg : string)
| IOError_dns (error_msg : string)
| IndexError (resp_data : json)
| KeyError (key : string)
| TypeError
| AttributeError
| AssertionError (msg : option string)
with message : Type :=
| Timed_out (err_msg : string) (timeout : Z)
| Network_error (err_msg : string) (detail : string)
| Bad_response (err_msg : string) (url : json) (data : option signed_body)
               (code : option Z) (resp_data : json)
| No_dns_script (api_script : string)
| No_challenge (challenge_type : string) (domain : json)
| Check_failed (wellknown_path wellknown_url : string) (cause : exn)
| Challenge_failed (domain authorization : json)
| Order_failed (order : json).

Definition is_ValueError (e : exn) : bool :=
  match e with
  | ValueError _ => true
  | Lib l => match e_class l with ValueErrorClass => true | _ => false end
  | _ => false
  end.

Definition is_AssertionError (e : exn) : bool :=
  match e with AssertionError _ => true | _ => false end.

Definition is_IndexError (e : exn) : bool :=
  match e with IndexError _ => true | _ => false end.

(** What [urlopen(Request(url, data, headers), timeout)] followed by
    [resp.read().decode("utf8"), resp.getcode(), resp.headers] does. *)
Inductive outcome : Type :=
| Returned (body : string) (code : Z) (hdrs : headers)
| Raised (e : libexn).

(** The calls the program makes to the outside, each with its answer. *)
Inductive event : Type :=
| Urlopen (url : json) (data : option signed_body) (out : outcome)
| Popen (cmd : list string) (env : list (string * string)) (input : option string)
        (returncode : Z) (out err : string)
| FileWrite (path content : string) (err : option libexn)
| FileRemove (path : string) (err : option libexn)
| Sleep (seconds : Z).

(** The world: the calls made so far, latest first, and the wall clock in
    milliseconds. *)
Record world : Type := {
  trace : list event;
  clock : Z
}.

(** The outside.  Every answer may depend on all that happened before.
    [env_lag] is the time a call takes, beyond the interval asked for when
    the call is a sleep. *)
Record environment : Type := {
  env_urlopen : list event -> json -> option signed_body -> outcome;
  env_popen : list event -> list string -> list (string * string) -> option string
              -> Z * string * string;
  env_write : list event -> string -> string -> option libexn;
  env_remove : list event -> string -> option libexn;
  env_api_script : string;
  env_script_ok : list event -> bool;
  env_getenv : string -> option string;
  env_lag : list event -> N
}.

(** Library functions the development does not spell out.  [json_loads] is
    [json.loads] on the texts it reads or refuses with a ValueError ([None]);
    a text on which it raises anything else, as the RecursionError of a
    body nested too deep, is outside the model. *)
Record pylib : Type := {
  json_loads : string -> option json;
  sha256 : string -> string;
  py_repr : json -> string;
  py_int : string -> option Z;
  search_pubkey : string -> option (string * string);
  search_common_name : string -> option string;
  search_alt_names : string -> option string;
  set_order : list string -> list string
}.

(** *** The monad of the program: state, exceptions, and running out of fuel *)

Inductive result (A : Type) : Type :=
| Ok (a : A)
| Raise (e : exn)
| Diverge.

Arguments Raise {A} e.
Arguments Diverge {A}.

Definition M (A : Type) : Type := world -> result A * world.

Definition ret {A} (a : A) : M A := fun w => (Ok a, w).

Definition raise {A} (e : exn) : M A := fun w => (Raise e, w).

Definition diverge {A} : M A := fun w => (Diverge, w).

Definition bind {A B} (c : M A) (k : A -> M B) : M B :=
  fun w =>
    match c w with
    | (Ok a, w') => k a w'
    | (Raise e, w') => (Raise e, w')
    | (Diverge, w') => (Diverge, w')
    end.

(** [try: c  except <classes accepted by handles> as e: h e] *)
Definition try_except {A} (c : M A) (handles : exn -> bool) (h : exn -> M A) : M A :=
  fun w =>
    match c w with
    | (Raise e, w') => if handles e then h e w' else (Raise e, w')
    | r => r
    end.

(** A pure computation that may raise. *)
Definition lift {A} (r : result A) : M A := fun w => (r, w).

(** Sequencing of pure computations that may raise. *)
Definition rbind {A B} (r : result A) (k : A -> result B) : result B :=
  match r with
  | Ok a => k a
  | Raise e => Raise e
  | Diverge => Diverge
  end.

Declare Scope monad_scope.
Delimit Scope monad_scope with monad.
Notation "x <- c ;; k" := (bind c (fun x => k))
  (at level 61, c at next level, right associativity) : monad_scope.
Notation "c ;; k" := (bind c (fun _ => k))
  (at level 61, right associativity) : monad_scope.
Local Open Scope monad_scope.

(** *** Operations on decoded values that may raise *)

(** [v[key]] for a string key *)
Definition getitem (v : json) (key : string) : result json :=
  match v with
  | JObj fields =>
      match Json.assoc key fields with
      | Some x => Ok x
      | None => Raise (KeyError key)
      end
  | _ => Raise TypeError
  end.

(** [for x in v]: the items of a list, the characters of a string, the
    keys of an object. *)
Definition iterate (v : json) : result (list json) :=
  match v with
  | JArr items => Ok items
  | JStr s => Ok (List.map (fun c => JStr (String c EmptyString)) (list_ascii_of_string s))
  | JObj fields => Ok (List.map (fun kv => JStr (fst kv)) fields)
  | _ => Raise TypeError
  end.

(** [h[name]] *)
Definition header_get (h : headers) (name : string) : result (option string) :=
  match h with
  | Message get => Ok (get name)
  | EmptyDict => Raise (KeyError name)
  end.

(** The parameters of [get_crt]. *)
Record config : Type := {
  account_key : string;
  csr : string;
  acme_dir : option string;
  disable_check : bool;
  directory_url : string;
  contact : option (list string);
  check_port : option string;
  challenge_type : string;
  timeout : Z
}.

(** The variables that the helper functions share ([directory],
    [acct_headers], [alg], [jwk] of line 14). *)
Record session : Type := {
  directory : json;
  acct_headers : option headers;
  alg : string;
  jwk : json
}.

Definition badNonce : string := "urn:ietf:params:acme:error:badNonce".

(* ================================================================= *)
(** ** The pure computations of [get_crt] *)

(** *** The account key: JWK and thumbprint (lines 108-116) *)

(** [\s] of a [str] pattern, on the characters below 256. *)
Definition is_space (c : ascii) : bool :=
  let n := N_of_ascii c in
  Str.in_range 9 13 c || Str.in_range 28 32 c || (n =? 133)%N || (n =? 160)%N.

(** [re.sub(r"(\s|:)", "", pub_hex)] *)
Definition strip_hex (pub_hex : string) : string :=
  Str.filter (fun c => negb (is_space c || Ascii.eqb c ":"%char)) pub_hex.

(** ["0{0}".format(h) if len(h) % 2 else h] *)
Definition pad_even (h : string) : string :=
  if Nat.odd (String.length h) then String "0" h else h.

Definition value_error (text : string) : exn :=
  Lib {| e_class := ValueErrorClass; e_reason := None; e_read := None;
         e_code := None; e_str := text |}.

(** Lines 108-109. *)
Definition exponent_hex (pub_exp : string) : result string :=
  match Codec.int_of_digits pub_exp with
  | Some n => Ok (pad_even (Codec.format_x n))
  | None => Raise (value_error "invalid literal for int()")
  end.

Definition unhexlify (h : string) : result string :=
  match Codec.unhexlify h with
  | Some b => Ok b
  | None => Raise (value_error "binascii.Error")
  end.

(** Lines 108-114: the JWK of the public key. *)
Definition compute_jwk (pub_hex pub_exp : string) : result json :=
  match exponent_hex pub_exp with
  | Ok e_hex =>
      match unhexlify e_hex with
      | Ok e_bytes =>
          match unhexlify (strip_hex pub_hex) with
          | Ok n_bytes =>
              Ok (JObj [("e", JStr (Codec._b64_encode_jose e_bytes));
                        ("kty", JStr "RSA");
                        ("n", JStr (Codec._b64_encode_jose n_bytes))])
          | Raise e => Raise e
          | Diverge => Diverge
          end
      | Raise e => Raise e
      | Diverge => Diverge
      end
  | Raise e => Raise e
  | Diverge => Diverge
  end.

(** Lines 115-116. *)
Definition thumbprint_of (L : pylib) (jwk : json) : string :=
  Codec._b64_encode_jose (sha256 L (Json.dumps_sorted_compact jwk)).

(** *** The domains of the request (lines 120-128) *)

Definition set_add (x : string) (l : list string) : list string :=
  if existsb (String.eqb x) l then l else l ++ [x].

Definition csr_domains (L : pylib) (text : string) : list string :=
  let domains :=
    match search_common_name L text with
    | Some cn => set_add cn []
    | None => []
    end in
  match search_alt_names L text with
  | Some names =>
      fold_left
        (fun acc san =>
           if Str.startswith "DNS:" san then set_add (Str.drop 4 san) acc else acc)
        (Str.split ", " names) domains
  | None => domains
  end.

(** *** The challenge of an authorization (lines 153-171) *)

Definition token_char_ok (c : ascii) : bool :=
  Str.is_upper c || Str.is_lower c || Str.is_digit c
  || Ascii.eqb c "_"%char || Ascii.eqb c "-"%char.

(** [re.sub(r"[^A-Za-z0-9_\-]", "_", token)] *)
Definition re_sub_token (token : string) : string :=
  Str.map (fun c => if token_char_ok c then c else "_"%char) token.

(** ["{0}.{1}".format(token, thumbprint)] *)
Definition keyauthorization_of (token thumbprint : string) : string :=
  (token ++ "." ++ thumbprint)%string.

(** [posixpath.join(a, b)] *)
Definition os_path_join (a b : string) : string :=
  if Str.startswith "/" b then b
  else if String.eqb a EmptyString || Str.endswith_char "/" a then (a ++ b)%string
  else (a ++ "/" ++ b)%string.

Record plan : Type := {
  domain : json;
  challenge : json;
  token : string;
  keyauthorization : string
}.

Section Plan.

Variable challenge_type : string.
Variable thumbprint : string.

(** Lines 161-165. *)
Fixpoint find_challenge (challenges : list json) : result (option json) :=
  match challenges with
  | [] => Ok None
  | c :: rest =>
      match getitem c "type" with
      | Ok ty => if Json.eq_str ty challenge_type then Ok (Some c) else find_challenge rest
      | Raise e => Raise e
      | Diverge => Diverge
      end
  end.

(** Lines 153-171: what is to be done for a fetched authorization; [None]
    when it is already valid. *)
Definition plan_of (authorization : json) : result (option plan) :=
  rbind (getitem authorization "identifier") (fun identifier =>
  rbind (getitem identifier "value") (fun domain =>
  rbind (getitem authorization "status") (fun status =>
  if Json.eq_str status "valid" then Ok None else
  rbind (getitem authorization "challenges") (fun challenges =>
  rbind (iterate challenges) (fun items =>
  rbind (find_challenge items) (fun found =>
  match found with
  | None => Raise (ValueError (No_challenge challenge_type domain))
  | Some c =>
      rbind (getitem c "token") (fun tok =>
      match tok with
      | JStr t =>
          let token := re_sub_token t in
          Ok (Some {| domain := domain; challenge := c; token := token;
                      keyauthorization := keyauthorization_of token thumbprint |})
      | _ => Raise TypeError
      end)
  end)))))).

End Plan.

(* ================================================================= *)
(** ** The helper functions of [get_crt] *)

Section Client.

Variable L : pylib.
Variable E : environment.
Variable cfg : config.

(** Bound on the unfolding of the two loops of the program (the recursion
    of [_send_signed_request] and the loop of [_poll_until_complete]). *)
Variable fuel : nat.

(** *** Calls *)

Definition ask {A} (f : list event -> A) : M A := fun w => (Ok (f (trace w)), w).

(** Record a call; it takes the time asked for and the lag of the outside. *)
Definition call (ev : event) (asked_ms : Z) : M unit :=
  fun w =>
    let tr := ev :: trace w in
    (Ok tt, {| trace := tr; clock := clock w + asked_ms + Z.of_N (env_lag E tr) |}).

Definition urlopen (url : json) (data : option signed_body) : M outcome :=
  out <- ask (fun tr => env_urlopen E tr url data) ;;
  call (Urlopen url data out) 0 ;;
  ret out.

Definition popen (cmd : list string) (env : list (string * string)) (input : option string)
  : M (Z * string * string) :=
  r <- ask (fun tr => env_popen E tr cmd env input) ;;
  call (Popen cmd env input (fst (fst r)) (snd (fst r)) (snd r)) 0 ;;
  ret r.

(** [with open(path, "w") as f: f.write(content)] *)
Definition write_file (path content : string) : M unit :=
  err <- ask (fun tr => env_write E tr path content) ;;
  call (FileWrite path content err) 0 ;;
  match err with
  | None => ret tt
  | Some e => raise (Lib e)
  end.

(** [os.remove(path)] *)
Definition os_remove (path : string) : M unit :=
  err <- ask (fun tr => env_remove E tr path) ;;
  call (FileRemove path err) 0 ;;
  match err with
  | None => ret tt
  | Some e => raise (Lib e)
  end.

(** [time.time()], in milliseconds *)
Definition time_time : M Z := fun w => (Ok (clock w), w).

Definition sleep_error : libexn :=
  {| e_class := ValueErrorClass; e_reason := None; e_read := None; e_code := None;
     e_str := "sleep length must be non-negative" |}.

(** [time.sleep(seconds)] *)
Definition time_sleep (seconds : Z) : M unit :=
  if (seconds <? 0)%Z then raise (Lib sleep_error)
  else call (Sleep seconds) (1000 * seconds).

(** *** [_run_external_cmd] (lines 20-29) *)

Definition _run_external_cmd (cmd_list : list string) (cmd_input : option string)
  (err_msg : string) : M string :=
  r <- popen cmd_list [] cmd_input ;;
  let '(returncode, out, err) := r in
  if negb (returncode =? 0)%Z then raise (IOError_command err_msg err)
  else ret out.

(** *** [_do_request] (lines 32-53) *)

Definition code_is (code : option Z) (c : Z) : bool :=
  match code with
  | Some x => (x =? c)%Z
  | None => false
  end.

Definition code_in (code : option Z) (l : list Z) : bool :=
  existsb (code_is code) l.

(** Lines 36-53: what [_do_request] makes of the outcome of the call. *)
Definition respond (url : json) (data : option signed_body) (err_msg : string)
  (depth : Z) (out : outcome) : result (json * Z * headers) :=
  rbind
    match out with
    | Returned body code hdrs => Ok (body, Some code, hdrs)
    | Raised e =>
        if is_socket_timeout (e_class e) then
          Raise (ValueError (Timed_out err_msg (timeout cfg)))
        else if is_URLError (e_class e) then
          if match e_reason e with
             | Some reason => Str.contains "timed out" reason
             | None => false
             end
          then Raise (ValueError (Timed_out err_msg (timeout cfg)))
          else Raise (ValueError (Network_error err_msg (e_str e)))
        else if is_IOError (e_class e) then
          Ok (match e_read e with Some body => body | None => e_str e end,
              e_code e, EmptyDict)
        else Raise (Lib e)
    end
    (fun r =>
       let '(text, code, hdrs) := r in
       let resp_data :=
         match json_loads L text with
         | Some v => v
         | None => JStr text
         end in
       rbind
         (if (depth <? 100)%Z && code_is code 400 then
            rbind (getitem resp_data "type")
              (fun ty =>
                 if Json.eq_str ty badNonce then Raise (IndexError resp_data)
                 else Ok tt)
          else Ok tt)
         (fun _ =>
            match code with
            | Some c =>
                if code_in code [200; 201; 204]%Z then Ok (resp_data, c, hdrs)
                else Raise (ValueError (Bad_response err_msg url data code resp_data))
            | None =>
                Raise (ValueError (Bad_response err_msg url data code resp_data))
            end)).

Definition _do_request (url : json) (data : option signed_body) (err_msg : string)
  (depth : Z) : M (json * Z * headers) :=
  out <- urlopen url data ;;
  lift (respond url data err_msg depth out).

(** *** [_send_signed_request] (lines 56-68) *)

Definition payload64_of (payload : option json) : string :=
  match payload with
  | None => EmptyString
  | Some p => Codec._b64_encode_jose (Json.dumps p)
  end.

Definition protected64_of (protected : json) : string :=
  Codec._b64_encode_jose (Json.dumps protected).

(** The bytes of a signed body on the wire (line 64). *)
Definition wire (b : signed_body) : string :=
  Json.dumps (JObj [("protected", JStr (protected64_of (sb_protected b)));
                    ("payload", JStr (sb_payload64 b));
                    ("signature", JStr (sb_signature b))]).

(** Lines 57-64: fetch a nonce, build the protected header, sign. *)
Definition sign (s : session) (url : json) (payload : option json) : M signed_body :=
  let payload64 := payload64_of payload in
  nonce_url <- lift (getitem (directory s) "newNonce") ;;
  r <- _do_request nonce_url None "Error" 0 ;;
  new_nonce <- lift (header_get (snd r) "Replay-Nonce") ;;
  key <- match acct_headers s with
         | None => ret ("jwk", jwk s)
         | Some h =>
             location <- lift (header_get h "Location") ;;
             ret ("kid", Json.of_option location)
         end ;;
  let protected :=
    JObj [("url", url); ("alg", JStr (alg s));
          ("nonce", Json.of_option new_nonce); key] in
  let protected64 := protected64_of protected in
  let protected_input := (protected64 ++ "." ++ payload64)%string in
  out <- _run_external_cmd ["openssl"; "dgst"; "-sha256"; "-sign"; account_key cfg]
           (Some protected_input) "OpenSSL Error" ;;
  ret {| sb_protected := protected; sb_payload64 := payload64;
         sb_signature := Codec._b64_encode_jose out |}.

(** Lines 65-68: send, and start over when the answer is a rejected nonce. *)
Fixpoint send_signed (n : nat) (s : session) (url : json) (payload : option json)
  (err_msg : string) (depth : Z) : M (json * Z * headers) :=
  match n with
  | O => diverge
  | S n' =>
      data <- sign s url payload ;;
      try_except (_do_request url (Some data) err_msg depth) is_IndexError
        (fun _ => send_signed n' s url payload err_msg (depth + 1))
  end.

Definition _send_signed_request (s : session) (url : json) (payload : option json)
  (err_msg : string) : M (json * Z * headers) :=
  send_signed fuel s url payload err_msg 0.

(** *** [_poll_until_complete] (lines 71-77) *)

(** [result is None]: the loop starts with no result, and a response whose
    body reads as [null] is no result either. *)
Definition is_None (v : json) : bool :=
  match v with
  | JNull => true
  | _ => false
  end.

Fixpoint poll (n : nat) (s : session) (url : json) (pending_statuses : list string)
  (err_msg : string) (t0 : Z) (result : json) : M json :=
  match n with
  | O => diverge
  | S n' =>
      let again : M json :=
        now <- time_time ;;
        if (now - t0 <? 3600 * 1000)%Z then
          time_sleep (if is_None result then 0 else 2) ;;
          r <- _send_signed_request s url None err_msg ;;
          poll n' s url pending_statuses err_msg t0 (fst (fst r))
        else raise (AssertionError (Some "Polling timeout")) in
      if is_None result then again
      else
        status <- lift (getitem result "status") ;;
        if Json.in_strs status pending_statuses then again else ret result
  end.

Definition _poll_until_complete (s : session) (url : json)
  (pending_statuses : list string) (err_msg : string) : M json :=
  t0 <- time_time ;;
  poll fuel s url pending_statuses err_msg t0 JNull.

(** *** [_execute_dns_api] (lines 80-102) *)

Definition or_empty (o : option string) : string :=
  match o with
  | Some x => x
  | None => EmptyString
  end.

Definition _execute_dns_api (action : string) (domain : json) (token : string)
  (key_auth : option string) : M string :=
  ok <- ask (env_script_ok E) ;;
  if negb ok then raise (ValueError (No_dns_script (env_api_script E)))
  else
    match domain with
    | JStr d =>
        let env := [("ACME_CHALLENGE_TYPE", challenge_type cfg);
                    ("ACME_DOMAIN", d);
                    ("ACME_TOKEN", token);
                    ("ACME_KEY_AUTH", or_empty key_auth);
                    ("DNS_PROVIDER", or_empty (env_getenv E "DNS_PROVIDER"))] in
        let cmd := ["/bin/sh"; env_api_script E; action; d; token; or_empty key_auth] in
        r <- popen cmd env None ;;
        let '(returncode, stdout, stderr) := r in
        if negb (returncode =? 0)%Z then raise (IOError_dns stderr)
        else ret stdout
    | _ => raise TypeError
    end.

(** *** One authorization (the body of the loop of lines 151-208) *)

(** [str.format] of one argument *)
Definition fmt (v : json) : string :=
  match v with
  | JStr s => s
  | _ => py_repr L v
  end.

Definition is_http01 : bool := String.eqb (challenge_type cfg) "http-01".
Definition is_dns01 : bool := String.eqb (challenge_type cfg) "dns-01".

(** Line 181. *)
Definition wellknown_url_of (p : plan) : string :=
  ("http://" ++ fmt (domain p)
   ++ match check_port cfg with
      | None => EmptyString
      | Some port => ":" ++ port
      end
   ++ "/.well-known/acme-challenge/" ++ token p)%string.

(** Lines 180-184: the check that the file is in place. *)
Definition self_check (p : plan) (wellknown_path : string) : M unit :=
  let wellknown_url := wellknown_url_of p in
  try_except
    (if disable_check cfg then ret tt
     else
       r <- _do_request (JStr wellknown_url) None "Error" 0 ;;
       if Json.eq_str (fst (fst r)) (keyauthorization p) then ret tt
       else raise (AssertionError None))
    (fun e => is_AssertionError e || is_ValueError e)
    (fun e => raise (ValueError (Check_failed wellknown_path wellknown_url e))).

(** Lines 173-193: put the response to the challenge in place.  The value
    is [wellknown_path] when the challenge is http-01. *)
Definition prepare (p : plan) : M (option string) :=
  if is_http01 then
    match acme_dir cfg with
    | None => raise TypeError
    | Some dir =>
        let wellknown_path := os_path_join dir (token p) in
        write_file wellknown_path (keyauthorization p) ;;
        self_check p wellknown_path ;;
        ret (Some wellknown_path)
    end
  else if is_dns01 then
    _execute_dns_api "add" (domain p) (token p) (Some (keyauthorization p)) ;;
    match py_int L (match env_getenv E "DNS_PROPAGATION_WAIT" with
                    | Some v => v
                    | None => "30"
                    end) with
    | Some wait_time => time_sleep wait_time ;; ret None
    | None => raise (value_error "invalid literal for int()")
    end
  else ret None.

(** Lines 196-197: tell the CA, then poll the authorization. *)
Definition complete (s : session) (auth_url : json) (p : plan) : M json :=
  url <- lift (getitem (challenge p) "url") ;;
  _send_signed_request s url (Some (JObj []))
    ("Error submitting challenges: " ++ fmt (domain p)) ;;
  _poll_until_complete s auth_url ["pending"]
    ("Error checking challenge status for " ++ fmt (domain p)).

(** Lines 200-204. *)
Definition cleanup (p : plan) (wellknown_path : option string) : M unit :=
  if is_http01 then
    match wellknown_path with
    | Some path => os_remove path
    | None => raise TypeError
    end
  else if is_dns01 then
    _execute_dns_api "rm" (domain p) (token p) (Some (keyauthorization p)) ;;
    ret tt
  else ret tt.

(** Lines 206-207. *)
Definition verdict (p : plan) (authorization : json) : M unit :=
  status <- lift (getitem authorization "status") ;;
  if Json.eq_str status "valid" then ret tt
  else raise (ValueError (Challenge_failed (domain p) authorization)).

(** Lines 152-197: from fetching the authorization to the end of its
    polling; [None] when the authorization is skipped. *)
Definition attempt (s : session) (thumbprint : string) (auth_url : json)
  : M (option (plan * option string * json)) :=
  r <- _send_signed_request s auth_url None "Error getting challenges" ;;
  todo <- lift (plan_of (challenge_type cfg) thumbprint (fst (fst r))) ;;
  match todo with
  | None => ret None
  | Some p =>
      wellknown_path <- prepare p ;;
      authorization <- complete s auth_url p ;;
      ret (Some (p, wellknown_path, authorization))
  end.

Definition process_authorization (s : session) (thumbprint : string) (auth_url : json)
  : M unit :=
  r <- attempt s thumbprint auth_url ;;
  match r with
  | None => ret tt
  | Some (p, wellknown_path, authorization) =>
      cleanup p wellknown_path ;;
      verdict p authorization
  end.

(** Line 151: [for auth_url in order['authorizations']]. *)
Fixpoint authorize_all (s : session) (thumbprint : string) (auth_urls : list json)
  : M unit :=
  match auth_urls with
  | [] => ret tt
  | auth_url :: rest =>
      process_authorization s thumbprint auth_url ;;
      authorize_all s thumbprint rest
  end.

(** *** [get_crt] (lines 104-223) *)

(** Is a decoded value false in a condition? *)
Definition falsy (v : json) : bool :=
  match v with
  | JNull => true
  | JBool b => negb b
  | JNum lit =>
      match lit with
      | String "N" _ | String "I" _ | String "-" (String "I" _) => false
      | _ =>
          let mantissa :=
            (fix upto (s : string) : string :=
               match s with
               | EmptyString => EmptyString
               | String c t =>
                   if Ascii.eqb c "e" || Ascii.eqb c "E" then EmptyString
                   else String c (upto t)
               end) lit in
          Str.forallb (fun c => negb (Str.in_range 49 57 c)) mantissa
      end
  | JStr s => String.eqb s EmptyString
  | JArr l => match l with [] => true | _ => false end
  | JObj l => match l with [] => true | _ => false end
  end.

(** Line 142: ["\n".join(account.get('contact') or [])]. *)
Definition log_contact (account : json) : result unit :=
  match account with
  | JObj fields =>
      match Json.assoc "contact" fields with
      | None => Ok tt
      | Some v =>
          if falsy v then Ok tt
          else
            match v with
            | JArr items =>
                if forallb (fun x => match x with JStr _ => true | _ => false end) items
                then Ok tt else Raise TypeError
            | JStr _ | JObj _ => Ok tt
            | _ => Raise TypeError
            end
      end
  | _ => Raise AttributeError
  end.

Definition reg_payload : json :=
  match contact cfg with
  | None => JObj [("termsOfServiceAgreed", JBool true)]
  | Some c => JObj [("termsOfServiceAgreed", JBool true);
                    ("contact", JArr (List.map JStr c))]
  end.

Definition order_payload (domains : list string) : json :=
  JObj [("identifiers",
         JArr (List.map (fun d => JObj [("type", JStr "dns"); ("value", JStr d)]) domains))].

Definition get_crt : M json :=
  out <- _run_external_cmd ["openssl"; "rsa"; "-in"; account_key cfg; "-noout"; "-text"]
           None "OpenSSL Error" ;;
  key <- match search_pubkey L out with
         | Some k => ret k
         | None => raise AttributeError
         end ;;
  jwk <- lift (compute_jwk (fst key) (snd key)) ;;
  let thumbprint := thumbprint_of L jwk in
  out <- _run_external_cmd ["openssl"; "req"; "-in"; csr cfg; "-noout"; "-text"]
           None ("Error loading " ++ csr cfg) ;;
  let domains := set_order L (csr_domains L out) in
  d <- _do_request (JStr (directory_url cfg)) None "Error getting directory" 0 ;;
  let s0 := {| directory := fst (fst d); acct_headers := None;
               alg := "RS256"; jwk := jwk |} in
  new_account <- lift (getitem (directory s0) "newAccount") ;;
  r <- _send_signed_request s0 new_account (Some reg_payload) "Error registering" ;;
  let s := {| directory := fst (fst d); acct_headers := Some (snd r);
              alg := "RS256"; jwk := jwk |} in
  location <- lift (header_get (snd r) "Location") ;;
  match contact cfg with
  | None => ret tt
  | Some c =>
      a <- _send_signed_request s (Json.of_option location)
             (Some (JObj [("contact", JArr (List.map JStr c))]))
             "Error updating contact details" ;;
      lift (log_contact (fst (fst a)))
  end ;;
  new_order <- lift (getitem (directory s) "newOrder") ;;
  o <- _send_signed_request s new_order (Some (order_payload domains))
         "Error creating new order" ;;
  let order := fst (fst o) in
  let order_headers := snd o in
  authorizations <- lift (getitem order "authorizations") ;;
  auth_urls <- lift (iterate authorizations) ;;
  authorize_all s thumbprint auth_urls ;;
  csr_der <- _run_external_cmd ["openssl"; "req"; "-in"; csr cfg; "-outform"; "DER"]
               None "DER Export Error" ;;
  finalize <- lift (getitem order "finalize") ;;
  _send_signed_request s finalize
    (Some (JObj [("csr", JStr (Codec._b64_encode_jose csr_der))]))
    "Error finalizing order" ;;
  order_location <- lift (header_get order_headers "Location") ;;
  order <- _poll_until_complete s (Json.of_option order_location)
             ["pending"; "processing"] "Error checking order status" ;;
  status <- lift (getitem order "status") ;;
  if negb (Json.eq_str status "valid") then raise (ValueError (Order_failed order))
  else
    certificate <- lift (getitem order "certificate") ;;
    c <- _send_signed_request s certificate None "Certificate download failed" ;;
    ret (fst (fst c)).

End Client.

(* ================================================================= *)
(** ** Notions used to state the properties *)

(** *** What [urlopen] makes of an HTTP response

    With the default opener of [urllib.request] a response whose status is
    not in 200..299 is turned by [HTTPErrorProcessor] and
    [HTTPDefaultErrorHandler] into a raised [HTTPError], whose [reason] is
    the reason phrase, whose [read()] gives the body and whose text is
    ["HTTP Error <code>: <reason>"]. *)

Record http_response : Type := {
  status : Z;
  reason : string;
  body : string;
  header : string -> option string
}.

Definition decimal (z : Z) : string :=
  NilZero.string_of_int (Z.to_int z).

Definition http_error (r : http_response) : libexn :=
  {| e_class := HTTPError;
     e_reason := Some (reason r);
     e_read := Some (body r);
     e_code := Some (status r);
     e_str := "HTTP Error " ++ decimal (status r) ++ ": " ++ reason r |}.

Definition urllib_outcome (r : http_response) : outcome :=
  if (200 <=? status r)%Z && (status r <? 300)%Z
  then Returned (body r) (status r) (Message (header r))
  else Raised (http_error r).

(** *** Traces *)

(** A signed request is a call of [urlopen] with a body. *)
Definition is_post (ev : event) : bool :=
  match ev with
  | Urlopen _ (Some _) _ => true
  | _ => false
  end.

Definition is_sleep (ev : event) : bool :=
  match ev with
  | Sleep _ => true
  | _ => false
  end.

(** The intervals slept, latest first. *)
Fixpoint sleeps (tr : list event) : list Z :=
  match tr with
  | [] => []
  | Sleep n :: t => n :: sleeps t
  | _ :: t => sleeps t
  end.

(** The signed requests sent to [url], latest first. *)
Definition posts (tr : list event) : list event := List.filter is_post tr.

(** The nonce a signed body carries in its protected header. *)
Definition nonce_of (b : signed_body) : result json := getitem (sb_protected b) "nonce".

(** A trace (latest call first) in which every signed request comes right
    after the signing of its body, which comes right after a request
    without body to [nonce_url] that returned, and carries the
    [Replay-Nonce] of that response. *)
Inductive disciplined (nonce_url : json) : list event -> Prop :=
| disciplined_nil : disciplined nonce_url []
| disciplined_plain ev tr :
    is_post ev = false ->
    disciplined nonce_url tr ->
    disciplined nonce_url (ev :: tr)
| disciplined_round url b out cmd env input rc o e text code get tr :
    nonce_of b = Ok (Json.of_option (get "Replay-Nonce")) ->
    disciplined nonce_url tr ->
    disciplined nonce_url
      (Urlopen url (Some b) out
         :: Popen cmd env input rc o e
         :: Urlopen nonce_url None (Returned text code (Message get))
         :: tr).

(** The CA hands out a different nonce at every request to [nonce_url]. *)
Definition one_nonce_per_call (nonce_url : json) (tr : list event) : Prop :=
  forall i j t1 c1 g1 t2 c2 g2,
    i <> j ->
    nth_error tr i = Some (Urlopen nonce_url None (Returned t1 c1 (Message g1))) ->
    nth_error tr j = Some (Urlopen nonce_url None (Returned t2 c2 (Message g2))) ->
    g1 "Replay-Nonce" <> g2 "Replay-Nonce".

(** No two signed requests of the trace carry the same nonce. *)
Definition no_nonce_sent_twice (tr : list event) : Prop :=
  forall i j u1 b1 o1 u2 b2 o2,
    i <> j ->
    nth_error tr i = Some (Urlopen u1 (Some b1) o1) ->
    nth_error tr j = Some (Urlopen u2 (Some b2) o2) ->
    nonce_of b1 <> nonce_of b2.

(** *** The account key *)

(** The number a byte string denotes, most significant byte first. *)
Definition be_value (b : string) : N :=
  fold_left (fun acc c => (256 * acc + N_of_ascii c)%N) (list_ascii_of_string b) 0%N.


(** *** The challenge token and the challenge file *)

(** The characters [A-Za-z0-9_-]. *)
Definition token_alphabet : string :=
  "ABCDEFGHIJKLMNOPQRSTUVWXYZabcdefghijklmnopqrstuvwxyz0123456789_-".

Definition in_token_alphabet (c : ascii) : bool :=
  existsb (Ascii.eqb c) (list_ascii_of_string token_alphabet).

(** A directory as the prefix of the paths of its entries. *)
Definition dir_prefix (dir : string) : string :=
  if String.eqb dir EmptyString || Str.endswith_char "/" dir then dir
  else (dir ++ "/")%string.

(** [path] names [dir] followed by one component that has neither a
    separator nor a dot in it. *)
Definition directly_inside (dir path : string) : Prop :=
  exists name,
    path = (dir_prefix dir ++ name)%string /\
    Str.forallb (fun c => negb (Ascii.eqb c "/" || Ascii.eqb c ".")) name = true.

(** *** Actions and the trace *)

(** An action [emits P] when it only adds calls to the trace, the calls it
    adds satisfy [P], and the clock does not go back. *)
Definition emits {A} (P : list event -> Prop) (c : M A) : Prop :=
  forall w,
    (clock w <= clock (snd (c w)))%Z /\
    exists new, trace (snd (c w)) = new ++ trace w /\ P new.

(** Properties of traces that compose. *)
Record composes (P : list event -> Prop) : Prop := {
  composes_nil : P [];
  composes_app : forall older newer, P older -> P newer -> P (newer ++ older)
}.

(** Traces without a signed request, and traces without a sleep. *)
Definition plain (l : list event) : Prop := Forall (fun ev => is_post ev = false) l.
Definition awake (l : list event) : Prop := Forall (fun ev => is_sleep ev = false) l.

(** What [sign] does: when it returns, it has fetched one nonce from the
    directory's [newNonce] and signed once, in this order, and the body it
    returns carries that nonce; when it raises, it has sent no signed
    request. *)
Definition sign_post (s : session) (url : json) (w : world) (r : result signed_body)
  (w' : world) : Prop :=
  (clock w <= clock w')%Z /\
  match r with
  | Ok data =>
      exists nu text code get cmd input rc o e,
        getitem (directory s) "newNonce" = Ok nu /\
        trace w' =
          Popen cmd [] input rc o e
            :: Urlopen nu None (Returned text code (Message get)) :: trace w /\
        nonce_of data = Ok (Json.of_option (get "Replay-Nonce")) /\
        getitem (sb_protected data) "url" = Ok url
  | Raise _ => exists new, trace w' = new ++ trace w /\ plain new /\ awake new
  | Diverge => False
  end.

(** *** Polling *)

(** The shape of the intervals slept by the polling loop, latest first, when
    no response reads as [null]: two seconds before every poll but the
    first of the loop, none before the first.  [fresh] tells that there is
    no result yet. *)
Definition sleeps_shape (fresh : bool) (l : list Z) : Prop :=
  if fresh then l = [] \/ exists k, l = repeat 2%Z k ++ [0%Z]
  else exists k, l = repeat 2%Z k.

(** Milliseconds the loop may still take before its fuel is used up. *)
Definition slack (fresh : bool) : Z := if fresh then 4000 else 2000.

(** The world after [time.sleep(seconds)]. *)
Definition slept (E : environment) (seconds : Z) (w : world) : world :=
  snd (call E (Sleep seconds) (1000 * seconds) w).

Section Turns.

Variable L : pylib.
Variable E : environment.
Variable cfg : config.
Variable fuel : nat.
Variable s : session.
Variable url : json.
Variable pending : list string.
Variable err_msg : string.

(** The moment the loop was entered. *)
Variable t0 : Z.

(** One turn of the loop of [poll], once the condition has been looked at. *)
Definition turn (n : nat) (last : json) : M json :=
  bind time_time
    (fun now =>
       if (now - t0 <? 3600 * 1000)%Z
       then
         bind (time_sleep E (if is_None last then 0 else 2))
           (fun _ =>
              bind (_send_signed_request L E cfg fuel s url None err_msg)
                (fun r0 => poll L E cfg fuel n s url pending err_msg t0 (fst (fst r0))))
       else raise (AssertionError (Some "Polling timeout"))).

(** The loop goes on: there is no result, or the status of the result is
    one of the pending ones. *)
Definition goes_on (last : json) : Prop :=
  last = JNull \/
  exists st, getitem last "status" = Ok st /\ Json.in_strs st pending = true.

(** The runs of the loop that end, turn by turn, from the last result and
    the world in which the condition of the loop is looked at.  A result
    that is not [null] and whose status is not pending is returned; a
    result without a status raises; otherwise a turn is taken: past the
    hour since the loop was entered the assertion fails, and before it the
    loop sleeps, nothing when there is no result and 2 seconds after a
    result, then sends one signed request to the URL, whose error ends the
    loop and whose answer is the next result. *)
Inductive polling : json -> world -> result json -> world -> Prop :=
| polling_settled : forall last w st,
    last <> JNull ->
    getitem last "status" = Ok st ->
    Json.in_strs st pending = false ->
    polling last w (Ok last) w
| polling_no_status : forall last w e,
    last <> JNull ->
    getitem last "status" = Raise e ->
    polling last w (Raise e) w
| polling_timeout : forall last w,
    goes_on last ->
    (3600 * 1000 <= clock w - t0)%Z ->
    polling last w (Raise (AssertionError (Some "Polling timeout"))) w
| polling_request_raises : forall last w e w2,
    goes_on last ->
    (clock w - t0 < 3600 * 1000)%Z ->
    _send_signed_request L E cfg fuel s url None err_msg
      (slept E (if is_None last then 0 else 2) w) = (Raise e, w2) ->
    polling last w (Raise e) w2
| polling_again : forall last w v c h w2 r w',
    goes_on last ->
    (clock w - t0 < 3600 * 1000)%Z ->
    _send_signed_request L E cfg fuel s url None err_msg
      (slept E (if is_None last then 0 else 2) w) = (Ok (v, c, h), w2) ->
    polling v w2 r w' ->
    polling last w r w'.

End Turns.

(* ================================================================= *)
(** ** Scenarios: a CA double and the pieces around it *)

Module Scenario.

(** A stand-in for the library: the real JSON reader, a fixed digest, the
    fields of a fixed key and request. *)
Definition lib : pylib := {|
  json_loads := Json.loads;
  sha256 := fun _ => "0123456789abcdef0123456789abcdef";
  py_repr := fun _ => "?";
  py_int := fun s => option_map Z.of_N (Codec.int_of_digits s);
  search_pubkey := fun _ => Some ("c3:5f: 7a:01", "65537");
  search_common_name := fun _ => Some "example.com";
  search_alt_names := fun _ => Some "DNS:example.com";
  set_order := fun l => l
|}.

Definition cfg : config := {|
  account_key := "account.key";
  csr := "domain.csr";
  acme_dir := Some "/var/www/challenges";
  disable_check := false;
  directory_url := "https://ca.test/dir";
  contact := None;
  check_port := None;
  challenge_type := "http-01";
  timeout := 30
|}.

Definition cfg_dns : config := {|
  account_key := "account.key";
  csr := "domain.csr";
  acme_dir := None;
  disable_check := false;
  directory_url := "https://ca.test/dir";
  contact := None;
  check_port := None;
  challenge_type := "dns-01";
  timeout := 30
|}.

Definition thumbprint : string := "MDEyMzQ1Njc4OWFiY2RlZjAxMjM0NTY3ODlhYmNkZWY".

(** The token the CA hands out has a separator in it. *)
Definition raw_token : string := "tok/en".

Definition key_auth : string := "tok_en.MDEyMzQ1Njc4OWFiY2RlZjAxMjM0NTY3ODlhYmNkZWY".

Definition directory_doc : json :=
  JObj [("newNonce", JStr "https://ca.test/nonce");
        ("newAccount", JStr "https://ca.test/acct");
        ("newOrder", JStr "https://ca.test/order")].

Definition authorization_doc (status : string) : json :=
  JObj [("identifier", JObj [("type", JStr "dns"); ("value", JStr "example.com")]);
        ("status", JStr status);
        ("challenges",
         JArr [JObj [("type", JStr "dns-01"); ("token", JStr raw_token);
                     ("url", JStr "https://ca.test/chall/2")];
               JObj [("type", JStr "http-01"); ("token", JStr raw_token);
                     ("url", JStr "https://ca.test/chall/1")]])].

Definition order_doc : json :=
  JObj [("status", JStr "pending");
        ("authorizations", JArr [JStr "https://ca.test/authz/1"]);
        ("finalize", JStr "https://ca.test/fin")].

Definition issued_doc : json :=
  JObj [("status", JStr "valid"); ("certificate", JStr "https://ca.test/cert")].

Definition bad_nonce_doc : json := JObj [("type", JStr badNonce)].

(** How the double behaves. *)
Record knobs : Type := {
  authz_before : string;
  authz_after : string;
  served : string;
  challenge_answer : Z;
  reject_nonces : bool
}.

Definition happy : knobs := {|
  authz_before := "pending";
  authz_after := "valid";
  served := key_auth;
  challenge_answer := 200;
  reject_nonces := false
|}.

Definition already_valid : knobs := {|
  authz_before := "valid";
  authz_after := "valid";
  served := key_auth;
  challenge_answer := 200;
  reject_nonces := false
|}.

Definition validation_fails : knobs := {|
  authz_before := "pending";
  authz_after := "invalid";
  served := key_auth;
  challenge_answer := 200;
  reject_nonces := false
|}.

Definition never_validates : knobs := {|
  authz_before := "pending";
  authz_after := "pending";
  served := key_auth;
  challenge_answer := 200;
  reject_nonces := false
|}.

Definition notification_fails : knobs := {|
  authz_before := "pending";
  authz_after := "valid";
  served := key_auth;
  challenge_answer := 500;
  reject_nonces := false
|}.

Definition wrong_file : knobs := {|
  authz_before := "pending";
  authz_after := "valid";
  served := "something else";
  challenge_answer := 200;
  reject_nonces := false
|}.

(** The web server serves the key authorization as a JSON string literal:
    the same characters between two double quotes. *)
Definition quoted_file : knobs := {|
  authz_before := "pending";
  authz_after := "valid";
  served := (Str.dq ++ key_auth ++ Str.dq)%string;
  challenge_answer := 200;
  reject_nonces := false
|}.

Definition rejecting : knobs := {|
  authz_before := "pending";
  authz_after := "valid";
  served := key_auth;
  challenge_answer := 200;
  reject_nonces := true
|}.

Fixpoint tally (n : nat) : string :=
  match n with
  | O => EmptyString
  | S k => String "x" (tally k)
  end.

Definition with_headers (l : list (string * string)) (name : string) : option string :=
  match List.find (fun kv => String.eqb (fst kv) name) l with
  | Some kv => Some (snd kv)
  | None => None
  end.

Definition answer (code : Z) (phrase : string) (doc : string)
  (hs : list (string * string)) : http_response :=
  {| status := code; reason := phrase; body := doc; header := with_headers hs |}.

Definition notified (tr : list event) : bool :=
  existsb (fun ev =>
             match ev with
             | Urlopen (JStr u) (Some _) _ => String.eqb u "https://ca.test/chall/1"
             | _ => false
             end) tr.

(** The HTTP response of the double to a request. *)
Definition reply (k : knobs) (tr : list event) (u : string) (data : option signed_body)
  : http_response :=
  if String.eqb u "https://ca.test/nonce" then
    answer 204 "No Content" EmptyString [("Replay-Nonce", String "n" (tally (List.length tr)))]
  else if String.eqb u "http://example.com/.well-known/acme-challenge/tok_en" then
    answer 200 "OK" (served k) []
  else if reject_nonces k && match data with Some _ => true | None => false end then
    answer 400 "Bad Request" (Json.dumps bad_nonce_doc) []
  else if String.eqb u "https://ca.test/dir" then
    answer 200 "OK" (Json.dumps directory_doc) []
  else if String.eqb u "https://ca.test/acct" then
    answer 201 "Created" "{}" [("Location", "https://ca.test/acct/1")]
  else if String.eqb u "https://ca.test/order" then
    answer 201 "Created" (Json.dumps order_doc) [("Location", "https://ca.test/order/1")]
  else if String.eqb u "https://ca.test/authz/1" then
    answer 200 "OK"
      (Json.dumps (authorization_doc (if notified tr then authz_after k else authz_before k)))
      []
  else if String.eqb u "https://ca.test/chall/1" then
    if (challenge_answer k =? 200)%Z then answer 200 "OK" "{}" []
    else answer (challenge_answer k) "Internal Server Error" "{}" []
  else if String.eqb u "https://ca.test/fin" then
    answer 200 "OK" "{}" []
  else if String.eqb u "https://ca.test/order/1" then
    answer 200 "OK" (Json.dumps issued_doc) []
  else if String.eqb u "https://ca.test/cert" then
    answer 200 "OK" "-----BEGIN CERTIFICATE-----" []
  else answer 404 "Not Found" EmptyString [].

Definition no_such_url : libexn :=
  {| e_class := ValueErrorClass; e_reason := None; e_read := None; e_code := None;
     e_str := "unknown url type" |}.

(** The outside: [urlopen] of the standard library in front of the double,
    child processes that succeed, a file system that obeys. *)
Definition env (k : knobs) : environment := {|
  env_urlopen := fun tr url data =>
    match url with
    | JStr u => urllib_outcome (reply k tr u data)
    | _ => Raised no_such_url
    end;
  env_popen := fun _ _ _ _ => (0%Z, "signature", EmptyString);
  env_write := fun _ _ _ => None;
  env_remove := fun _ _ => None;
  env_api_script := "/opt/dnsapi/dns_api.sh";
  env_script_ok := fun _ => true;
  env_getenv := fun _ => None;
  env_lag := fun _ => 5%N
|}.

(** A double whose [urlopen] hands every response back, whatever its
    status, the way a test harness that replaces [urlopen] would. *)
Definition env_returning (k : knobs) : environment := {|
  env_urlopen := fun tr url data =>
    match url with
    | JStr u =>
        let r := reply k tr u data in
        Returned (body r) (status r) (Message (header r))
    | _ => Raised no_such_url
    end;
  env_popen := fun _ _ _ _ => (0%Z, "signature", EmptyString);
  env_write := fun _ _ _ => None;
  env_remove := fun _ _ => None;
  env_api_script := "/opt/dnsapi/dns_api.sh";
  env_script_ok := fun _ => true;
  env_getenv := fun _ => None;
  env_lag := fun _ => 5%N
|}.

(** The number of signed requests already sent to a URL. *)
Definition asked (u : string) (tr : list event) : nat :=
  List.length
    (List.filter (fun ev =>
                    match ev with
                    | Urlopen (JStr x) (Some _) _ => String.eqb x u
                    | _ => false
                    end) tr).

(** A double that answers the first two signed requests for the
    authorization with a body that reads as [null], and the later ones with
    the valid authorization. *)
Definition env_null_answers : environment := {|
  env_urlopen := fun tr url data =>
    match url with
    | JStr u =>
        urllib_outcome
          (if String.eqb u "https://ca.test/authz/1"
              && (asked "https://ca.test/authz/1" tr <? 2)%nat
           then answer 200 "OK" "null" []
           else reply already_valid tr u data)
    | _ => Raised no_such_url
    end;
  env_popen := fun _ _ _ _ => (0%Z, "signature", EmptyString);
  env_write := fun _ _ _ => None;
  env_remove := fun _ _ => None;
  env_api_script := "/opt/dnsapi/dns_api.sh";
  env_script_ok := fun _ => true;
  env_getenv := fun _ => None;
  env_lag := fun _ => 5%N
|}.

(** A double that answers the polls of the authorization, once it has been
    notified, with an error. *)
Definition env_poll_fails : environment := {|
  env_urlopen := fun tr url data =>
    match url with
    | JStr u =>
        urllib_outcome
          (if String.eqb u "https://ca.test/authz/1" && notified tr
           then answer 500 "Internal Server Error" "{}" []
           else reply happy tr u data)
    | _ => Raised no_such_url
    end;
  env_popen := fun _ _ _ _ => (0%Z, "signature", EmptyString);
  env_write := fun _ _ _ => None;
  env_remove := fun _ _ => None;
  env_api_script := "/opt/dnsapi/dns_api.sh";
  env_script_ok := fun _ => true;
  env_getenv := fun _ => None;
  env_lag := fun _ => 5%N
|}.

Definition start : world := {| trace := []; clock := 0 |}.

Definition registered : session := {|
  directory := directory_doc;
  acct_headers := Some (Message (with_headers [("Location", "https://ca.test/acct/1")]));
  alg := "RS256";
  jwk := JObj []
|}.

Definition authz_url : json := JStr "https://ca.test/authz/1".

(** Observations on a trace. *)
Definition post_count (tr : list event) : nat := List.length (posts tr).

Definition wrote (tr : list event) : bool :=
  existsb (fun ev => match ev with FileWrite _ _ _ => true | _ => false end) tr.

Definition removed (tr : list event) : bool :=
  existsb (fun ev => match ev with FileRemove _ _ => true | _ => false end) tr.

End Scenario.

(** *** Error responses *)

(** What [_do_request] raises for an HTTP response that [urlopen] has
    turned into an [HTTPError]: the clause for [URLError] takes it. *)
Definition network_error (cfg : config) (err_msg : string) (r : http_response) : exn :=
  ValueError
    (if Str.contains "timed out" (reason r)
     then Timed_out err_msg (timeout cfg)
     else Network_error err_msg (e_str (http_error r))).

(** The status of a response is outside 200..299. *)
Definition error_status (r : http_response) : Prop :=
  ((200 <=? status r)%Z && (status r <? 300)%Z) = false.

(** *** Hexadecimal numerals and base64url *)



(** A byte string that is the shortest one for the number it denotes: one
    zero byte, or a first byte that is not zero. *)
Definition minimal_bytes (b : string) : Prop :=
  b = String zero EmptyString \/
  exists c t, b = String c t /\ N_of_ascii c <> 0%N.






(** *** Single calls of a whole run *)

(** A request with a body names, in its protected header, the URL it is
    sent to, and RS256 as its algorithm. *)
Definition bound_to_url (ev : event) : Prop :=
  match ev with
  | Urlopen url (Some data) _ =>
      getitem (sb_protected data) "url" = Ok url /\
      getitem (sb_protected data) "alg" = Ok (JStr "RS256")
  | _ => True
  end.

(** What a run does besides its requests, by the type of the challenge: the
    commands are [openssl], run with the environment of the caller, or, for
    dns-01, the DNS API script run by [/bin/sh] to add or to remove a
    record; files are touched for http-01 only, directly inside the
    challenge directory; a sleep lasts 0 or 2 seconds, or is, for dns-01,
    the wait for the record. *)
Definition within_means (E : environment) (cfg : config) (ev : event) : Prop :=
  match ev with
  | Urlopen _ _ _ => True
  | Popen cmd env input _ _ _ =>
      (exists args, cmd = "openssl" :: args /\ env = [])
      \/ (challenge_type cfg = "dns-01" /\ input = None /\
          exists action d tok ka,
            cmd = ["/bin/sh"; env_api_script E; action; d; tok; ka] /\
            (action = "add" \/ action = "rm"))
  | FileWrite path _ _ | FileRemove path _ =>
      challenge_type cfg = "http-01" /\
      exists dir, acme_dir cfg = Some dir /\ directly_inside dir path
  | Sleep seconds =>
      seconds = 0%Z \/ seconds = 2%Z \/ challenge_type cfg = "dns-01"
  end.

(** A call that cleans up after a challenge: a file is removed, or a script
    is run by [/bin/sh]. *)
Definition cleans (ev : event) : bool :=
  match ev with
  | FileRemove _ _ => true
  | Popen cmd _ _ _ _ _ =>
      match cmd with
      | c :: _ => String.eqb c "/bin/sh"
      | [] => false
      end
  | _ => false
  end.

(** * Properties *)

(* ================================================================= *)
(** ** The monad *)

Lemma bind_ok {A B} (c : M A) (k : A -> M B) w a w1 :
  c w = (Ok a, w1) -> bind c k w = k a w1.
Proof. intros H. unfold bind. rewrite H. reflexivity. Qed.

Lemma bind_raise {A B} (c : M A) (k : A -> M B) w e w1 :
  c w = (Raise e, w1) -> bind c k w = (Raise e, w1).
Proof. intros H. unfold bind. rewrite H. reflexivity. Qed.

Lemma bind_diverge {A B} (c : M A) (k : A -> M B) w w1 :
  c w = (Diverge, w1) -> bind c k w = (Diverge, w1).
Proof. intros H. unfold bind. rewrite H. reflexivity. Qed.

Lemma bind_inv_ok {A B} (c : M A) (k : A -> M B) w b w' :
  bind c k w = (Ok b, w') ->
  exists a w1, c w = (Ok a, w1) /\ k a w1 = (Ok b, w').
Proof.
  unfold bind. destruct (c w) as [[a | e |] w1]; intros H; try discriminate.
  exists a, w1. split; [reflexivity | exact H].
Qed.

Lemma lift_inv_ok {A} (r : result A) w a w' :
  lift r w = (Ok a, w') -> r = Ok a /\ w' = w.
Proof. unfold lift. intros H. inversion H. split; reflexivity. Qed.

Section Emits.

Variable P : list event -> Prop.
Hypothesis P_composes : composes P.

Lemma emits_ret {A} (a : A) : emits P (ret a).
Proof.
  intros w. simpl. split; [lia |]. exists []. split; [reflexivity |].
  apply (composes_nil P_composes).
Qed.

Lemma emits_raise {A} e : emits P (@raise A e).
Proof.
  intros w. simpl. split; [lia |]. exists []. split; [reflexivity |].
  apply (composes_nil P_composes).
Qed.

Lemma emits_diverge {A} : emits P (@diverge A).
Proof.
  intros w. simpl. split; [lia |]. exists []. split; [reflexivity |].
  apply (composes_nil P_composes).
Qed.

Lemma emits_lift {A} (r : result A) : emits P (lift r).
Proof.
  intros w. simpl. split; [lia |]. exists []. split; [reflexivity |].
  apply (composes_nil P_composes).
Qed.

Lemma emits_bind {A B} (c : M A) (k : A -> M B) :
  emits P c -> (forall a, emits P (k a)) -> emits P (bind c k).
Proof.
  intros Hc Hk w. unfold bind.
  destruct (Hc w) as [Hclk [new [Htr HP]]].
  destruct (c w) as [[a | e |] w1]; simpl in *.
  - destruct (Hk a w1) as [Hclk' [new' [Htr' HP']]].
    split; [lia |]. exists (new' ++ new). split.
    + rewrite Htr', Htr. apply app_assoc.
    + apply (composes_app P_composes); assumption.
  - split; [lia |]. exists new. split; assumption.
  - split; [lia |]. exists new. split; assumption.
Qed.

Lemma emits_try {A} (c : M A) handles (h : exn -> M A) :
  emits P c -> (forall e, emits P (h e)) -> emits P (try_except c handles h).
Proof.
  intros Hc Hh w. unfold try_except.
  destruct (Hc w) as [Hclk [new [Htr HP]]].
  destruct (c w) as [[a | e |] w1]; simpl in *.
  - split; [lia |]. exists new. split; assumption.
  - destruct (handles e); simpl.
    + destruct (Hh e w1) as [Hclk' [new' [Htr' HP']]].
      split; [lia |]. exists (new' ++ new). split.
      * rewrite Htr', Htr. apply app_assoc.
      * apply (composes_app P_composes); assumption.
    + split; [lia |]. exists new. split; assumption.
  - split; [lia |]. exists new. split; assumption.
Qed.

End Emits.

Lemma emits_weaken {A} (P Q : list event -> Prop) (c : M A) :
  (forall l, P l -> Q l) -> emits P c -> emits Q c.
Proof.
  intros HPQ Hc w. destruct (Hc w) as [Hclk [new [Htr HP]]].
  split; [exact Hclk |]. exists new. split; [exact Htr | apply HPQ, HP].
Qed.

Lemma plain_composes : composes plain.
Proof.
  split; [constructor |]. intros older newer Ho Hn. apply Forall_app. split; assumption.
Qed.

Lemma awake_composes : composes awake.
Proof.
  split; [constructor |]. intros older newer Ho Hn. apply Forall_app. split; assumption.
Qed.

Lemma anything_composes : composes (fun _ => True).
Proof. split; auto. Qed.

Lemma disciplined_app nu older newer :
  disciplined nu older -> disciplined nu newer -> disciplined nu (newer ++ older).
Proof.
  intros Ho Hn. induction Hn; simpl.
  - exact Ho.
  - apply disciplined_plain; assumption.
  - eapply disciplined_round; eassumption.
Qed.

Lemma disciplined_composes nu : composes (disciplined nu).
Proof.
  split; [constructor |]. intros. apply disciplined_app; assumption.
Qed.

Lemma plain_disciplined nu l : plain l -> disciplined nu l.
Proof.
  induction 1; [constructor | apply disciplined_plain; assumption].
Qed.

(* ================================================================= *)
(** ** What the helper functions add to the trace *)

Ltac emits_step HP :=
  lazymatch goal with
  | |- emits _ (bind _ _) => apply (emits_bind HP); [| intro]
  | |- emits _ (try_except _ _ _) => apply (emits_try HP); [| intro]
  | |- emits _ (ret _) => apply (emits_ret HP)
  | |- emits _ (raise _) => apply (emits_raise HP)
  | |- emits _ diverge => apply (emits_diverge HP)
  | |- emits _ (lift _) => apply (emits_lift HP)
  | |- emits _ (match ?x with _ => _ end) => destruct x
  end.

Section Calls.

Variable L : pylib.
Variable E : environment.
Variable cfg : config.
Variable fuel : nat.

Variable P : list event -> Prop.
Hypothesis HP : composes P.

Lemma emits_ask {A} (f : list event -> A) : emits P (ask f).
Proof.
  intros w. simpl. split; [lia |]. exists []. split; [reflexivity |].
  apply (composes_nil HP).
Qed.

Lemma emits_time_time : emits P time_time.
Proof.
  intros w. simpl. split; [lia |]. exists []. split; [reflexivity |].
  apply (composes_nil HP).
Qed.

Lemma emits_call ev ms : (0 <= ms)%Z -> P [ev] -> emits P (call E ev ms).
Proof.
  intros Hms Hev w. simpl. split; [lia |]. exists [ev]. split; [reflexivity | exact Hev].
Qed.

Lemma emits_urlopen url data :
  (forall out, P [Urlopen url data out]) -> emits P (urlopen E url data).
Proof.
  intros H. unfold urlopen. repeat emits_step HP.
  - apply emits_ask.
  - apply emits_call; [lia | apply H].
Qed.

Lemma emits_popen cmd env input :
  (forall rc o e, P [Popen cmd env input rc o e]) -> emits P (popen E cmd env input).
Proof.
  intros H. unfold popen. repeat emits_step HP.
  - apply emits_ask.
  - apply emits_call; [lia | apply H].
Qed.

Lemma emits_write_file path content :
  (forall err, P [FileWrite path content err]) -> emits P (write_file E path content).
Proof.
  intros H. unfold write_file. repeat emits_step HP.
  - apply emits_ask.
  - apply emits_call; [lia | apply H].
Qed.

Lemma emits_os_remove path :
  (forall err, P [FileRemove path err]) -> emits P (os_remove E path).
Proof.
  intros H. unfold os_remove. repeat emits_step HP.
  - apply emits_ask.
  - apply emits_call; [lia | apply H].
Qed.

Lemma emits_time_sleep seconds :
  P [Sleep seconds] -> emits P (time_sleep E seconds).
Proof.
  intros H. unfold time_sleep. destruct (seconds <? 0)%Z eqn:Hs.
  - apply (emits_raise HP).
  - apply emits_call; [apply Z.ltb_ge in Hs; lia | exact H].
Qed.

Lemma emits_run_external_cmd cmd input err_msg :
  (forall rc o e, P [Popen cmd [] input rc o e]) ->
  emits P (_run_external_cmd E cmd input err_msg).
Proof.
  intros H. unfold _run_external_cmd. emits_step HP.
  - apply emits_popen, H.
  - destruct a as [[rc out] err]. destruct (negb (rc =? 0)%Z); emits_step HP.
Qed.

Lemma emits_do_request url data err_msg depth :
  (forall out, P [Urlopen url data out]) ->
  emits P (_do_request L E cfg url data err_msg depth).
Proof.
  intros H. unfold _do_request. emits_step HP.
  - apply emits_urlopen, H.
  - emits_step HP.
Qed.

End Calls.

(* ================================================================= *)
(** ** Strings *)

Lemma string_app_assoc (a b c : string) : ((a ++ b) ++ c = a ++ (b ++ c))%string.
Proof. induction a as [| x a IH]; simpl; [reflexivity | now rewrite IH]. Qed.

Lemma string_app_nil_r (a : string) : (a ++ EmptyString)%string = a.
Proof. induction a as [| x a IH]; simpl; [reflexivity | now rewrite IH]. Qed.

Lemma string_length_app (a b : string) :
  String.length (a ++ b) = String.length a + String.length b.
Proof. induction a as [| x a IH]; simpl; [reflexivity | now rewrite IH]. Qed.

Lemma forallb_app p (a b : string) :
  Str.forallb p (a ++ b) = Str.forallb p a && Str.forallb p b.
Proof.
  induction a as [| x a IH]; simpl; [reflexivity |].
  rewrite IH. apply andb_assoc.
Qed.

(* ================================================================= *)
(** ** The challenge token and the key authorization *)

Lemma token_char_ok_alphabet c : token_char_ok c = in_token_alphabet c.
Proof.
  destruct c as [[] [] [] [] [] [] [] []]; vm_compute; reflexivity.
Qed.

Lemma re_sub_token_length raw : String.length (re_sub_token raw) = String.length raw.
Proof.
  unfold re_sub_token. induction raw as [| c t IH]; simpl; [reflexivity | now rewrite IH].
Qed.

Lemma re_sub_token_get raw i c :
  String.get i raw = Some c ->
  String.get i (re_sub_token raw) = Some (if in_token_alphabet c then c else "_"%char).
Proof.
  unfold re_sub_token. revert i. induction raw as [| a t IH]; intros i H; simpl in *.
  - discriminate.
  - destruct i as [| i].
    + inversion H; subst. now rewrite token_char_ok_alphabet.
    + apply IH, H.
Qed.

Lemma re_sub_token_ok raw : Str.forallb in_token_alphabet (re_sub_token raw) = true.
Proof.
  unfold re_sub_token. induction raw as [| a t IH]; simpl; [reflexivity |].
  rewrite IH, andb_true_r. rewrite <- token_char_ok_alphabet.
  destruct (token_char_ok a) eqn:Ha; [exact Ha | reflexivity].
Qed.

Lemma forallb_impl (p q : ascii -> bool) s :
  (forall c, p c = true -> q c = true) ->
  Str.forallb p s = true -> Str.forallb q s = true.
Proof.
  intros Hpq. induction s as [| c t IH]; simpl; [reflexivity |].
  intros H. apply andb_true_iff in H. destruct H as [Hc Ht].
  rewrite (Hpq c Hc), (IH Ht). reflexivity.
Qed.

Lemma alphabet_no_sep_no_dot c :
  in_token_alphabet c = true -> negb (Ascii.eqb c "/" || Ascii.eqb c ".") = true.
Proof.
  destruct c as [[] [] [] [] [] [] [] []]; vm_compute; intros H;
    first [reflexivity | discriminate H].
Qed.

Lemma os_path_join_token dir tok :
  Str.forallb in_token_alphabet tok = true ->
  os_path_join dir tok = (dir_prefix dir ++ tok)%string.
Proof.
  intros Hok. unfold os_path_join, dir_prefix.
  assert (Hs : Str.startswith "/" tok = false).
  { destruct tok as [| c t]; [reflexivity |]. simpl in Hok.
    apply andb_true_iff in Hok. destruct Hok as [Hc _].
    unfold Str.startswith.
    destruct c as [[] [] [] [] [] [] [] []];
      first [reflexivity | vm_compute in Hc; discriminate Hc]. }
  rewrite Hs.
  destruct (String.eqb dir EmptyString || Str.endswith_char "/" dir); [reflexivity |].
  rewrite string_app_assoc. reflexivity.
Qed.

Lemma os_path_join_inside dir raw :
  directly_inside dir (os_path_join dir (re_sub_token raw)).
Proof.
  exists (re_sub_token raw). split.
  - apply os_path_join_token, re_sub_token_ok.
  - apply forallb_impl with (p := in_token_alphabet);
      [apply alphabet_no_sep_no_dot | apply re_sub_token_ok].
Qed.

(** What a plan is made of. *)
Lemma plan_of_inv challenge_type thumbprint authorization p :
  plan_of challenge_type thumbprint authorization = Ok (Some p) ->
  exists raw,
    getitem (challenge p) "token" = Ok (JStr raw) /\
    token p = re_sub_token raw /\
    keyauthorization p = keyauthorization_of (token p) thumbprint.
Proof.
  unfold plan_of, rbind. intros H.
  destruct (getitem authorization "identifier") as [idf | |]; try discriminate.
  destruct (getitem idf "value") as [dom | |]; try discriminate.
  destruct (getitem authorization "status") as [st | |]; try discriminate.
  destruct (Json.eq_str st "valid"); try discriminate.
  destruct (getitem authorization "challenges") as [chs | |]; try discriminate.
  destruct (iterate chs) as [items | |]; try discriminate.
  destruct (find_challenge challenge_type items) as [[c |] | |]; try discriminate.
  destruct (getitem c "token") as [tok | |] eqn:Htok; try discriminate.
  destruct tok as [| | | raw | |]; try discriminate.
  inversion H; subst; simpl. exists raw. repeat split; assumption.
Qed.

(* ================================================================= *)
(** ** Single calls, step by step *)

Section Steps.

Variable L : pylib.
Variable E : environment.
Variable cfg : config.

Lemma write_file_run path content w :
  let err := env_write E (trace w) path content in
  write_file E path content w =
  (match err with None => Ok tt | Some e => Raise (Lib e) end,
   snd (call E (FileWrite path content err) 0 w)).
Proof.
  unfold write_file, bind, ask. simpl.
  destruct (env_write E (trace w) path content); reflexivity.
Qed.

Lemma os_remove_run path w :
  let err := env_remove E (trace w) path in
  os_remove E path w =
  (match err with None => Ok tt | Some e => Raise (Lib e) end,
   snd (call E (FileRemove path err) 0 w)).
Proof.
  unfold os_remove, bind, ask. simpl.
  destruct (env_remove E (trace w) path); reflexivity.
Qed.

Lemma urlopen_run url data w :
  let out := env_urlopen E (trace w) url data in
  urlopen E url data w = (Ok out, snd (call E (Urlopen url data out) 0 w)).
Proof. reflexivity. Qed.

Lemma popen_run cmd env input w :
  let r := env_popen E (trace w) cmd env input in
  popen E cmd env input w =
  (Ok r, snd (call E (Popen cmd env input (fst (fst r)) (snd (fst r)) (snd r)) 0 w)).
Proof. reflexivity. Qed.

(** A request makes exactly one call; what it returns or raises is
    [respond] of the outcome of that call. *)
Lemma do_request_run url data err_msg depth w :
  let out := env_urlopen E (trace w) url data in
  _do_request L E cfg url data err_msg depth w =
  (respond L cfg url data err_msg depth out, snd (call E (Urlopen url data out) 0 w)).
Proof. reflexivity. Qed.

Lemma respond_total url data err_msg depth out :
  respond L cfg url data err_msg depth out <> Diverge.
Proof.
  unfold respond, rbind.
  destruct out as [text code hdrs | e].
  - destruct (json_loads L text) as [v |];
      destruct ((depth <? 100)%Z && code_is (Some code) 400);
      try (destruct (getitem _ "type") as [ty | |] eqn:Hty;
           [destruct (Json.eq_str ty badNonce) | |
            exfalso; revert Hty; unfold getitem;
            repeat match goal with |- context [match ?x with _ => _ end] => destruct x end;
            discriminate]);
      try discriminate;
      destruct (code_in (Some code) [200; 201; 204]%Z); discriminate.
  - destruct (is_socket_timeout (e_class e)); [discriminate |].
    destruct (is_URLError (e_class e)).
    { destruct (match e_reason e with
                | Some reason => Str.contains "timed out" reason
                | None => false
                end); discriminate. }
    destruct (is_IOError (e_class e)); [| discriminate].
    destruct (json_loads L _) as [v |];
      destruct ((depth <? 100)%Z && code_is (e_code e) 400);
      try (destruct (getitem _ "type") as [ty | |] eqn:Hty;
           [destruct (Json.eq_str ty badNonce) | |
            exfalso; revert Hty; unfold getitem;
            repeat match goal with |- context [match ?x with _ => _ end] => destruct x end;
            discriminate]);
      try discriminate;
      destruct (e_code e) as [c |]; try discriminate;
      destruct (code_in (Some c) [200; 201; 204]%Z); discriminate.
Qed.

End Steps.

(* ================================================================= *)
(** ** Signed requests *)

(** Case analysis on every [match] of a hypothesis, innermost first. *)
Ltac break_matches H :=
  repeat (simpl in H; try discriminate H;
          match type of H with
          | context [match ?x with _ => _ end] =>
              lazymatch x with
              | context [match _ with _ => _ end] => fail
              | _ => destruct x eqn:?
              end
          end);
  simpl in H; try discriminate H.

Lemma getitem_total v key : getitem v key <> Diverge.
Proof.
  unfold getitem. destruct v; try discriminate.
  destruct (Json.assoc key fields); discriminate.
Qed.

Lemma header_get_total h name : header_get h name <> Diverge.
Proof. destruct h; discriminate. Qed.

Section Signed.

Variable L : pylib.
Variable E : environment.
Variable cfg : config.

Lemma run_external_cmd_run cmd input err_msg w :
  let r := env_popen E (trace w) cmd [] input in
  _run_external_cmd E cmd input err_msg w =
  (if negb (fst (fst r) =? 0)%Z then Raise (IOError_command err_msg (snd r))
   else Ok (snd (fst r)),
   snd (call E (Popen cmd [] input (fst (fst r)) (snd (fst r)) (snd r)) 0 w)).
Proof.
  unfold _run_external_cmd. unfold bind. rewrite popen_run. cbv zeta.
  destruct (env_popen E (trace w) cmd [] input) as [[rc out] err]. simpl.
  destruct (negb (rc =? 0)%Z); reflexivity.
Qed.

(** Headers that can be subscripted came with a response that arrived. *)
Lemma respond_ok_message url data err_msg depth out v c get :
  respond L cfg url data err_msg depth out = Ok (v, c, Message get) ->
  exists text, out = Returned text c (Message get).
Proof.
  unfold respond, rbind. intros H.
  destruct out as [text code hdrs | e].
  - exists text. break_matches H; inversion H; subst; reflexivity.
  - exfalso. break_matches H; inversion H.
Qed.

(** The retry signal is only raised below depth 100. *)
Lemma respond_IndexError_depth url data err_msg depth out d :
  respond L cfg url data err_msg depth out = Raise (IndexError d) ->
  (depth < 100)%Z.
Proof.
  unfold respond, rbind. intros H.
  destruct (depth <? 100)%Z eqn:Hd; [apply Z.ltb_lt, Hd |]. exfalso.
  simpl in H. destruct out as [text code hdrs | e]; break_matches H.
Qed.

Lemma sign_spec s url payload w r w' :
  sign L E cfg s url payload w = (r, w') -> sign_post s url w r w'.
Proof.
  intros Hs. unfold sign in Hs. cbv zeta in Hs. unfold bind at 1, lift at 1 in Hs.
  destruct (getitem (directory s) "newNonce") as [nu | e0 |] eqn:Hnu.
  2: { inversion Hs; subst. split; [lia |]. exists [].
       split; [reflexivity | unfold plain, awake; split; constructor]. }
  2: { exfalso. exact (getitem_total _ _ Hnu). }
  unfold bind at 1 in Hs. rewrite do_request_run in Hs. cbv zeta in Hs.
  set (o1 := env_urlopen E (trace w) nu None) in Hs.
  set (ev1 := Urlopen nu None o1) in Hs.
  assert (Hev1 : is_post ev1 = false /\ is_sleep ev1 = false) by (split; reflexivity).
  set (w1 := snd (call E ev1 0 w)) in Hs.
  assert (Hw1 : trace w1 = ev1 :: trace w) by reflexivity.
  assert (Hc1 : (clock w <= clock w1)%Z) by (simpl; lia).
  clearbody w1.
  assert (Hfail : forall (e1 : exn), (@Raise signed_body e1, w1) = (r, w') ->
                  sign_post s url w r w').
  { intros e1 H. inversion H; subst. split; [exact Hc1 |]. exists [ev1].
    split; [exact Hw1 | unfold plain, awake; split; repeat constructor; apply Hev1]. }
  destruct (respond L cfg nu None "Error" 0 o1) as [[[v c] h] | e1 |] eqn:Hr.
  2: { exact (Hfail _ Hs). }
  2: { exfalso. exact (respond_total _ _ _ _ _ _ _ Hr). }
  simpl snd in Hs. unfold bind at 1, lift at 1 in Hs.
  destruct h as [get |]; simpl header_get in Hs.
  2: { exact (Hfail _ Hs). }
  destruct (respond_ok_message _ _ _ _ _ Hr) as [text Ho1].
  assert (Hkey : forall key : string * json,
    bind (_run_external_cmd E
            ["openssl"; "dgst"; "-sha256"; "-sign"; account_key cfg]
            (Some (protected64_of
                     (JObj [("url", url); ("alg", JStr (alg s));
                            ("nonce", Json.of_option (get "Replay-Nonce")); key])
                     ++ "." ++ payload64_of payload)%string)
            "OpenSSL Error")
         (fun out =>
            ret {| sb_protected :=
                     JObj [("url", url); ("alg", JStr (alg s));
                           ("nonce", Json.of_option (get "Replay-Nonce")); key];
                   sb_payload64 := payload64_of payload;
                   sb_signature := Codec._b64_encode_jose out |}) w1 = (r, w') ->
    sign_post s url w r w').
  { intros key H. unfold bind in H. rewrite run_external_cmd_run in H. cbv zeta in H.
    destruct (env_popen E (trace w1) _ [] _) as [[rc out] err].
    simpl fst in H. simpl snd in H.
    destruct (negb (rc =? 0)%Z); inversion H; subst; clear H;
      unfold sign_post; simpl clock; simpl trace.
    - split; [lia |]. eexists [_; ev1]. rewrite Hw1.
      split; [reflexivity |].
      unfold plain, awake; split; repeat constructor; apply Hev1.
    - split; [lia |]. exists nu, text, c, get. do 5 eexists.
      split; [exact Hnu |]. rewrite Hw1. subst ev1. rewrite Ho1.
      split; [reflexivity |]. split; reflexivity. }
  unfold bind at 1 in Hs.
  destruct (acct_headers s) as [h |].
  - unfold bind at 1, lift at 1 in Hs.
    destruct (header_get h "Location") as [loc | e2 |] eqn:Hloc.
    + unfold ret at 1 in Hs. apply (Hkey ("kid", Json.of_option loc)). exact Hs.
    + exact (Hfail _ Hs).
    + exfalso. exact (header_get_total _ _ Hloc).
  - unfold ret at 1 in Hs. apply (Hkey ("jwk", jwk s)). exact Hs.
Qed.

(** What a signed request adds to the trace: rounds of one nonce fetched,
    one signature and one request sent with that nonce, and no sleep; and it
    ends when there is fuel for the retries that remain below depth 100. *)
Lemma send_signed_spec n s url payload err_msg :
  forall depth w r w',
    send_signed L E cfg n s url payload err_msg depth w = (r, w') ->
    (clock w <= clock w')%Z /\
    exists new,
      trace w' = new ++ trace w /\
      awake new /\
      (forall nu, (forall v, getitem (directory s) "newNonce" = Ok v -> v = nu) ->
                  disciplined nu new) /\
      ((0 < n)%nat -> (100 - depth < Z.of_nat n)%Z -> r <> Diverge).
Proof.
  induction n as [| n IH]; intros depth w r w' H.
  - inversion H; subst. split; [lia |]. exists [].
    split; [reflexivity |]. split; [constructor |].
    split; [intros; apply disciplined_nil | lia].
  - simpl in H. unfold bind at 1 in H.
    destruct (sign L E cfg s url payload w) as [[data | e |] w1] eqn:Hs;
      apply sign_spec in Hs; destruct Hs as [Hc1 Hs].
    + destruct Hs as (nu & text & code & get & cmd & input & rc & o & e &
                      Hnu & Hw1 & Hnonce & _).
      unfold try_except in H. rewrite do_request_run in H. cbv zeta in H.
      set (out := env_urlopen E (trace w1) url (Some data)) in H.
      set (w2 := snd (call E (Urlopen url (Some data) out) 0 w1)) in H.
      assert (Hw2 : trace w2 = Urlopen url (Some data) out :: trace w1) by reflexivity.
      assert (Hc2 : (clock w1 <= clock w2)%Z) by (simpl; lia).
      clearbody w2.
      assert (Hround : forall nu0,
                (forall v, getitem (directory s) "newNonce" = Ok v -> v = nu0) ->
                disciplined nu0
                  [Urlopen url (Some data) out; Popen cmd [] input rc o e;
                   Urlopen nu None (Returned text code (Message get))]).
      { intros nu0 Hnu0. rewrite <- (Hnu0 _ Hnu).
        eapply disciplined_round; [exact Hnonce | constructor]. }
      assert (Hawake : awake [Urlopen url (Some data) out; Popen cmd [] input rc o e;
                              Urlopen nu None (Returned text code (Message get))]).
      { repeat constructor. }
      destruct (respond L cfg url (Some data) err_msg depth out) as [v | e1 |] eqn:Hr.
      * inversion H; subst. split; [lia |].
        exists [Urlopen url (Some data) out; Popen cmd [] input rc o e;
                Urlopen nu None (Returned text code (Message get))].
        rewrite Hw2, Hw1.
        split; [reflexivity |]. split; [exact Hawake |]. split; [exact Hround |].
        discriminate.
      * destruct (is_IndexError e1) eqn:Hidx.
        -- destruct e1; try discriminate Hidx.
           apply respond_IndexError_depth in Hr.
           apply IH in H. destruct H as [Hc3 (new & Hnew & Ha & Hd & Ht)].
           split; [lia |]. exists (new ++ [Urlopen url (Some data) out;
                                           Popen cmd [] input rc o e;
                                           Urlopen nu None (Returned text code (Message get))]).
           split; [rewrite Hnew, Hw2, Hw1, <- app_assoc; reflexivity |].
           split; [apply Forall_app; split; assumption |].
           split.
           ++ intros nu0 Hnu0. apply disciplined_app; [apply Hround | apply Hd]; exact Hnu0.
           ++ intros _ Hfuel. apply Ht; lia.
        -- inversion H; subst. split; [lia |].
           exists [Urlopen url (Some data) out; Popen cmd [] input rc o e;
                   Urlopen nu None (Returned text code (Message get))].
           rewrite Hw2, Hw1.
           split; [reflexivity |]. split; [exact Hawake |]. split; [exact Hround |].
           discriminate.
      * exfalso. exact (respond_total _ _ _ _ _ _ _ Hr).
    + destruct Hs as (new & Hnew & Hp & Ha). inversion H; subst.
      split; [exact Hc1 |]. exists new. split; [exact Hnew |]. split; [exact Ha |].
      split; [intros; apply plain_disciplined, Hp | discriminate].
    + contradiction.
Qed.

Lemma send_signed_total n s url payload err_msg w :
  (100 < n)%nat ->
  fst (send_signed L E cfg n s url payload err_msg 0 w) <> Diverge.
Proof.
  intros Hn.
  destruct (send_signed L E cfg n s url payload err_msg 0 w) as [r w'] eqn:H.
  apply send_signed_spec in H. destruct H as [_ (new & _ & _ & _ & Ht)].
  apply Ht; lia.
Qed.

Lemma emits_send_signed_awake n s url payload err_msg depth :
  emits awake (send_signed L E cfg n s url payload err_msg depth).
Proof.
  intros w.
  destruct (send_signed L E cfg n s url payload err_msg depth w) as [r w'] eqn:H.
  apply send_signed_spec in H. destruct H as [Hc (new & Hnew & Ha & _)].
  split; [exact Hc |]. exists new. split; assumption.
Qed.

Lemma emits_send_signed_disciplined nu n s url payload err_msg depth :
  (forall v, getitem (directory s) "newNonce" = Ok v -> v = nu) ->
  emits (disciplined nu) (send_signed L E cfg n s url payload err_msg depth).
Proof.
  intros Hnu w.
  destruct (send_signed L E cfg n s url payload err_msg depth w) as [r w'] eqn:H.
  apply send_signed_spec in H. destruct H as [Hc (new & Hnew & _ & Hd & _)].
  split; [exact Hc |]. exists new. split; [exact Hnew | apply Hd, Hnu].
Qed.

End Signed.

(* ================================================================= *)
(** ** Polling *)

Lemma sleeps_app a b : sleeps (a ++ b) = sleeps a ++ sleeps b.
Proof.
  induction a as [| ev a IH]; simpl; [reflexivity |].
  destruct ev; simpl; rewrite IH; reflexivity.
Qed.

Lemma awake_sleeps l : awake l -> sleeps l = [].
Proof.
  induction 1 as [| ev l Hev _ IH]; simpl; [reflexivity |].
  destruct ev; simpl in *; try discriminate; exact IH.
Qed.

Lemma repeat_snoc {A} (x : A) k : repeat x k ++ [x] = x :: repeat x k.
Proof. induction k as [| k IH]; simpl; [reflexivity | now rewrite IH]. Qed.

Lemma time_sleep_run E seconds w :
  (0 <= seconds)%Z ->
  time_sleep E seconds w = (Ok tt, slept E seconds w).
Proof.
  intros H. unfold time_sleep, slept.
  destruct (seconds <? 0)%Z eqn:Hneg; [apply Z.ltb_lt in Hneg; lia | reflexivity].
Qed.

Lemma slept_trace E seconds w : trace (slept E seconds w) = Sleep seconds :: trace w.
Proof. reflexivity. Qed.

Lemma slept_clock E seconds w :
  (clock w + 1000 * seconds <= clock (slept E seconds w))%Z.
Proof. unfold slept. simpl. lia. Qed.

Lemma is_None_true v : is_None v = true -> v = JNull.
Proof. destruct v; first [reflexivity | discriminate]. Qed.

Lemma is_None_false v : is_None v = false -> v <> JNull.
Proof. intros H ->. discriminate H. Qed.

Lemma with_status_not_None v st : getitem v "status" = Ok st -> is_None v = false.
Proof. destruct v; first [reflexivity | discriminate]. Qed.

Section Polling.

Variable L : pylib.
Variable E : environment.
Variable cfg : config.
Variable fuel : nat.

Variable s : session.
Variable url : json.
Variable pending : list string.
Variable err_msg : string.
Variable t0 : Z.

Lemma poll_unfold n last :
  poll L E cfg fuel (S n) s url pending err_msg t0 last =
  if is_None last then turn L E cfg fuel s url pending err_msg t0 n last
  else
    bind (lift (getitem last "status"))
      (fun status =>
         if Json.in_strs status pending
         then turn L E cfg fuel s url pending err_msg t0 n last else ret last).
Proof. reflexivity. Qed.

Lemma turn_run n last w :
  turn L E cfg fuel s url pending err_msg t0 n last w =
  if (clock w - t0 <? 3600 * 1000)%Z
  then
    bind (_send_signed_request L E cfg fuel s url None err_msg)
      (fun r0 => poll L E cfg fuel n s url pending err_msg t0 (fst (fst r0)))
      (slept E (if is_None last then 0 else 2) w)
  else (Raise (AssertionError (Some "Polling timeout")), w).
Proof.
  unfold turn. unfold bind at 1, time_time at 1.
  destruct (clock w - t0 <? 3600 * 1000)%Z; [| reflexivity].
  unfold bind at 1. rewrite time_sleep_run; [reflexivity |].
  destruct (is_None last); lia.
Qed.

(** What the loop does, by the last result. *)
Lemma poll_cases n last w :
  (goes_on pending last /\
   poll L E cfg fuel (S n) s url pending err_msg t0 last w
   = turn L E cfg fuel s url pending err_msg t0 n last w)
  \/ (exists st, last <> JNull /\ getitem last "status" = Ok st /\
                 Json.in_strs st pending = false /\
                 poll L E cfg fuel (S n) s url pending err_msg t0 last w = (Ok last, w))
  \/ (exists e, last <> JNull /\ getitem last "status" = Raise e /\
                poll L E cfg fuel (S n) s url pending err_msg t0 last w = (Raise e, w)).
Proof.
  pose proof (poll_unfold n last) as Hp.
  assert (Hw : poll L E cfg fuel (S n) s url pending err_msg t0 last w
               = (if is_None last
                  then turn L E cfg fuel s url pending err_msg t0 n last
                  else
                    bind (lift (getitem last "status"))
                      (fun status =>
                         if Json.in_strs status pending
                         then turn L E cfg fuel s url pending err_msg t0 n last
                         else ret last)) w)
    by (rewrite Hp; reflexivity).
  clear Hp. destruct (is_None last) eqn:Hnone.
  - left. split; [left; apply is_None_true, Hnone | exact Hw].
  - apply is_None_false in Hnone. unfold bind at 1, lift at 1 in Hw.
    destruct (getitem last "status") as [st | e |] eqn:Hst.
    + destruct (Json.in_strs st pending) eqn:Hin.
      * left. split; [right; exists st; split; [exact Hst | exact Hin] | exact Hw].
      * right. left. exists st.
        split; [exact Hnone |]. split; [first [exact Hst | reflexivity] |].
        split; [first [exact Hin | reflexivity] | exact Hw].
    + right. right. exists e.
      split; [exact Hnone |]. split; [first [exact Hst | reflexivity] | exact Hw].
    + exfalso. exact (getitem_total _ _ Hst).
Qed.

(** Every run of the loop that ends is a run of turns. *)
Lemma poll_polling :
  forall n last w r w',
    poll L E cfg fuel n s url pending err_msg t0 last w = (r, w') ->
    r <> Diverge ->
    polling L E cfg fuel s url pending err_msg t0 last w r w'.
Proof.
  induction n as [| n IH]; intros last w r w' H Hend.
  - inversion H; subst. exfalso. apply Hend. reflexivity.
  - destruct (poll_cases n last w)
      as [[Hgo Hp] | [(st & Hlast & Hst & Hin & Hp) | (e & Hlast & Hst & Hp)]];
      rewrite Hp in H.
    + rewrite turn_run in H.
      destruct (clock w - t0 <? 3600 * 1000)%Z eqn:Hnow.
      * apply Z.ltb_lt in Hnow. unfold bind at 1 in H.
        destruct (_send_signed_request L E cfg fuel s url None err_msg
                    (slept E (if is_None last then 0 else 2) w))
          as [[[[v c] h] | e |] w2] eqn:Hsend.
        -- eapply polling_again; [exact Hgo | exact Hnow | exact Hsend |].
           apply IH; assumption.
        -- inversion H; subst.
           eapply polling_request_raises; [exact Hgo | exact Hnow | exact Hsend].
        -- inversion H; subst. exfalso. apply Hend. reflexivity.
      * apply Z.ltb_ge in Hnow. inversion H; subst.
        apply polling_timeout; assumption.
    + inversion H; subst. eapply polling_settled; eassumption.
    + inversion H; subst. apply polling_no_status; assumption.
Qed.

Hypothesis fuel_retries : (100 < fuel)%nat.

Lemma send_signed_request_spec s0 url0 payload err_msg0 w r w' :
  _send_signed_request L E cfg fuel s0 url0 payload err_msg0 w = (r, w') ->
  (clock w <= clock w')%Z /\
  r <> Diverge /\
  exists new, trace w' = new ++ trace w /\ awake new.
Proof.
  unfold _send_signed_request. intros H. apply send_signed_spec in H.
  destruct H as [Hc (new & Hnew & Ha & _ & Ht)].
  split; [exact Hc |]. split; [apply Ht; lia |]. exists new. split; assumption.
Qed.

(** No poll is answered with a body that reads as [null]. *)
Hypothesis answers_not_null :
  forall w1 v c h w2,
    _send_signed_request L E cfg fuel s url None err_msg w1 = (Ok (v, c, h), w2) ->
    v <> JNull.

Lemma not_null_is_None v : v <> JNull -> is_None v = false.
Proof. destruct v; first [reflexivity | intros H; exfalso; apply H; reflexivity]. Qed.

(** The loop, when no answer reads as [null]: the clock does not go back,
    the intervals slept have the shape above, their number is bounded by
    the time left until the ceiling, and the loop ends when the fuel covers
    that time. *)
Lemma poll_spec :
  forall n last w r w',
    poll L E cfg fuel n s url pending err_msg t0 last w = (r, w') ->
    (clock w <= clock w')%Z /\
    exists new,
      trace w' = new ++ trace w /\
      sleeps_shape (is_None last) (sleeps new) /\
      (sleeps new = []
       \/ (2000 * Z.of_nat (List.length (sleeps new))
           < 3600000 - (clock w - t0) + slack (is_None last))%Z) /\
      ((3600000 - (clock w - t0) + slack (is_None last) <= 2000 * Z.of_nat n)%Z ->
       (0 < n)%nat -> r <> Diverge).
Proof.
  assert (Hnil : forall fresh, sleeps_shape fresh []).
  { intros [|]; cbn [sleeps_shape]; [left; reflexivity | exists 0%nat; reflexivity]. }
  induction n as [| n IH]; intros last w r w' H.
  - inversion H; subst. split; [lia |]. exists [].
    split; [reflexivity |]. split; [apply Hnil |]. split; [left; reflexivity | lia].
  - destruct (poll_cases n last w)
      as [[Hgo Hp] | [(st & Hlast & Hst & Hin & Hp) | (e & Hlast & Hst & Hp)]];
      rewrite Hp in H.
    + rewrite turn_run in H.
      destruct (clock w - t0 <? 3600 * 1000)%Z eqn:Hnow.
      2: { inversion H; subst. split; [lia |]. exists [].
           split; [reflexivity |]. split; [apply Hnil |].
           split; [left; reflexivity | discriminate]. }
      apply Z.ltb_lt in Hnow.
      set (secs := if is_None last then 0%Z else 2%Z) in H.
      assert (Hsecs : (0 <= secs)%Z) by (subst secs; destruct (is_None last); lia).
      pose proof (slept_trace E secs w) as Hw1.
      pose proof (slept_clock E secs w) as Hc1.
      set (w1 := slept E secs w) in *. clearbody w1.
      unfold bind at 1 in H.
      destruct (_send_signed_request L E cfg fuel s url None err_msg w1)
        as [[r0 | e |] w2] eqn:Hsend.
      * assert (Hfresh : is_None (fst (fst r0)) = false).
        { destruct r0 as [[v c] h]. apply not_null_is_None.
          exact (answers_not_null _ Hsend). }
        apply send_signed_request_spec in Hsend.
        destruct Hsend as [Hc2 [Hnd (new2 & Hw2 & Ha2)]].
        apply IH in H. destruct H as [Hc3 (new3 & Hw3 & Hshape & Hcount & Hterm)].
        rewrite Hfresh in Hshape, Hcount, Hterm. cbn [sleeps_shape slack] in *.
        split; [lia |]. exists (new3 ++ new2 ++ [Sleep secs]).
        split; [rewrite Hw3, Hw2, Hw1, <- !app_assoc; reflexivity |].
        rewrite !sleeps_app, (awake_sleeps Ha2). simpl sleeps. simpl app.
        destruct Hshape as [k Hk]. rewrite Hk.
        split; [| split].
        -- subst secs. destruct (is_None last); cbn [sleeps_shape].
           ++ right. exists k. reflexivity.
           ++ exists (S k). rewrite repeat_snoc. reflexivity.
        -- right. rewrite length_app, repeat_length. simpl List.length.
           destruct Hcount as [Hnil' | Hlt].
           ++ rewrite Hk in Hnil'. destruct k; [| discriminate Hnil'].
              subst secs. destruct (is_None last); cbn [slack]; lia.
           ++ rewrite Hk, repeat_length in Hlt.
              subst secs. destruct (is_None last); cbn [slack]; lia.
        -- intros Hfuel _. subst secs. apply Hterm.
           ++ destruct (is_None last); cbn [slack] in Hfuel; lia.
           ++ destruct (is_None last); cbn [slack] in Hfuel; lia.
      * apply send_signed_request_spec in Hsend.
        destruct Hsend as [Hc2 [Hnd (new2 & Hw2 & Ha2)]].
        inversion H; subst r w'. split; [lia |]. exists (new2 ++ [Sleep secs]).
        split; [rewrite Hw2, Hw1, <- app_assoc; reflexivity |].
        rewrite sleeps_app, (awake_sleeps Ha2). cbn [sleeps app List.length].
        subst secs. split; [| split; [right | discriminate]].
        -- destruct (is_None last); cbn [sleeps_shape];
             [right; exists 0%nat; reflexivity | exists 1%nat; reflexivity].
        -- destruct (is_None last); cbn [slack]; lia.
      * apply send_signed_request_spec in Hsend.
        destruct Hsend as [_ [Hnd _]]. exfalso. apply Hnd. reflexivity.
    + inversion H; subst. split; [lia |]. exists [].
      split; [reflexivity |]. split; [apply Hnil |].
      split; [left; reflexivity | discriminate].
    + inversion H; subst. split; [lia |]. exists [].
      split; [reflexivity |]. split; [apply Hnil |].
      split; [left; reflexivity | discriminate].
Qed.

(** The first turn sleeps nothing, and every other one two seconds; there
    are 1800 of these at most. *)
Lemma poll_first_turn n w r w' :
  clock w = t0 ->
  poll L E cfg fuel (S n) s url pending err_msg t0 JNull w = (r, w') ->
  exists k new,
    (k <= 1800)%nat /\
    trace w' = new ++ trace w /\
    sleeps new = repeat 2%Z k ++ [0%Z].
Proof.
  intros Ht0 H. rewrite poll_unfold in H. cbn [is_None] in H.
  rewrite turn_run in H. cbn [is_None] in H.
  replace (clock w - t0 <? 3600 * 1000)%Z with true in H
    by (symmetry; apply Z.ltb_lt; lia).
  pose proof (slept_trace E 0 w) as Hw1.
  pose proof (slept_clock E 0 w) as Hc1.
  set (w1 := slept E 0 w) in *. clearbody w1.
  unfold bind at 1 in H.
  destruct (_send_signed_request L E cfg fuel s url None err_msg w1)
    as [[r0 | e |] w2] eqn:Hsend.
  - assert (Hfresh : is_None (fst (fst r0)) = false).
    { destruct r0 as [[v c] h]. apply not_null_is_None.
      exact (answers_not_null _ Hsend). }
    apply send_signed_request_spec in Hsend.
    destruct Hsend as [Hc2 [Hnd (new2 & Hw2 & Ha2)]].
    apply poll_spec in H.
    destruct H as [Hc3 (new3 & Hw3 & Hshape & Hcount & _)].
    rewrite Hfresh in Hshape, Hcount. cbn [sleeps_shape slack] in *.
    destruct Hshape as [k Hk].
    exists k, (new3 ++ new2 ++ [Sleep 0]).
    split; [| split].
    + destruct Hcount as [Hnil | Hlt].
      * rewrite Hk in Hnil. destruct k; [lia | discriminate Hnil].
      * rewrite Hk, repeat_length in Hlt. lia.
    + rewrite Hw3, Hw2, Hw1, <- !app_assoc. reflexivity.
    + rewrite !sleeps_app, (awake_sleeps Ha2), Hk. reflexivity.
  - apply send_signed_request_spec in Hsend.
    destruct Hsend as [Hc2 [Hnd (new2 & Hw2 & Ha2)]].
    inversion H; subst. exists 0%nat, (new2 ++ [Sleep 0]).
    split; [lia |]. split; [rewrite Hw2, Hw1, <- app_assoc; reflexivity |].
    rewrite sleeps_app, (awake_sleeps Ha2). reflexivity.
  - apply send_signed_request_spec in Hsend.
    destruct Hsend as [_ [Hnd _]]. exfalso. apply Hnd. reflexivity.
Qed.

End Polling.

Section Ceiling.

Variable L : pylib.
Variable E : environment.
Variable cfg : config.
Variable fuel : nat.

Variable s : session.
Variable url : json.
Variable pending : list string.
Variable err_msg : string.

(** Every poll of [url] is answered, with a status that is pending. *)
Hypothesis always_pending :
  forall w1, exists v c h w2 st,
    _send_signed_request L E cfg fuel s url None err_msg w1 = (Ok (v, c, h), w2) /\
    getitem v "status" = Ok st /\
    Json.in_strs st pending = true.

Lemma pending_not_null :
  forall w1 v c h w2,
    _send_signed_request L E cfg fuel s url None err_msg w1 = (Ok (v, c, h), w2) ->
    v <> JNull.
Proof.
  intros w1 v c h w2 H.
  destruct (always_pending w1) as (v' & c' & h' & w2' & st & Hsend & Hst & _).
  rewrite Hsend in H. inversion H; subst.
  apply is_None_false. exact (with_status_not_None _ Hst).
Qed.

Lemma poll_pending t0 :
  forall n last w r w',
    poll L E cfg fuel n s url pending err_msg t0 last w = (r, w') ->
    goes_on pending last ->
    r = Diverge
    \/ (r = Raise (AssertionError (Some "Polling timeout"))
        /\ (3600 * 1000 <= clock w' - t0)%Z).
Proof.
  induction n as [| n IH]; intros last w r w' H Hgo.
  - inversion H; subst. left. reflexivity.
  - destruct (poll_cases L E cfg fuel s url pending err_msg t0 n last w)
      as [[_ Hp] | [(st & Hlast & Hst & Hin & Hp) | (e & Hlast & Hst & Hp)]].
    + rewrite Hp, turn_run in H.
      destruct (clock w - t0 <? 3600 * 1000)%Z eqn:Hnow.
      * unfold bind at 1 in H.
        match type of H with
        | context [_send_signed_request L E cfg fuel s url None err_msg ?w1] =>
            destruct (always_pending w1) as (v & c & h & w2 & st & Hsend & Hst & Hin)
        end.
        rewrite Hsend in H. cbn [fst] in H.
        apply IH in H; [exact H |].
        right. exists st. split; assumption.
      * inversion H; subst. right. split; [reflexivity |].
        apply Z.ltb_ge in Hnow. exact Hnow.
    + exfalso. destruct Hgo as [Hnull | (st' & Hst' & Hin')]; [exact (Hlast Hnull) |].
      rewrite Hst in Hst'. inversion Hst'; subst st'. rewrite Hin in Hin'. discriminate Hin'.
    + exfalso. destruct Hgo as [Hnull | (st' & Hst' & _)]; [exact (Hlast Hnull) |].
      rewrite Hst in Hst'. discriminate Hst'.
Qed.

End Ceiling.

(** What the loop adds to the trace is what its sleeps and its requests
    add. *)
Lemma emits_poll (P : list event -> Prop) L E cfg fuel s url pending err_msg t0 :
  composes P ->
  P [Sleep 0] -> P [Sleep 2] ->
  emits P (_send_signed_request L E cfg fuel s url None err_msg) ->
  forall n last, emits P (poll L E cfg fuel n s url pending err_msg t0 last).
Proof.
  intros HP H0 H2 Hreq. induction n as [| n IH]; intros last.
  - apply (emits_diverge HP).
  - rewrite poll_unfold.
    assert (Hagain : emits P (turn L E cfg fuel s url pending err_msg t0 n last)).
    { unfold turn. emits_step HP; [apply emits_time_time; exact HP |].
      destruct (a - t0 <? 3600 * 1000)%Z; [| emits_step HP].
      emits_step HP.
      - apply emits_time_sleep; [exact HP |]. destruct (is_None last); assumption.
      - emits_step HP; [exact Hreq | apply IH]. }
    destruct (is_None last); [exact Hagain |].
    emits_step HP; [emits_step HP |].
    destruct (Json.in_strs a pending); [exact Hagain | emits_step HP].
Qed.

(** The run of C2: the CA answers the first two polls of an authorization
    with a body that reads as [null], and the third with the valid
    authorization.  The three polls follow each other with no pause. *)
Lemma C2_null_answers_polled_without_pause :
  let run := _poll_until_complete Scenario.lib Scenario.env_null_answers Scenario.cfg 200
               Scenario.registered Scenario.authz_url ["pending"] "Error"
               Scenario.start in
  fst run = Ok (Scenario.authorization_doc "valid")
  /\ Scenario.post_count (trace (snd run)) = 3%nat
  /\ sleeps (trace (snd run)) = [0; 0; 0]%Z.
Proof. vm_compute. repeat split; reflexivity. Qed.

(** C2 (amended). The polling loop of [_poll_until_complete], whenever it
    ends, has run in turns: as long as there is no result (none yet, or a
    body that reads as [null]) or the status of the result is pending, it
    checks that less than 3600 seconds have passed since it was entered and
    raises the assertion "Polling timeout" otherwise, sleeps (nothing when
    there is no result, 2 seconds after a result), and sends one signed
    request to the URL, whose answer is the next result; a result with a
    status that is not pending is returned.  When no answer reads as
    [null], it sleeps nothing before its first poll and two seconds before
    every other one, makes at most 1801 polls, and always ends (with fuel
    for that many turns).  With a CA that answers every poll with a pending
    status it ends by raising the assertion "Polling timeout", at a moment
    when 3600 seconds or more have passed since it was entered. *)
Theorem C2_polling_ceiling :
  forall L E cfg fuel s url pending err_msg w,
    (1802 <= fuel)%nat ->
    let run := _poll_until_complete L E cfg fuel s url pending err_msg w in
    (fst run <> Diverge ->
     polling L E cfg fuel s url pending err_msg (clock w) JNull w (fst run) (snd run)) /\
    ((forall w1 v c h w2,
         _send_signed_request L E cfg fuel s url None err_msg w1 = (Ok (v, c, h), w2) ->
         v <> JNull) ->
     fst run <> Diverge /\
     exists k new,
       (k <= 1800)%nat /\
       trace (snd run) = new ++ trace w /\
       sleeps new = repeat 2%Z k ++ [0%Z]) /\
    ((forall w1, exists v c h w2 st,
         _send_signed_request L E cfg fuel s url None err_msg w1 = (Ok (v, c, h), w2) /\
         getitem v "status" = Ok st /\
         Json.in_strs st pending = true) ->
     fst run = Raise (AssertionError (Some "Polling timeout")) /\
     (3600 * 1000 <= clock (snd run) - clock w)%Z).
Proof.
  intros L E cfg fuel s url pending err_msg w Hfuel run.
  assert (Hretries : (100 < fuel)%nat) by lia.
  assert (Hrun : poll L E cfg fuel fuel s url pending err_msg (clock w) JNull w = run)
    by reflexivity.
  destruct run as [r w'] eqn:Erun. simpl fst. simpl snd.
  assert (Hpaced :
    (forall w1 v c h w2,
        _send_signed_request L E cfg fuel s url None err_msg w1 = (Ok (v, c, h), w2) ->
        v <> JNull) ->
    r <> Diverge /\
    exists k new,
      (k <= 1800)%nat /\
      trace w' = new ++ trace w /\
      sleeps new = repeat 2%Z k ++ [0%Z]).
  { intros Hnn. split.
    - destruct (@poll_spec L E cfg fuel s url pending err_msg (clock w) Hretries Hnn
                  fuel JNull w r w' Hrun)
        as [_ (new & _ & _ & _ & Hterm)].
      apply Hterm; [cbn [is_None slack]; lia | lia].
    - destruct fuel as [| n] eqn:Hf; [lia |].
      apply (@poll_first_turn L E cfg (S n) s url pending err_msg (clock w) Hretries Hnn
               n w r w'); [reflexivity | exact Hrun]. }
  split; [| split].
  - intros Hend. apply poll_polling with (n := fuel); assumption.
  - exact Hpaced.
  - intros Hp.
    destruct (Hpaced (@pending_not_null L E cfg fuel s url pending err_msg Hp)) as [Hend _].
    destruct (@poll_pending L E cfg fuel s url pending err_msg Hp (clock w)
                fuel JNull w r w' Hrun (or_introl eq_refl)) as [Hd | [Hr Ht]].
    + contradiction.
    + split; assumption.
Qed.

(* ================================================================= *)
(** ** One authorization *)

Section Authorization.

Variable L : pylib.
Variable E : environment.
Variable cfg : config.
Variable fuel : nat.
Variable s : session.
Variable thumbprint : string.

Lemma rbind_inv_ok {A B} (r : result A) (k : A -> result B) b :
  rbind r k = Ok b -> exists a, r = Ok a /\ k a = Ok b.
Proof.
  destruct r as [a | e |]; simpl; intros H; try discriminate.
  exists a. split; [reflexivity | exact H].
Qed.

(** An authorization whose status is valid has no plan. *)
Lemma plan_of_valid ct authorization st :
  getitem authorization "status" = Ok st ->
  Json.eq_str st "valid" = true ->
  (forall p, plan_of ct thumbprint authorization <> Ok (Some p)) /\
  (forall idf d,
      getitem authorization "identifier" = Ok idf ->
      getitem idf "value" = Ok d ->
      plan_of ct thumbprint authorization = Ok None).
Proof.
  intros Hst Hvalid. unfold plan_of. split.
  - intros p H.
    apply rbind_inv_ok in H. destruct H as [idf [_ H]].
    apply rbind_inv_ok in H. destruct H as [d [_ H]].
    rewrite Hst in H. simpl in H. rewrite Hvalid in H. discriminate H.
  - intros idf d Hidf Hd. rewrite Hidf. simpl. rewrite Hd. simpl.
    rewrite Hst. simpl. rewrite Hvalid. reflexivity.
Qed.

(** Without a plan, nothing happens after the authorization was fetched. *)
Lemma process_without_plan auth_url w a c h w1 :
  _send_signed_request L E cfg fuel s auth_url None "Error getting challenges" w
    = (Ok (a, c, h), w1) ->
  (forall p, plan_of (challenge_type cfg) thumbprint a <> Ok (Some p)) ->
  process_authorization L E cfg fuel s thumbprint auth_url w =
  (match plan_of (challenge_type cfg) thumbprint a with
   | Ok _ => Ok tt
   | Raise e => Raise e
   | Diverge => Diverge
   end, w1).
Proof.
  intros Hfetch Hnone. unfold process_authorization, attempt.
  unfold bind at 1. unfold bind at 1. rewrite Hfetch. cbn [fst snd].
  unfold bind at 1, lift at 1.
  destruct (plan_of (challenge_type cfg) thumbprint a) as [[p |] | e |].
  - exfalso. exact (Hnone p eq_refl).
  - reflexivity.
  - reflexivity.
  - reflexivity.
Qed.

Lemma attempt_inv auth_url w p wp a w2 :
  attempt L E cfg fuel s thumbprint auth_url w = (Ok (Some (p, wp, a)), w2) ->
  exists r w0 w1,
    _send_signed_request L E cfg fuel s auth_url None "Error getting challenges" w
      = (Ok r, w0) /\
    plan_of (challenge_type cfg) thumbprint (fst (fst r)) = Ok (Some p) /\
    prepare L E cfg p w0 = (Ok wp, w1) /\
    complete L E cfg fuel s auth_url p w1 = (Ok a, w2).
Proof.
  unfold attempt. intros H.
  apply bind_inv_ok in H. destruct H as (r & w0 & Hfetch & H).
  apply bind_inv_ok in H. destruct H as (todo & w0' & Hplan & H).
  apply lift_inv_ok in Hplan. destruct Hplan as [Hplan ->].
  destruct todo as [p' |]; [| discriminate H].
  apply bind_inv_ok in H. destruct H as (wp' & w1 & Hprep & H).
  apply bind_inv_ok in H. destruct H as (a' & w2' & Hcomp & H).
  inversion H; subst. exists r, w0, w1. repeat split; assumption.
Qed.

Lemma prepare_ok_inv p w wp w1 :
  prepare L E cfg p w = (Ok wp, w1) ->
  (is_http01 cfg = true ->
   exists dir, acme_dir cfg = Some dir /\ wp = Some (os_path_join dir (token p))) /\
  (is_http01 cfg = false -> is_dns01 cfg = true -> exists d, domain p = JStr d).
Proof.
  unfold prepare. intros H. split.
  - intros Hhttp. rewrite Hhttp in H.
    destruct (acme_dir cfg) as [dir |]; [| discriminate H].
    exists dir. split; [reflexivity |].
    apply bind_inv_ok in H. destruct H as (u1 & w' & _ & H).
    apply bind_inv_ok in H. destruct H as (u2 & w'' & _ & H).
    inversion H. reflexivity.
  - intros Hhttp Hdns. rewrite Hhttp, Hdns in H.
    apply bind_inv_ok in H. destruct H as (out & w' & Hadd & _).
    unfold _execute_dns_api in Hadd.
    apply bind_inv_ok in Hadd. destruct Hadd as (ok & w'' & _ & Hadd).
    destruct (negb ok); [discriminate Hadd |].
    destruct (domain p) as [| | | d | |]; try discriminate Hadd.
    exists d. reflexivity.
Qed.

Lemma verdict_pure p authorization w :
  snd (verdict p authorization w) = w.
Proof.
  unfold verdict, bind, lift.
  destruct (getitem authorization "status") as [st | e |]; [| reflexivity | reflexivity].
  destruct (Json.eq_str st "valid"); reflexivity.
Qed.

Lemma then_verdict {A} (c : M A) p authorization w :
  snd (bind c (fun _ => verdict p authorization) w) = snd (c w).
Proof.
  unfold bind. destruct (c w) as [[x | e |] w1]; [| reflexivity | reflexivity].
  apply verdict_pure.
Qed.

Lemma verdict_invalid p authorization w st :
  getitem authorization "status" = Ok st ->
  Json.eq_str st "valid" = false ->
  verdict p authorization w =
  (Raise (ValueError (Challenge_failed (domain p) authorization)), w).
Proof.
  intros Hst Hne. unfold verdict, bind, lift. rewrite Hst, Hne. reflexivity.
Qed.

End Authorization.

(* ================================================================= *)
(** ** Authorizations that are already valid *)

(** C8. When the authorization that was fetched has the status "valid", the
    loop body does nothing more for it: the world after
    [process_authorization] is the world right after the fetch, so no
    challenge is looked up, nothing is written or run and no request is sent
    to a challenge URL; and when the authorization names its domain the body
    ends normally and the loop goes on with the authorizations that remain. *)
Theorem C8_valid_authorization_skipped :
  forall L E cfg fuel s thumbprint auth_url rest w a c h w1 st,
    _send_signed_request L E cfg fuel s auth_url None "Error getting challenges" w
      = (Ok (a, c, h), w1) ->
    getitem a "status" = Ok st ->
    Json.eq_str st "valid" = true ->
    snd (process_authorization L E cfg fuel s thumbprint auth_url w) = w1 /\
    (forall idf d,
        getitem a "identifier" = Ok idf ->
        getitem idf "value" = Ok d ->
        plan_of (challenge_type cfg) thumbprint a = Ok None /\
        process_authorization L E cfg fuel s thumbprint auth_url w = (Ok tt, w1) /\
        authorize_all L E cfg fuel s thumbprint (auth_url :: rest) w =
        authorize_all L E cfg fuel s thumbprint rest w1).
Proof.
  intros L E cfg fuel s thumbprint auth_url rest w a c h w1 st Hfetch Hst Hvalid.
  destruct (plan_of_valid thumbprint (challenge_type cfg) a Hst Hvalid) as [Hnone Hplan].
  pose proof (process_without_plan L E cfg fuel s thumbprint auth_url w Hfetch Hnone)
    as Hrun.
  split.
  - rewrite Hrun. reflexivity.
  - intros idf d Hidf Hd. specialize (Hplan idf d Hidf Hd).
    rewrite Hplan in Hrun. split; [exact Hplan |]. split; [exact Hrun |].
    cbn [authorize_all]. unfold bind at 1. rewrite Hrun. reflexivity.
Qed.

Lemma C8_valid_authorization_skipped_witness :
  let fetched :=
    _send_signed_request Scenario.lib (Scenario.env Scenario.already_valid) Scenario.cfg
      200 Scenario.registered Scenario.authz_url None "Error getting challenges"
      Scenario.start in
  process_authorization Scenario.lib (Scenario.env Scenario.already_valid) Scenario.cfg
    200 Scenario.registered Scenario.thumbprint Scenario.authz_url Scenario.start
  = (Ok tt, snd fetched)
  /\ Scenario.post_count (trace (snd fetched)) = 1%nat.
Proof.
  intro fetched. split; [| vm_compute; reflexivity].
  refine (proj1 (proj2 (proj2
    (@C8_valid_authorization_skipped
       Scenario.lib (Scenario.env Scenario.already_valid) Scenario.cfg 200
       Scenario.registered Scenario.thumbprint Scenario.authz_url []
       Scenario.start (Scenario.authorization_doc "valid") 200%Z
       (Message (Scenario.with_headers [])) (snd fetched) (JStr "valid")
       _ _ _)
    (JObj [("type", JStr "dns"); ("value", JStr "example.com")])
    (JStr "example.com") _ _))).
  - vm_compute. reflexivity.
  - reflexivity.
  - reflexivity.
  - reflexivity.
  - reflexivity.
Defined.

(* ================================================================= *)
(** ** Cleaning up after the challenge *)

(** The run of C3: the CA answers the notification of the challenge with an
    error.  The file was written, the notification raised, and the file is
    still there when the body of the loop is left. *)
Lemma C3_notification_fails_no_cleanup :
  let run :=
    process_authorization Scenario.lib (Scenario.env Scenario.notification_fails)
      Scenario.cfg 200 Scenario.registered Scenario.thumbprint Scenario.authz_url
      Scenario.start in
  fst run =
    Raise (ValueError (Network_error "Error submitting challenges: example.com"
                         "HTTP Error 500: Internal Server Error"))
  /\ Scenario.wrote (trace (snd run)) = true
  /\ Scenario.removed (trace (snd run)) = false.
Proof. vm_compute. repeat split; reflexivity. Qed.

(* ================================================================= *)
(** ** The self-check of the challenge file *)

(** The run of C4: the web server answers the self-check with the key
    authorization between double quotes.  The body differs from the key
    authorization, the check is on, and yet the CA is notified. *)
Lemma C4_quoted_body_passes_self_check :
  let run :=
    process_authorization Scenario.lib (Scenario.env Scenario.quoted_file)
      Scenario.cfg 200 Scenario.registered Scenario.thumbprint Scenario.authz_url
      Scenario.start in
  disable_check Scenario.cfg = false
  /\ Scenario.served Scenario.quoted_file <> Scenario.key_auth
  /\ Scenario.notified (trace (snd run)) = true
  /\ fst run = Ok tt.
Proof.
  vm_compute. split; [reflexivity |]. split; [discriminate |]. split; reflexivity.
Qed.

(** C4 (amended). With an http-01 challenge and the self-check on: when the
    request for the well-known URL raises, or the body it returns, after the
    JSON decoding that [_do_request] applies to every body, is not the key
    authorization, the body of the loop and the loop raise at once.  The
    only calls made after the authorization was fetched are the writing of
    the file and that request, so the challenge URL is never posted to.
    What is raised is the ValueError "Wrote file to ..., but couldn't
    download ..." when the cause is the failed comparison or a ValueError,
    and the cause itself otherwise. *)
Theorem C4_failed_self_check_aborts :
  forall L E cfg fuel s thumbprint auth_url rest w a c h w1 p dir,
    _send_signed_request L E cfg fuel s auth_url None "Error getting challenges" w
      = (Ok (a, c, h), w1) ->
    plan_of (challenge_type cfg) thumbprint a = Ok (Some p) ->
    is_http01 cfg = true ->
    acme_dir cfg = Some dir ->
    disable_check cfg = false ->
    let path := os_path_join dir (token p) in
    let url := wellknown_url_of L cfg p in
    env_write E (trace w1) path (keyauthorization p) = None ->
    let w2 := snd (call E (FileWrite path (keyauthorization p) None) 0 w1) in
    let out := env_urlopen E (trace w2) (JStr url) None in
    let w3 := snd (call E (Urlopen (JStr url) None out) 0 w2) in
    let answer := respond L cfg (JStr url) None "Error" 0 out in
    (forall v c' h', answer = Ok (v, c', h') ->
                     Json.eq_str v (keyauthorization p) = false) ->
    let e :=
      match answer with
      | Raise e0 =>
          if is_AssertionError e0 || is_ValueError e0
          then ValueError (Check_failed path url e0)
          else e0
      | _ => ValueError (Check_failed path url (AssertionError None))
      end in
    process_authorization L E cfg fuel s thumbprint auth_url w = (Raise e, w3) /\
    authorize_all L E cfg fuel s thumbprint (auth_url :: rest) w = (Raise e, w3) /\
    trace w3 =
      Urlopen (JStr url) None out
        :: FileWrite path (keyauthorization p) None :: trace w1.
Proof.
  intros L E cfg fuel s thumbprint auth_url rest w a c h w1 p dir
         Hfetch Hplan Hhttp Hdir Hcheck path url Hwrite w2 out w3 answer Hbad e.
  assert (Hrun : process_authorization L E cfg fuel s thumbprint auth_url w
                 = (Raise e, w3)).
  { unfold process_authorization, attempt.
    unfold bind at 1. unfold bind at 1. rewrite Hfetch. cbn [fst snd].
    unfold bind at 1, lift at 1. rewrite Hplan.
    unfold bind at 1. unfold prepare. rewrite Hhttp, Hdir.
    unfold bind at 1. rewrite write_file_run. cbv zeta.
    fold path. rewrite Hwrite. fold w2.
    unfold bind at 1. unfold self_check. rewrite Hcheck. fold url.
    unfold try_except. unfold bind at 1. rewrite do_request_run. cbv zeta.
    fold out. fold w3. fold answer.
    subst e. destruct answer as [[[v c'] h'] | e0 |] eqn:Hanswer.
    - cbn [fst]. rewrite (Hbad v c' h' eq_refl). reflexivity.
    - destruct (is_AssertionError e0 || is_ValueError e0); reflexivity.
    - exfalso. exact (respond_total _ _ _ _ _ _ _ Hanswer). }
  split; [exact Hrun |]. split; [| reflexivity].
  cbn [authorize_all]. unfold bind at 1. rewrite Hrun. reflexivity.
Qed.

Lemma C4_failed_self_check_aborts_witness :
  let run :=
    process_authorization Scenario.lib (Scenario.env Scenario.wrong_file)
      Scenario.cfg 200 Scenario.registered Scenario.thumbprint Scenario.authz_url
      Scenario.start in
  fst run =
    Raise (ValueError (Check_failed "/var/www/challenges/tok_en"
                         "http://example.com/.well-known/acme-challenge/tok_en"
                         (AssertionError None)))
  /\ Scenario.notified (trace (snd run)) = false.
Proof.
  intro run.
  pose (fetched :=
          _send_signed_request Scenario.lib (Scenario.env Scenario.wrong_file)
            Scenario.cfg 200 Scenario.registered Scenario.authz_url None
            "Error getting challenges" Scenario.start).
  destruct (@C4_failed_self_check_aborts
              Scenario.lib (Scenario.env Scenario.wrong_file) Scenario.cfg 200
              Scenario.registered Scenario.thumbprint Scenario.authz_url []
              Scenario.start (Scenario.authorization_doc "pending") 200%Z
              (Message (Scenario.with_headers [])) (snd fetched)
              {| domain := JStr "example.com";
                 challenge := JObj [("type", JStr "http-01");
                                    ("token", JStr Scenario.raw_token);
                                    ("url", JStr "https://ca.test/chall/1")];
                 token := "tok_en";
                 keyauthorization := Scenario.key_auth |}
              "/var/www/challenges")
    as [Hrun _].
  - vm_compute. reflexivity.
  - vm_compute. reflexivity.
  - reflexivity.
  - reflexivity.
  - reflexivity.
  - reflexivity.
  - intros v c' h' H. vm_compute in H. inversion H; subst. vm_compute. reflexivity.
  - subst run. rewrite Hrun. split; vm_compute; reflexivity.
Defined.

(* ================================================================= *)
(** ** Where the key authorization goes *)

Section Preparing.

Variable L : pylib.
Variable E : environment.
Variable cfg : config.

Lemma emits_self_check p path : emits (fun _ => True) (self_check L E cfg p path).
Proof.
  unfold self_check. emits_step anything_composes.
  - destruct (disable_check cfg); [emits_step anything_composes |].
    emits_step anything_composes.
    + apply emits_do_request; [exact anything_composes | trivial].
    + destruct (Json.eq_str (fst (fst a)) (keyauthorization p));
        emits_step anything_composes.
  - emits_step anything_composes.
Qed.

Lemma emits_execute_dns_api action dom tok key_auth :
  emits (fun _ => True) (_execute_dns_api E cfg action dom tok key_auth).
Proof.
  unfold _execute_dns_api. emits_step anything_composes.
  - apply emits_ask. exact anything_composes.
  - destruct (negb a); [emits_step anything_composes |].
    destruct dom; try emits_step anything_composes.
    + apply emits_popen; [exact anything_composes | trivial].
    + destruct a0 as [[rc out] err].
      destruct (negb (rc =? 0)%Z); emits_step anything_composes.
Qed.

(** The first thing [prepare] does for http-01 is to write the key
    authorization to the join of the directory and the token. *)
Lemma prepare_http01_writes p dir w :
  is_http01 cfg = true ->
  acme_dir cfg = Some dir ->
  exists later,
    trace (snd (prepare L E cfg p w)) =
    later ++ FileWrite (os_path_join dir (token p)) (keyauthorization p)
               (env_write E (trace w) (os_path_join dir (token p)) (keyauthorization p))
          :: trace w.
Proof.
  intros Hhttp Hdir. unfold prepare. rewrite Hhttp, Hdir.
  unfold bind at 1. rewrite write_file_run. cbv zeta.
  set (path := os_path_join dir (token p)).
  set (err := env_write E (trace w) path (keyauthorization p)).
  set (w1 := snd (call E (FileWrite path (keyauthorization p) err) 0 w)).
  assert (Hw1 : trace w1 = FileWrite path (keyauthorization p) err :: trace w)
    by reflexivity.
  clearbody w1.
  destruct err as [e |].
  - exists []. exact Hw1.
  - assert (Hrest : emits (fun _ => True)
                      (bind (self_check L E cfg p path) (fun _ => ret (Some path)))).
    { emits_step anything_composes; [apply emits_self_check |].
      emits_step anything_composes. }
    destruct (Hrest w1) as [_ [later [Hlater _]]].
    exists later. rewrite Hlater, Hw1. reflexivity.
Qed.

(** The first thing [prepare] does for dns-01, when the script is there,
    is to run it with the action "add" and the key authorization. *)
Lemma prepare_dns01_adds p d w :
  is_http01 cfg = false ->
  is_dns01 cfg = true ->
  env_script_ok E (trace w) = true ->
  domain p = JStr d ->
  exists env rc out err later,
    In ("ACME_KEY_AUTH", keyauthorization p) env /\
    trace (snd (prepare L E cfg p w)) =
    later ++ Popen ["/bin/sh"; env_api_script E; "add"; d; token p; keyauthorization p]
               env None rc out err
          :: trace w.
Proof.
  intros Hhttp Hdns Hscript Hd. unfold prepare. rewrite Hhttp, Hdns.
  unfold _execute_dns_api. rewrite Hd.
  unfold bind at 1. unfold bind at 1. unfold ask at 1. rewrite Hscript. cbn [negb].
  unfold bind at 1. rewrite popen_run. cbv zeta.
  match goal with
  | |- context [env_popen E ?tr ?cmd ?env ?input] =>
      destruct (env_popen E tr cmd env input) as [[rc out] err] eqn:Hpopen;
      exists env, rc, out, err
  end.
  cbn [fst snd or_empty].
  match goal with
  | |- context [call E ?ev 0 w] =>
      set (w1 := snd (call E ev 0 w));
      assert (Hw1 : trace w1 = ev :: trace w) by reflexivity;
      clearbody w1
  end.
  destruct (negb (rc =? 0)%Z).
  - exists []. split; [simpl; tauto | exact Hw1].
  - unfold ret at 1. cbv beta iota.
    destruct (py_int L _) as [wait_time |].
    + assert (Hrest : emits (fun _ => True)
                        (bind (time_sleep E wait_time)
                           (fun _ => ret (@None string)))).
      { emits_step anything_composes; [| emits_step anything_composes].
        apply emits_time_sleep; [exact anything_composes | trivial]. }
      destruct (Hrest w1) as [_ [later [Hlater _]]].
      exists later. split; [simpl; tauto |]. rewrite Hlater, Hw1. reflexivity.
    + exists []. split; [simpl; tauto | exact Hw1].
Qed.

Lemma cleanup_http01_removes p path w :
  is_http01 cfg = true ->
  trace (snd (cleanup E cfg p (Some path) w)) =
  FileRemove path (env_remove E (trace w) path) :: trace w.
Proof.
  intros Hhttp. unfold cleanup. rewrite Hhttp. rewrite os_remove_run. reflexivity.
Qed.

End Preparing.

(** C6. The token of a plan is the token of the challenge with every
    character outside [A-Za-z0-9_-] replaced by an underscore, position by
    position; the key authorization is that token, a dot and the thumbprint;
    and this one value is what is written to the challenge file (http-01)
    and what the DNS script is given, as its last argument and as
    ACME_KEY_AUTH (dns-01). *)
Theorem C6_key_authorization :
  forall L E cfg thumbprint authorization p w,
    plan_of (challenge_type cfg) thumbprint authorization = Ok (Some p) ->
    (exists raw,
        getitem (challenge p) "token" = Ok (JStr raw) /\
        String.length (token p) = String.length raw /\
        (forall i c,
            String.get i raw = Some c ->
            String.get i (token p)
            = Some (if in_token_alphabet c then c else "_"%char)) /\
        keyauthorization p = (token p ++ "." ++ thumbprint)%string) /\
    (is_http01 cfg = true ->
     forall dir,
       acme_dir cfg = Some dir ->
       exists err later,
         trace (snd (prepare L E cfg p w)) =
         later ++ FileWrite (os_path_join dir (token p)) (keyauthorization p) err
               :: trace w) /\
    (is_http01 cfg = false ->
     is_dns01 cfg = true ->
     env_script_ok E (trace w) = true ->
     forall d,
       domain p = JStr d ->
       exists env rc out err later,
         In ("ACME_KEY_AUTH", keyauthorization p) env /\
         trace (snd (prepare L E cfg p w)) =
         later ++ Popen ["/bin/sh"; env_api_script E; "add"; d; token p;
                         keyauthorization p] env None rc out err
               :: trace w).
Proof.
  intros L E cfg thumbprint authorization p w Hplan.
  split; [| split].
  - destruct (plan_of_inv _ _ _ Hplan) as (raw & Htok & Htoken & Hkey).
    exists raw. split; [exact Htok |]. rewrite Htoken in *.
    split; [apply re_sub_token_length |].
    split; [intros i c; apply re_sub_token_get | exact Hkey].
  - intros Hhttp dir Hdir.
    destruct (prepare_http01_writes L E cfg p w Hhttp Hdir) as [later Hlater].
    eexists. exists later. exact Hlater.
  - intros Hhttp Hdns Hscript d Hd.
    exact (prepare_dns01_adds L E cfg p w Hhttp Hdns Hscript Hd).
Qed.

Lemma C6_key_authorization_witness :
  let p := {| domain := JStr "example.com";
              challenge := JObj [("type", JStr "http-01");
                                 ("token", JStr Scenario.raw_token);
                                 ("url", JStr "https://ca.test/chall/1")];
              token := "tok_en";
              keyauthorization := Scenario.key_auth |} in
  keyauthorization p = ("tok_en" ++ "." ++ Scenario.thumbprint)%string
  /\ exists err later,
       trace (snd (prepare Scenario.lib (Scenario.env Scenario.happy) Scenario.cfg p
                     Scenario.start)) =
       later ++ [FileWrite "/var/www/challenges/tok_en" Scenario.key_auth err].
Proof.
  intro p.
  destruct (@C6_key_authorization
              Scenario.lib (Scenario.env Scenario.happy) Scenario.cfg
              Scenario.thumbprint (Scenario.authorization_doc "pending") p
              Scenario.start)
    as [(raw & _ & _ & _ & Hkey) [Hhttp _]].
  - vm_compute. reflexivity.
  - split; [exact Hkey |].
    exact (Hhttp eq_refl "/var/www/challenges" eq_refl).
Defined.

(* ================================================================= *)
(** ** The challenge file stays in the challenge directory *)

(** C10. For every token the CA sends, the sanitized token has only
    characters of [A-Za-z0-9_-]; the path of the challenge file is the join
    of the directory and that token, which is the directory, a separator
    unless it ends in one, and the token: one component, without separator
    or dot; the file is written at that path and the cleanup removes that
    same path. *)
Theorem C10_challenge_file_inside_acme_dir :
  forall L E cfg thumbprint authorization p dir w,
    plan_of (challenge_type cfg) thumbprint authorization = Ok (Some p) ->
    is_http01 cfg = true ->
    acme_dir cfg = Some dir ->
    let path := os_path_join dir (token p) in
    Str.forallb in_token_alphabet (token p) = true /\
    path = (dir_prefix dir ++ token p)%string /\
    directly_inside dir path /\
    (exists err later,
        trace (snd (prepare L E cfg p w)) =
        later ++ FileWrite path (keyauthorization p) err :: trace w) /\
    (forall wp w1 w2,
        prepare L E cfg p w = (Ok wp, w1) ->
        trace (snd (cleanup E cfg p wp w2)) =
        FileRemove path (env_remove E (trace w2) path) :: trace w2).
Proof.
  intros L E cfg thumbprint authorization p dir w Hplan Hhttp Hdir path.
  destruct (plan_of_inv _ _ _ Hplan) as (raw & _ & Htoken & _).
  assert (Hok : Str.forallb in_token_alphabet (token p) = true)
    by (rewrite Htoken; apply re_sub_token_ok).
  split; [exact Hok |].
  split; [apply os_path_join_token, Hok |].
  split; [subst path; rewrite Htoken; apply os_path_join_inside |].
  split.
  - destruct (prepare_http01_writes L E cfg p w Hhttp Hdir) as [later Hlater].
    eexists. exists later. exact Hlater.
  - intros wp w1 w2 Hprep. apply prepare_ok_inv in Hprep.
    destruct Hprep as [Hinv _]. destruct (Hinv Hhttp) as (dir' & Hdir' & Hwp).
    rewrite Hdir in Hdir'. inversion Hdir'; subst dir'. rewrite Hwp.
    apply cleanup_http01_removes, Hhttp.
Qed.

Lemma C10_challenge_file_inside_acme_dir_witness :
  let p := {| domain := JStr "example.com";
              challenge := JObj [("type", JStr "http-01");
                                 ("token", JStr Scenario.raw_token);
                                 ("url", JStr "https://ca.test/chall/1")];
              token := "tok_en";
              keyauthorization := Scenario.key_auth |} in
  os_path_join "/var/www/challenges" (token p) = "/var/www/challenges/tok_en"
  /\ directly_inside "/var/www/challenges" "/var/www/challenges/tok_en".
Proof.
  intro p.
  destruct (@C10_challenge_file_inside_acme_dir
              Scenario.lib (Scenario.env Scenario.happy) Scenario.cfg
              Scenario.thumbprint (Scenario.authorization_doc "pending") p
              "/var/www/challenges" Scenario.start)
    as (_ & Hpath & Hinside & _).
  - vm_compute. reflexivity.
  - reflexivity.
  - reflexivity.
  - split; [reflexivity | exact Hinside].
Defined.

(* ================================================================= *)
(** ** One fresh nonce for every signed request *)

(** In a disciplined trace every signed request has, two calls before it,
    the request that fetched the nonce it carries. *)
Lemma disciplined_nth nu tr :
  disciplined nu tr ->
  forall i u b o,
    nth_error tr i = Some (Urlopen u (Some b) o) ->
    exists t c g,
      nth_error tr (i + 2) = Some (Urlopen nu None (Returned t c (Message g))) /\
      nonce_of b = Ok (Json.of_option (g "Replay-Nonce")).
Proof.
  induction 1 as [| ev tr Hev _ IH
                  | url b0 out cmd env input rc o e text code get tr Hnonce _ IH];
    intros i u b o' Hi.
  - destruct i; discriminate Hi.
  - destruct i as [| i]; simpl in Hi.
    + inversion Hi; subst. discriminate Hev.
    + exact (IH i u b o' Hi).
  - destruct i as [| [| [| i]]]; simpl in Hi.
    + inversion Hi; subst. exists text, code, get. split; [reflexivity | exact Hnonce].
    + discriminate Hi.
    + discriminate Hi.
    + exact (IH i u b o' Hi).
Qed.

Lemma of_option_inj a b : Json.of_option a = Json.of_option b -> a = b.
Proof. destruct a, b; simpl; intros H; inversion H; reflexivity. Qed.

Lemma disciplined_no_nonce_twice nu tr :
  disciplined nu tr -> one_nonce_per_call nu tr -> no_nonce_sent_twice tr.
Proof.
  intros Hd Hone i j u1 b1 o1 u2 b2 o2 Hij Hi Hj Heq.
  destruct (disciplined_nth Hd _ Hi) as (t1 & c1 & g1 & Hi' & Hn1).
  destruct (disciplined_nth Hd _ Hj) as (t2 & c2 & g2 & Hj' & Hn2).
  assert (Hij' : (i + 2 <> j + 2)%nat) by lia.
  apply (Hone _ _ _ _ _ _ _ _ Hij' Hi' Hj').
  apply of_option_inj. rewrite Hn1, Hn2 in Heq. inversion Heq. reflexivity.
Qed.

Section Discipline.

Variable L : pylib.
Variable E : environment.
Variable cfg : config.
Variable fuel : nat.

(** The directory of the session, and the URL its nonces come from. *)
Variable dir : json.
Variable nu : json.
Hypothesis nu_of_dir : forall v, getitem dir "newNonce" = Ok v -> v = nu.

Let P := disciplined nu.
Let HP : composes P := disciplined_composes nu.

Lemma discipline_event ev : is_post ev = false -> P [ev].
Proof. intros H. apply disciplined_plain; [exact H | constructor]. Qed.

Lemma discipline_request s url payload err_msg :
  directory s = dir ->
  emits P (_send_signed_request L E cfg fuel s url payload err_msg).
Proof.
  intros Hdir. unfold _send_signed_request.
  apply emits_send_signed_disciplined. rewrite Hdir. exact nu_of_dir.
Qed.

Lemma discipline_get url err_msg depth :
  emits P (_do_request L E cfg url None err_msg depth).
Proof.
  apply emits_do_request; [exact HP |]. intros out. apply discipline_event. reflexivity.
Qed.

Lemma discipline_command cmd input err_msg :
  emits P (_run_external_cmd E cmd input err_msg).
Proof.
  apply emits_run_external_cmd; [exact HP |]. intros. apply discipline_event. reflexivity.
Qed.

Lemma discipline_sleep seconds : emits P (time_sleep E seconds).
Proof. apply emits_time_sleep; [exact HP |]. apply discipline_event. reflexivity. Qed.

Lemma discipline_dns action dom tok key_auth :
  emits P (_execute_dns_api E cfg action dom tok key_auth).
Proof.
  unfold _execute_dns_api. emits_step HP.
  - apply emits_ask. exact HP.
  - destruct (negb a); [emits_step HP |].
    destruct dom; try emits_step HP.
    + apply emits_popen; [exact HP |]. intros. apply discipline_event. reflexivity.
    + destruct a0 as [[rc out] err].
      destruct (negb (rc =? 0)%Z); emits_step HP.
Qed.

Lemma discipline_poll s url pending err_msg t0 :
  directory s = dir ->
  forall n result, emits P (poll L E cfg fuel n s url pending err_msg t0 result).
Proof.
  intros Hdir. apply emits_poll; [exact HP | | |].
  - apply discipline_event. reflexivity.
  - apply discipline_event. reflexivity.
  - apply discipline_request, Hdir.
Qed.

Lemma discipline_poll_until_complete s url pending err_msg :
  directory s = dir ->
  emits P (_poll_until_complete L E cfg fuel s url pending err_msg).
Proof.
  intros Hdir. unfold _poll_until_complete.
  emits_step HP; [apply emits_time_time; exact HP | apply discipline_poll, Hdir].
Qed.

Lemma discipline_prepare p : emits P (prepare L E cfg p).
Proof.
  unfold prepare. destruct (is_http01 cfg).
  - destruct (acme_dir cfg) as [d |]; [| emits_step HP].
    emits_step HP.
    + apply emits_write_file; [exact HP |]. intros. apply discipline_event. reflexivity.
    + emits_step HP; [| emits_step HP].
      unfold self_check. emits_step HP; [| emits_step HP].
      destruct (disable_check cfg); [emits_step HP |].
      emits_step HP; [apply discipline_get |].
      destruct (Json.eq_str (fst (fst a0)) (keyauthorization p)); emits_step HP.
  - destruct (is_dns01 cfg); [| emits_step HP].
    emits_step HP; [apply discipline_dns |].
    destruct (py_int L _); [| emits_step HP].
    emits_step HP; [apply discipline_sleep | emits_step HP].
Qed.

Lemma discipline_cleanup p wp : emits P (cleanup E cfg p wp).
Proof.
  unfold cleanup. destruct (is_http01 cfg).
  - destruct wp as [path |]; [| emits_step HP].
    apply emits_os_remove; [exact HP |]. intros. apply discipline_event. reflexivity.
  - destruct (is_dns01 cfg); [| emits_step HP].
    emits_step HP; [apply discipline_dns | emits_step HP].
Qed.

Lemma discipline_verdict p a : emits P (verdict p a).
Proof.
  unfold verdict. emits_step HP; [emits_step HP |].
  destruct (Json.eq_str a0 "valid"); emits_step HP.
Qed.

Lemma discipline_process s thumbprint auth_url :
  directory s = dir ->
  emits P (process_authorization L E cfg fuel s thumbprint auth_url).
Proof.
  intros Hdir. unfold process_authorization. emits_step HP.
  - unfold attempt. emits_step HP; [apply discipline_request, Hdir |].
    emits_step HP; [emits_step HP |].
    destruct a0 as [p |]; [| emits_step HP].
    emits_step HP; [apply discipline_prepare |].
    emits_step HP; [| emits_step HP].
    unfold complete. emits_step HP; [emits_step HP |].
    emits_step HP; [apply discipline_request, Hdir |].
    apply discipline_poll_until_complete, Hdir.
  - destruct a as [[[p wp] a] |]; [| emits_step HP].
    emits_step HP; [apply discipline_cleanup | apply discipline_verdict].
Qed.

Lemma discipline_authorize_all s thumbprint auth_urls :
  directory s = dir ->
  emits P (authorize_all L E cfg fuel s thumbprint auth_urls).
Proof.
  intros Hdir. induction auth_urls as [| u rest IH]; cbn [authorize_all].
  - emits_step HP.
  - emits_step HP; [apply discipline_process, Hdir | exact IH].
Qed.

End Discipline.

Section WholeRun.

Variable L : pylib.
Variable E : environment.
Variable cfg : config.
Variable fuel : nat.

(** What the run adds to the trace is disciplined for some nonce URL. *)
Lemma some_discipline_bind {A B} (c : M A) (k : A -> M B) :
  emits plain c ->
  (forall a w, exists nu new,
      trace (snd (k a w)) = new ++ trace w /\ disciplined nu new) ->
  forall w, exists nu new,
    trace (snd (bind c k w)) = new ++ trace w /\ disciplined nu new.
Proof.
  intros Hc Hk w. unfold bind.
  destruct (Hc w) as [_ [new1 [H1 Hp1]]].
  destruct (c w) as [[a | e |] w1]; simpl in H1.
  - destruct (Hk a w1) as (nu & new2 & H2 & Hd2).
    exists nu, (new2 ++ new1). split.
    + rewrite H2, H1. apply app_assoc.
    + apply disciplined_app; [apply plain_disciplined, Hp1 | exact Hd2].
  - exists JNull, new1. split; [exact H1 | apply plain_disciplined, Hp1].
  - exists JNull, new1. split; [exact H1 | apply plain_disciplined, Hp1].
Qed.

Lemma plain_event ev : is_post ev = false -> plain [ev].
Proof. intros H. constructor; [exact H | constructor]. Qed.

Lemma get_crt_disciplined w :
  exists nu new,
    trace (snd (get_crt L E cfg fuel w)) = new ++ trace w /\ disciplined nu new.
Proof.
  revert w. unfold get_crt.
  apply some_discipline_bind.
  { apply emits_run_external_cmd; [exact plain_composes |].
    intros. apply plain_event. reflexivity. }
  intros out. apply some_discipline_bind.
  { destruct (search_pubkey L out); emits_step plain_composes. }
  intros key. apply some_discipline_bind.
  { emits_step plain_composes. }
  intros jwk0. apply some_discipline_bind.
  { apply emits_run_external_cmd; [exact plain_composes |].
    intros. apply plain_event. reflexivity. }
  intros out2. apply some_discipline_bind.
  { apply emits_do_request; [exact plain_composes |].
    intros. apply plain_event. reflexivity. }
  intros d w.
  set (dir := fst (fst d)).
  set (nu := match getitem dir "newNonce" with Ok v => v | _ => JNull end).
  assert (Hnu : forall v, getitem dir "newNonce" = Ok v -> v = nu).
  { intros v Hv. subst nu. rewrite Hv. reflexivity. }
  pose proof (disciplined_composes nu) as HP.
  match goal with
  | |- exists nu0 new, trace (snd (?c w)) = _ /\ _ =>
      assert (Hrest : emits (disciplined nu) c)
  end.
  { cbv zeta.
    emits_step HP; [emits_step HP |].
    emits_step HP; [apply (discipline_request L E cfg fuel Hnu); reflexivity |].
    emits_step HP; [emits_step HP |].
    emits_step HP.
    { destruct (contact cfg) as [c |]; [| emits_step HP].
      emits_step HP; [apply (discipline_request L E cfg fuel Hnu); reflexivity |].
      emits_step HP. }
    emits_step HP; [emits_step HP |].
    emits_step HP; [apply (discipline_request L E cfg fuel Hnu); reflexivity |].
    emits_step HP; [emits_step HP |].
    emits_step HP; [emits_step HP |].
    emits_step HP; [apply (discipline_authorize_all L E cfg fuel Hnu); reflexivity |].
    emits_step HP; [apply discipline_command |].
    emits_step HP; [emits_step HP |].
    emits_step HP; [apply (discipline_request L E cfg fuel Hnu); reflexivity |].
    emits_step HP; [emits_step HP |].
    emits_step HP;
      [apply (discipline_poll_until_complete L E cfg fuel Hnu); reflexivity |].
    emits_step HP; [emits_step HP |].
    emits_step HP; [emits_step HP |].
    emits_step HP; [emits_step HP |].
    emits_step HP; [apply (discipline_request L E cfg fuel Hnu); reflexivity |].
    emits_step HP. }
  destruct (Hrest w) as [_ [new [Hnew Hd]]].
  exists nu, new. split; assumption.
Qed.

End WholeRun.

(** C5. Every signed request fetches its nonce from the [newNonce] URL of
    the directory right before it signs, and puts that nonce, and no other,
    in the protected header it sends (a retry fetches another one); this
    holds for every request of a whole run of [get_crt], so that when the CA
    gives a different nonce at every call of [newNonce], no two signed
    requests of the run carry the same nonce. *)
Theorem C5_one_fresh_nonce_per_signed_request :
  forall L E cfg fuel,
    (forall s url payload err_msg w nu,
        getitem (directory s) "newNonce" = Ok nu ->
        exists new,
          trace (snd (_send_signed_request L E cfg fuel s url payload err_msg w))
          = new ++ trace w /\
          disciplined nu new /\
          (one_nonce_per_call nu new -> no_nonce_sent_twice new)) /\
    (forall w,
        exists nu new,
          trace (snd (get_crt L E cfg fuel w)) = new ++ trace w /\
          disciplined nu new /\
          (one_nonce_per_call nu new -> no_nonce_sent_twice new)).
Proof.
  intros L E cfg fuel. split.
  - intros s url payload err_msg w nu Hnu.
    assert (Hall : forall v, getitem (directory s) "newNonce" = Ok v -> v = nu).
    { intros v Hv. rewrite Hnu in Hv. inversion Hv. reflexivity. }
    destruct (emits_send_signed_disciplined L E cfg fuel s url payload err_msg 0 Hall w)
      as [_ [new [Hnew Hd]]].
    exists new. split; [exact Hnew |]. split; [exact Hd |].
    apply disciplined_no_nonce_twice, Hd.
  - intros w. destruct (get_crt_disciplined L E cfg fuel w) as (nu & new & Hnew & Hd).
    exists nu, new. split; [exact Hnew |]. split; [exact Hd |].
    apply disciplined_no_nonce_twice, Hd.
Qed.

Lemma C5_one_fresh_nonce_per_signed_request_witness :
  exists nu new,
    trace (snd (get_crt Scenario.lib (Scenario.env Scenario.happy) Scenario.cfg 200
                  Scenario.start)) = new ++ []
    /\ disciplined nu new
    /\ Scenario.post_count new = 8%nat.
Proof.
  destruct (C5_one_fresh_nonce_per_signed_request
              Scenario.lib (Scenario.env Scenario.happy) Scenario.cfg 200)
    as [_ Hrun].
  destruct (Hrun Scenario.start) as (nu & new & Hnew & Hd & _).
  exists nu, new. split; [exact Hnew |]. split; [exact Hd |].
  rewrite app_nil_r in Hnew. rewrite <- Hnew. vm_compute. reflexivity.
Defined.

(* ================================================================= *)
(** ** Responses with an error status *)

Section ErrorStatus.

Variable L : pylib.
Variable E : environment.
Variable cfg : config.

(** An HTTP response with an error status never reaches the lines that look
    at the status and the body (49-52): whatever its status and its body,
    the clause for [URLError] raises for it. *)
Lemma respond_http_error url data err_msg depth r :
  error_status r ->
  respond L cfg url data err_msg depth (urllib_outcome r)
  = Raise (network_error cfg err_msg r).
Proof.
  unfold error_status, urllib_outcome, network_error. intros H. rewrite H.
  unfold respond. cbn [http_error e_class e_reason e_str is_socket_timeout is_URLError rbind].
  destruct (Str.contains "timed out" (reason r)); reflexivity.
Qed.

(** The same for a signed request: one round, and the error. *)
Lemma send_signed_http_error n s url payload err_msg depth w data w1 r :
  sign L E cfg s url payload w = (Ok data, w1) ->
  env_urlopen E (trace w1) url (Some data) = urllib_outcome r ->
  error_status r ->
  send_signed L E cfg (S n) s url payload err_msg depth w =
  (Raise (network_error cfg err_msg r),
   snd (call E (Urlopen url (Some data) (urllib_outcome r)) 0 w1)).
Proof.
  intros Hsign Hout Herr. cbn [send_signed].
  unfold bind. rewrite Hsign. unfold try_except. rewrite do_request_run. cbv zeta.
  rewrite Hout. rewrite (respond_http_error _ _ _ _ Herr).
  unfold network_error.
  destruct (Str.contains "timed out" (reason r)); reflexivity.
Qed.

(** When a response with status 400 does get to line 49, the body is
    subscripted whatever it is. *)
Lemma respond_400_text url data err_msg depth text hdrs :
  (depth < 100)%Z ->
  json_loads L text = None ->
  respond L cfg url data err_msg depth (Returned text 400 hdrs) = Raise TypeError.
Proof.
  intros Hd Hnone. unfold respond. cbn [rbind]. rewrite Hnone.
  apply Z.ltb_lt in Hd. rewrite Hd. reflexivity.
Qed.

Lemma respond_400_no_type url data err_msg depth text hdrs fields :
  (depth < 100)%Z ->
  json_loads L text = Some (JObj fields) ->
  Json.assoc "type" fields = None ->
  respond L cfg url data err_msg depth (Returned text 400 hdrs) = Raise (KeyError "type").
Proof.
  intros Hd Hsome Hassoc. unfold respond. cbn [rbind]. rewrite Hsome.
  apply Z.ltb_lt in Hd. rewrite Hd. cbn [code_is andb]. rewrite Z.eqb_refl.
  unfold getitem. rewrite Hassoc. reflexivity.
Qed.

End ErrorStatus.

(** C1 (what the code does). A signed request whose answer is an HTTP
    response with status 400, whatever its body and so also when the body
    says badNonce, is not sent again: after the one round of nonce,
    signature and request, [_send_signed_request] raises the ValueError
    "... Network error: HTTP Error 400: ..." of the clause for [URLError]
    (or the one for a timeout when the reason phrase says so), which has
    neither the URL nor the payload nor the body in it. *)
Theorem C1_bad_nonce_response_is_not_retried :
  forall L E cfg fuel s url payload err_msg w data w1 r,
    sign L E cfg s url payload w = (Ok data, w1) ->
    env_urlopen E (trace w1) url (Some data) = urllib_outcome r ->
    status r = 400%Z ->
    let run := _send_signed_request L E cfg (S fuel) s url payload err_msg w in
    fst run = Raise (network_error cfg err_msg r) /\
    exists cmd input rc o e nu text code get,
      trace (snd run) =
        Urlopen url (Some data) (urllib_outcome r)
          :: Popen cmd [] input rc o e
          :: Urlopen nu None (Returned text code (Message get))
          :: trace w.
Proof.
  intros L E cfg fuel s url payload err_msg w data w1 r Hsign Hout Hstatus run.
  assert (Herr : error_status r) by (unfold error_status; rewrite Hstatus; reflexivity).
  subst run. unfold _send_signed_request.
  rewrite (@send_signed_http_error L E cfg fuel s url payload err_msg 0 w data w1 r
             Hsign Hout Herr).
  split; [reflexivity |].
  apply sign_spec in Hsign. destruct Hsign as [_ Hsign].
  destruct Hsign as (nu & text & code & get & cmd & input & rc & o & e & _ & Hw1 & _).
  exists cmd, input, rc, o, e, nu, text, code, get.
  cbn [snd call trace]. rewrite Hw1. reflexivity.
Qed.

(** C9 (what the code does). Below depth 100: an HTTP response with status
    400 raises the ValueError of the clause for [URLError], it is neither
    the retry signal nor the error of line 52 with status and body; and when
    [urlopen] hands a response with status 400 back, a body that is not JSON
    raises TypeError and a JSON object without "type" raises KeyError, which
    no caller expects. *)
Theorem C9_status_400_outside_classification :
  forall L cfg url data err_msg depth,
    (depth < 100)%Z ->
    (forall r, status r = 400%Z ->
               respond L cfg url data err_msg depth (urllib_outcome r)
               = Raise (network_error cfg err_msg r)) /\
    (forall text hdrs,
        json_loads L text = None ->
        respond L cfg url data err_msg depth (Returned text 400 hdrs) = Raise TypeError) /\
    (forall text hdrs fields,
        json_loads L text = Some (JObj fields) ->
        Json.assoc "type" fields = None ->
        respond L cfg url data err_msg depth (Returned text 400 hdrs)
        = Raise (KeyError "type")).
Proof.
  intros L cfg url data err_msg depth Hd. split; [| split].
  - intros r Hstatus. apply respond_http_error.
    unfold error_status. rewrite Hstatus. reflexivity.
  - intros text hdrs. apply respond_400_text, Hd.
  - intros text hdrs fields. apply respond_400_no_type, Hd.
Qed.

(* ================================================================= *)
(** ** The retry of lines 49 and 67-68, when it can be reached *)

(** Under a [urlopen] that hands a response with status 400 back instead
    of raising (the standard one never does), the retry is the one the
    comments of the source describe: a body of type badNonce is answered by
    a new round, and after 100 of them the last response is reported. *)
Section Retry.

Variable L : pylib.
Variable E : environment.
Variable cfg : config.
Variable s : session.
Variable url : json.
Variable payload : option json.
Variable err_msg : string.
Variable text : string.
Variable hdrs : headers.
Variable fields : list (string * json).

Hypothesis Hsign : forall w, exists data w1, sign L E cfg s url payload w = (Ok data, w1).
Hypothesis Hopen : forall tr data, env_urlopen E tr url (Some data) = Returned text 400 hdrs.
Hypothesis Hloads : json_loads L text = Some (JObj fields).
Hypothesis Htype : Json.assoc "type" fields = Some (JStr badNonce).

Lemma respond_bad_nonce data depth :
  respond L cfg url data err_msg depth (Returned text 400 hdrs) =
  if (depth <? 100)%Z then Raise (IndexError (JObj fields))
  else Raise (ValueError (Bad_response err_msg url data (Some 400%Z) (JObj fields))).
Proof.
  unfold respond. cbn [rbind]. rewrite Hloads.
  destruct (depth <? 100)%Z.
  - cbn [andb code_is]. rewrite Z.eqb_refl. unfold getitem. rewrite Htype.
    reflexivity.
  - reflexivity.
Qed.

Lemma send_signed_retry_bound k :
  forall n depth w,
    depth = (100 - Z.of_nat k)%Z -> (k < n)%nat ->
    exists data new,
      fst (send_signed L E cfg n s url payload err_msg depth w)
      = Raise (ValueError (Bad_response err_msg url (Some data) (Some 400%Z) (JObj fields)))
      /\ trace (snd (send_signed L E cfg n s url payload err_msg depth w)) = new ++ trace w
      /\ List.length (posts new) = S k.
Proof.
  induction k as [| k IH]; intros n depth w Hdepth Hn.
  - destruct n as [| n]; [lia |].
    destruct (Hsign w) as (data & w1 & Hs).
    cbn [send_signed]. unfold bind. rewrite Hs. unfold try_except.
    rewrite do_request_run. cbv zeta. rewrite Hopen. rewrite respond_bad_nonce.
    replace (depth <? 100)%Z with false by (symmetry; apply Z.ltb_ge; lia).
    cbn [is_IndexError fst snd].
    apply sign_spec in Hs. destruct Hs as [_ Hs].
    destruct Hs as (nu & t & c & g & cmd & input & rc & o & e & _ & Hw1 & _).
    exists data. eexists. split; [reflexivity |]. cbn [call snd trace]. rewrite Hw1.
    split.
    + change (?a :: ?b :: ?c :: trace w) with ([a; b; c] ++ trace w). reflexivity.
    + reflexivity.
  - destruct n as [| n]; [lia |].
    destruct (Hsign w) as (data & w1 & Hs).
    cbn [send_signed]. unfold bind. rewrite Hs. unfold try_except.
    rewrite do_request_run. cbv zeta. rewrite Hopen. rewrite respond_bad_nonce.
    replace (depth <? 100)%Z with true by (symmetry; apply Z.ltb_lt; lia).
    cbn [is_IndexError].
    apply sign_spec in Hs. destruct Hs as [_ Hs].
    destruct Hs as (nu & t & c & g & cmd & input & rc & o & e & _ & Hw1 & _).
    set (w2 := snd (call E (Urlopen url (Some data) (Returned text 400 hdrs)) 0 w1)).
    assert (Hw2 : trace w2 =
                  [Urlopen url (Some data) (Returned text 400 hdrs);
                   Popen cmd [] input rc o e;
                   Urlopen nu None (Returned t c (Message g))] ++ trace w).
    { subst w2. cbn [call snd trace]. rewrite Hw1. reflexivity. }
    destruct (IH n (depth + 1)%Z w2) as (data' & new & Hr & Htr & Hcount); [lia | lia |].
    exists data'. eexists. split; [exact Hr |]. split.
    + rewrite Htr, Hw2. rewrite app_assoc. reflexivity.
    + unfold posts in *. rewrite filter_app, length_app, Hcount.
      cbn [List.filter is_post List.length]. lia.
Qed.

End Retry.

(** The double that hands its 400 back: 101 signed requests, then the
    error with the status and the body. *)
Example returned_bad_nonce_is_retried_100_times :
  let run := _send_signed_request Scenario.lib (Scenario.env_returning Scenario.rejecting)
               Scenario.cfg 200 Scenario.registered Scenario.authz_url None "Error"
               Scenario.start in
  is_ValueError (match fst run with Raise e => e | _ => KeyError EmptyString end) = true
  /\ Scenario.post_count (trace (snd run)) = 101%nat.
Proof. vm_compute. split; reflexivity. Qed.

Lemma C1_bad_nonce_response_is_not_retried_witness :
  let run := _send_signed_request Scenario.lib (Scenario.env Scenario.rejecting)
               Scenario.cfg 200 Scenario.registered Scenario.authz_url None "Error"
               Scenario.start in
  fst run = Raise (ValueError (Network_error "Error" "HTTP Error 400: Bad Request"))
  /\ Scenario.post_count (trace (snd run)) = 1%nat.
Proof.
  destruct (sign Scenario.lib (Scenario.env Scenario.rejecting) Scenario.cfg
              Scenario.registered Scenario.authz_url None Scenario.start)
    as [[data | e0 |] w1] eqn:Hs;
    [| vm_compute in Hs; discriminate Hs | vm_compute in Hs; discriminate Hs].
  pose proof (@C1_bad_nonce_response_is_not_retried
                Scenario.lib (Scenario.env Scenario.rejecting) Scenario.cfg 199
                Scenario.registered Scenario.authz_url None "Error" Scenario.start
                data w1
                (Scenario.reply Scenario.rejecting (trace w1) "https://ca.test/authz/1"
                   (Some data))
                Hs eq_refl eq_refl)
    as [Hfst (cmd & input & rc & o & e & nu & t & c & g & Htr)].
  split.
  - rewrite Hfst. vm_compute. reflexivity.
  - rewrite Htr. reflexivity.
Defined.

Lemma C9_status_400_outside_classification_witness :
  respond Scenario.lib Scenario.cfg Scenario.authz_url None "Error" 0
    (urllib_outcome (Scenario.answer 400 "Bad Request" (Json.dumps Scenario.bad_nonce_doc) []))
  = Raise (ValueError (Network_error "Error" "HTTP Error 400: Bad Request"))
  /\ respond Scenario.lib Scenario.cfg Scenario.authz_url None "Error" 0
       (Returned "Bad Request" 400 EmptyDict) = Raise TypeError
  /\ respond Scenario.lib Scenario.cfg Scenario.authz_url None "Error" 0
       (Returned "{}" 400 EmptyDict) = Raise (KeyError "type").
Proof.
  destruct (@C9_status_400_outside_classification
              Scenario.lib Scenario.cfg Scenario.authz_url None "Error" 0 ltac:(lia))
    as (H1 & H2 & H3).
  split; [| split].
  - rewrite (H1 (Scenario.answer 400 "Bad Request" (Json.dumps Scenario.bad_nonce_doc) []) eq_refl).
    vm_compute. reflexivity.
  - apply H2. vm_compute. reflexivity.
  - apply (H3 "{}" EmptyDict []); vm_compute; reflexivity.
Defined.

(* ================================================================= *)
(** ** The account key: hexadecimal numerals *)









Lemma fold_bytes_cons c r acc :
  fold_left (fun a x => (256 * a + N_of_ascii x)%N) (list_ascii_of_string (String c r)) acc
  = fold_left (fun a x => (256 * a + N_of_ascii x)%N) (list_ascii_of_string r)
      (256 * acc + N_of_ascii c)%N.
Proof. reflexivity. Qed.








(** A minimal byte string is the shortest among the byte strings that
    denote its number. *)
Lemma be_value_acc b :
  forall acc,
    fold_left (fun a c => (256 * a + N_of_ascii c)%N) (list_ascii_of_string b) acc
    = (acc * 256 ^ N.of_nat (String.length b) + be_value b)%N
    /\ (be_value b < 256 ^ N.of_nat (String.length b))%N.
Proof.
  unfold be_value.
  induction b as [| c b IH]; intros acc.
  - cbn. split; lia.
  - rewrite !fold_bytes_cons. cbn [String.length].
    destruct (IH (256 * acc + N_of_ascii c)%N) as [H1 Hlt].
    destruct (IH (256 * 0 + N_of_ascii c)%N) as [H2 _].
    rewrite H1, H2. rewrite Nat2N.inj_succ, N.pow_succ_r'.
    pose proof (N_ascii_bounded c).
    split; [lia | nia].
Qed.

Lemma minimal_bytes_shortest b b' :
  minimal_bytes b -> be_value b' = be_value b -> b' <> EmptyString ->
  (String.length b <= String.length b')%nat.
Proof.
  intros Hmin Heq Hne.
  destruct Hmin as [-> | (c & t & -> & Hc)].
  - destruct b'; [congruence | cbn; lia].
  - destruct (be_value_acc b' 0) as [_ Hlt'].
    destruct (be_value_acc t (256 * 0 + N_of_ascii c)) as [Ht _].
    assert (Hge : (256 ^ N.of_nat (String.length t) <= be_value (String c t))%N).
    { unfold be_value at 1. rewrite fold_bytes_cons, Ht. nia. }
    rewrite <- Heq in Hge.
    assert (Hpow : (256 ^ N.of_nat (String.length t) < 256 ^ N.of_nat (String.length b'))%N)
      by lia.
    apply N.pow_lt_mono_r_iff in Hpow; [| lia].
    cbn [String.length]. lia.
Qed.

(* ================================================================= *)
(** ** The account key: base64url *)



















(* ================================================================= *)
(** ** The account key: JWK and thumbprint *)








(** The double that never validates answers every request for the
    authorization with the status pending. *)
Lemma never_validates_reply tr data :
  Scenario.reply Scenario.never_validates tr "https://ca.test/authz/1" data
  = Scenario.answer 200 "OK" (Json.dumps (Scenario.authorization_doc "pending")) [].
Proof.
  unfold Scenario.reply.
  change (String.eqb "https://ca.test/authz/1" "https://ca.test/nonce") with false.
  change (String.eqb "https://ca.test/authz/1"
            "http://example.com/.well-known/acme-challenge/tok_en") with false.
  change (Scenario.reject_nonces Scenario.never_validates) with false.
  change (String.eqb "https://ca.test/authz/1" "https://ca.test/dir") with false.
  change (String.eqb "https://ca.test/authz/1" "https://ca.test/acct") with false.
  change (String.eqb "https://ca.test/authz/1" "https://ca.test/order") with false.
  change (String.eqb "https://ca.test/authz/1" "https://ca.test/authz/1") with true.
  cbv iota. cbn [andb].
  destruct (Scenario.notified tr); reflexivity.
Qed.

Lemma never_validates_always_pending :
  forall w1, exists v c h w2 st,
    _send_signed_request Scenario.lib (Scenario.env Scenario.never_validates) Scenario.cfg
      1802 Scenario.registered Scenario.authz_url None "Error" w1 = (Ok (v, c, h), w2) /\
    getitem v "status" = Ok st /\
    Json.in_strs st ["pending"] = true.
Proof.
  intros w1.
  destruct (sign Scenario.lib (Scenario.env Scenario.never_validates) Scenario.cfg
              Scenario.registered Scenario.authz_url None w1)
    as [[data | e0 |] w1'] eqn:Hs;
    [| vm_compute in Hs; discriminate Hs | vm_compute in Hs; discriminate Hs].
  assert (Hstep :
    _send_signed_request Scenario.lib (Scenario.env Scenario.never_validates) Scenario.cfg
      1802 Scenario.registered Scenario.authz_url None "Error" w1
    = bind (sign Scenario.lib (Scenario.env Scenario.never_validates) Scenario.cfg
              Scenario.registered Scenario.authz_url None)
        (fun data =>
           try_except
             (_do_request Scenario.lib (Scenario.env Scenario.never_validates) Scenario.cfg
                Scenario.authz_url (Some data) "Error" 0)
             is_IndexError
             (fun _ => send_signed Scenario.lib (Scenario.env Scenario.never_validates)
                         Scenario.cfg 1801 Scenario.registered Scenario.authz_url None
                         "Error" (0 + 1))) w1) by reflexivity.
  rewrite Hstep. unfold bind. rewrite Hs. unfold try_except.
  rewrite do_request_run. cbv zeta.
  change (env_urlopen (Scenario.env Scenario.never_validates) (trace w1')
            Scenario.authz_url (Some data))
    with (urllib_outcome
            (Scenario.reply Scenario.never_validates (trace w1')
               "https://ca.test/authz/1" (Some data))).
  rewrite never_validates_reply.
  set (r := respond Scenario.lib Scenario.cfg Scenario.authz_url (Some data) "Error" 0
              (urllib_outcome
                 (Scenario.answer 200 "OK"
                    (Json.dumps (Scenario.authorization_doc "pending")) []))).
  assert (Hr : r = Ok (Scenario.authorization_doc "pending", 200%Z,
                       Message (Scenario.with_headers []))).
  { subst r. vm_compute. reflexivity. }
  rewrite Hr.
  eexists. eexists. eexists. eexists. exists (JStr "pending").
  split; [reflexivity |]. split; reflexivity.
Qed.

Lemma C2_polling_ceiling_witness :
  let run := _poll_until_complete Scenario.lib (Scenario.env Scenario.never_validates)
               Scenario.cfg 1802 Scenario.registered Scenario.authz_url ["pending"]
               "Error" Scenario.start in
  (1802 <= 1802)%nat
  /\ fst run = Raise (AssertionError (Some "Polling timeout"))
  /\ (3600 * 1000 <= clock (snd run) - clock Scenario.start)%Z
  /\ exists k new,
       (k <= 1800)%nat /\
       trace (snd run) = new ++ trace Scenario.start /\
       sleeps new = repeat 2%Z k ++ [0%Z].
Proof.
  assert (Hfuel : (1802 <= 1802)%nat) by lia.
  destruct (@C2_polling_ceiling Scenario.lib (Scenario.env Scenario.never_validates)
              Scenario.cfg 1802 Scenario.registered Scenario.authz_url ["pending"]
              "Error" Scenario.start Hfuel)
    as (_ & Hpaced & Hpending).
  destruct (Hpending never_validates_always_pending) as [Hr Hclock].
  destruct (Hpaced (@pending_not_null _ _ _ _ _ _ _ _ never_validates_always_pending))
    as [_ Hsleeps].
  split; [exact Hfuel |]. split; [exact Hr |]. split; [exact Hclock | exact Hsleeps].
Defined.

(* ================================================================= *)
(** ** What a request returns and raises *)

Section Requests.

Variable L : pylib.
Variable E : environment.
Variable cfg : config.

Lemma respond_ok_code url data err_msg depth out v c h :
  respond L cfg url data err_msg depth out = Ok (v, c, h) ->
  (c = 200 \/ c = 201 \/ c = 204)%Z.
Proof.
  unfold respond, rbind. intros H.
  assert (Hin : forall code, code_in (Some code) [200; 201; 204]%Z = true ->
                             (code = 200 \/ code = 201 \/ code = 204)%Z).
  { intros code Hc. unfold code_in in Hc. cbn [existsb code_is] in Hc.
    rewrite orb_false_r in Hc.
    apply orb_true_iff in Hc. destruct Hc as [Hc | Hc]; [left; apply Z.eqb_eq, Hc |].
    apply orb_true_iff in Hc. destruct Hc as [Hc | Hc]; [right; left | right; right];
      apply Z.eqb_eq, Hc. }
  destruct out as [text code hdrs | e];
    break_matches H; inversion H; subst; apply Hin; assumption.
Qed.

(** What [_do_request] makes of an exception of [urlopen] that one of its
    first two clauses takes, or none. *)
Lemma respond_raised url data err_msg depth e0 :
  (is_socket_timeout (e_class e0) = true ->
   respond L cfg url data err_msg depth (Raised e0)
   = Raise (ValueError (Timed_out err_msg (timeout cfg)))) /\
  (is_socket_timeout (e_class e0) = false ->
   is_URLError (e_class e0) = true ->
   respond L cfg url data err_msg depth (Raised e0)
   = Raise (ValueError
              (if match e_reason e0 with
                  | Some reason => Str.contains "timed out" reason
                  | None => false
                  end
               then Timed_out err_msg (timeout cfg)
               else Network_error err_msg (e_str e0)))) /\
  (is_socket_timeout (e_class e0) = false ->
   is_URLError (e_class e0) = false ->
   is_IOError (e_class e0) = false ->
   respond L cfg url data err_msg depth (Raised e0) = Raise (Lib e0)).
Proof.
  unfold respond. repeat split.
  - intros H1. rewrite H1. reflexivity.
  - intros H1 H2. rewrite H1, H2.
    destruct (match e_reason e0 with
              | Some reason => Str.contains "timed out" reason
              | None => false
              end); reflexivity.
  - intros H1 H2 H3. rewrite H1, H2, H3. reflexivity.
Qed.

End Requests.

(** X1. When [_do_request] returns, the status of the response is 200, 201
    or 204, and exactly one call of [urlopen] was made, for the URL and the
    body it was given. *)
Theorem X1_do_request_returns_success_codes :
  forall L E cfg url data err_msg depth w v c h w',
    _do_request L E cfg url data err_msg depth w = (Ok (v, c, h), w') ->
    (c = 200 \/ c = 201 \/ c = 204)%Z /\
    trace w' = Urlopen url data (env_urlopen E (trace w) url data) :: trace w.
Proof.
  intros L E cfg url data err_msg depth w v c h w' H.
  rewrite do_request_run in H. cbv zeta in H.
  inversion H as [[Hr Hw]]. split.
  - exact (respond_ok_code _ _ _ _ _ _ _ Hr).
  - reflexivity.
Qed.

Lemma X1_do_request_returns_success_codes_witness :
  exists v c h w',
    _do_request Scenario.lib (Scenario.env Scenario.happy) Scenario.cfg
      (JStr "https://ca.test/acct") None "Error" 0 Scenario.start = (Ok (v, c, h), w')
    /\ c = 201%Z
    /\ List.length (trace w') = 1%nat.
Proof.
  destruct (_do_request Scenario.lib (Scenario.env Scenario.happy) Scenario.cfg
              (JStr "https://ca.test/acct") None "Error" 0 Scenario.start)
    as [[[[v c] h] | e |] w'] eqn:Hrun;
    [| vm_compute in Hrun; discriminate Hrun | vm_compute in Hrun; discriminate Hrun].
  destruct (@X1_do_request_returns_success_codes _ _ _ _ _ _ _ _ _ _ _ _ Hrun)
    as [Hcode Htrace].
  exists v, c, h, w'. split; [reflexivity |]. split.
  - assert (Hc : c = 201%Z \/ c <> 201%Z) by lia.
    destruct Hc as [Hc | Hc]; [exact Hc |].
    exfalso. vm_compute in Hrun. inversion Hrun. subst. apply Hc. reflexivity.
  - rewrite Htrace. reflexivity.
Defined.

(** X2. When [urlopen] raises, [_do_request] has made that one call and, at
    any depth: a socket timeout becomes the ValueError "Request timed out";
    a URLError (an HTTPError is one) becomes the same ValueError when its
    reason contains "timed out" and the ValueError "Network error" with the
    text of the exception otherwise; an exception that is neither a socket
    timeout nor a URLError nor an IOError leaves [_do_request] unchanged. *)
Theorem X2_urlopen_exceptions :
  forall L E cfg url data err_msg depth w e0,
    env_urlopen E (trace w) url data = Raised e0 ->
    let run := _do_request L E cfg url data err_msg depth w in
    trace (snd run) = Urlopen url data (Raised e0) :: trace w /\
    (is_socket_timeout (e_class e0) = true ->
     fst run = Raise (ValueError (Timed_out err_msg (timeout cfg)))) /\
    (is_socket_timeout (e_class e0) = false ->
     is_URLError (e_class e0) = true ->
     fst run = Raise (ValueError
                        (if match e_reason e0 with
                            | Some reason => Str.contains "timed out" reason
                            | None => false
                            end
                         then Timed_out err_msg (timeout cfg)
                         else Network_error err_msg (e_str e0)))) /\
    (is_socket_timeout (e_class e0) = false ->
     is_URLError (e_class e0) = false ->
     is_IOError (e_class e0) = false ->
     fst run = Raise (Lib e0)).
Proof.
  intros L E cfg url data err_msg depth w e0 Hout run.
  subst run. rewrite do_request_run. cbv zeta. rewrite Hout. cbn [fst snd].
  split; [reflexivity |]. apply respond_raised.
Qed.

Lemma X2_urlopen_exceptions_witness :
  let run := _do_request Scenario.lib (Scenario.env Scenario.happy) Scenario.cfg
               (JStr "https://ca.test/nowhere") None "Error" 0 Scenario.start in
  fst run = Raise (ValueError (Network_error "Error" "HTTP Error 404: Not Found"))
  /\ List.length (trace (snd run)) = 1%nat.
Proof.
  intro run.
  destruct (@X2_urlopen_exceptions Scenario.lib (Scenario.env Scenario.happy) Scenario.cfg
              (JStr "https://ca.test/nowhere") None "Error" 0%Z Scenario.start
              (http_error (Scenario.answer 404 "Not Found" EmptyString [])))
    as (Htrace & _ & Hurl & _).
  - vm_compute. reflexivity.
  - fold run in Htrace, Hurl. split.
    + rewrite Hurl; reflexivity.
    + rewrite Htrace. reflexivity.
Defined.

(* ================================================================= *)
(** ** One signed request *)

Section OneRequest.

Variable L : pylib.
Variable E : environment.
Variable cfg : config.

(** A round whose answer is not the retry signal is the last one. *)
Lemma send_signed_once n s url payload err_msg depth w data w1 :
  sign L E cfg s url payload w = (Ok data, w1) ->
  (forall d, respond L cfg url (Some data) err_msg depth
               (env_urlopen E (trace w1) url (Some data)) <> Raise (IndexError d)) ->
  send_signed L E cfg (S n) s url payload err_msg depth w
  = (respond L cfg url (Some data) err_msg depth
       (env_urlopen E (trace w1) url (Some data)),
     snd (call E (Urlopen url (Some data) (env_urlopen E (trace w1) url (Some data))) 0 w1)).
Proof.
  intros Hsign Hr. cbn [send_signed].
  unfold bind. rewrite Hsign. unfold try_except. rewrite do_request_run. cbv zeta.
  destruct (respond L cfg url (Some data) err_msg depth
              (env_urlopen E (trace w1) url (Some data))) as [x | e |] eqn:Hresp;
    try reflexivity.
  destruct e; try reflexivity. exfalso. exact (Hr _ eq_refl).
Qed.

(** A request that cannot be signed is not sent. *)
Lemma send_signed_unsigned n s url payload err_msg depth w e w1 :
  sign L E cfg s url payload w = (Raise e, w1) ->
  send_signed L E cfg (S n) s url payload err_msg depth w = (Raise e, w1).
Proof.
  intros Hsign. cbn [send_signed]. unfold bind. rewrite Hsign. reflexivity.
Qed.

(** The body that [sign] returns, member by member, and the command that
    signed it. *)
Lemma sign_body s url payload w data w' :
  sign L E cfg s url payload w = (Ok data, w') ->
  exists get out err nu text code key,
    key = match acct_headers s with
          | None => ("jwk", jwk s)
          | Some h => ("kid", match header_get h "Location" with
                              | Ok loc => Json.of_option loc
                              | _ => JNull
                              end)
          end /\
    (forall h, acct_headers s = Some h -> exists loc, header_get h "Location" = Ok loc) /\
    sb_protected data =
      JObj [("url", url); ("alg", JStr (alg s));
            ("nonce", Json.of_option (get "Replay-Nonce")); key] /\
    sb_payload64 data = payload64_of payload /\
    sb_signature data = Codec._b64_encode_jose out /\
    trace w' =
      Popen ["openssl"; "dgst"; "-sha256"; "-sign"; account_key cfg] []
        (Some (protected64_of (sb_protected data) ++ "." ++ sb_payload64 data)%string)
        0 out err
      :: Urlopen nu None (Returned text code (Message get)) :: trace w.
Proof.
  intros Hs. unfold sign in Hs. cbv zeta in Hs. unfold bind at 1, lift at 1 in Hs.
  destruct (getitem (directory s) "newNonce") as [nu | e0 |] eqn:Hnu;
    [| discriminate Hs | discriminate Hs].
  unfold bind at 1 in Hs. rewrite do_request_run in Hs. cbv zeta in Hs.
  set (o1 := env_urlopen E (trace w) nu None) in Hs.
  set (w1 := snd (call E (Urlopen nu None o1) 0 w)) in Hs.
  assert (Hw1 : trace w1 = Urlopen nu None o1 :: trace w) by reflexivity.
  clearbody w1.
  destruct (respond L cfg nu None "Error" 0 o1) as [[[v c] h] | e1 |] eqn:Hr;
    [| discriminate Hs | discriminate Hs].
  simpl snd in Hs. unfold bind at 1, lift at 1 in Hs.
  destruct h as [get |]; simpl header_get in Hs; [| discriminate Hs].
  destruct (@respond_ok_message L cfg _ _ _ _ _ _ _ _ Hr) as [text Ho1].
  assert (Hkey : forall key : string * json,
    bind (_run_external_cmd E
            ["openssl"; "dgst"; "-sha256"; "-sign"; account_key cfg]
            (Some (protected64_of
                     (JObj [("url", url); ("alg", JStr (alg s));
                            ("nonce", Json.of_option (get "Replay-Nonce")); key])
                     ++ "." ++ payload64_of payload)%string)
            "OpenSSL Error")
         (fun out =>
            ret {| sb_protected :=
                     JObj [("url", url); ("alg", JStr (alg s));
                           ("nonce", Json.of_option (get "Replay-Nonce")); key];
                   sb_payload64 := payload64_of payload;
                   sb_signature := Codec._b64_encode_jose out |}) w1 = (Ok data, w') ->
    exists out err,
      sb_protected data =
        JObj [("url", url); ("alg", JStr (alg s));
              ("nonce", Json.of_option (get "Replay-Nonce")); key] /\
      sb_payload64 data = payload64_of payload /\
      sb_signature data = Codec._b64_encode_jose out /\
      trace w' =
        Popen ["openssl"; "dgst"; "-sha256"; "-sign"; account_key cfg] []
          (Some (protected64_of (sb_protected data) ++ "." ++ sb_payload64 data)%string)
          0 out err
        :: Urlopen nu None (Returned text c (Message get)) :: trace w).
  { intros key H. unfold bind in H. rewrite run_external_cmd_run in H. cbv zeta in H.
    destruct (env_popen E (trace w1) _ [] _) as [[rc out] err].
    simpl fst in H. simpl snd in H.
    destruct (rc =? 0)%Z eqn:Hrc; cbn [negb] in H; [| discriminate H].
    apply Z.eqb_eq in Hrc. subst rc.
    unfold ret in H. inversion H; subst; clear H.
    exists out, err. cbn [sb_protected sb_payload64 sb_signature call snd trace].
    rewrite Hw1. subst o1. rewrite Ho1.
    split; [reflexivity |]. split; [reflexivity |]. split; reflexivity. }
  unfold bind at 1 in Hs.
  destruct (acct_headers s) as [h |] eqn:Hacct.
  - unfold bind at 1, lift at 1 in Hs.
    destruct (header_get h "Location") as [loc | e2 |] eqn:Hloc;
      [| discriminate Hs | discriminate Hs].
    unfold ret at 1 in Hs.
    destruct (Hkey ("kid", Json.of_option loc) Hs) as (out & err & H1 & H2 & H3 & H4).
    exists get, out, err, nu, text, c. eexists.
    split; [reflexivity |].
    split; [intros h' Hh'; inversion Hh'; subst h'; exists loc; exact Hloc |].
    split; [exact H1 |]. split; [exact H2 |]. split; [exact H3 | exact H4].
  - unfold ret at 1 in Hs.
    destruct (Hkey ("jwk", jwk s) Hs) as (out & err & H1 & H2 & H3 & H4).
    exists get, out, err, nu, text, c. eexists.
    split; [reflexivity |].
    split; [intros h' Hh'; discriminate Hh' |].
    split; [exact H1 |]. split; [exact H2 |]. split; [exact H3 | exact H4].
Qed.

End OneRequest.

(** X3. A signed request whose answer is anything but the retry signal of a
    rejected nonce (a response that is returned, a timeout, a network
    error, an error status) is made once: after one nonce, one signature
    and one request, [_send_signed_request] returns or raises what
    [_do_request] made of the answer, at any depth. *)
Theorem X3_only_the_retry_signal_is_retried :
  forall L E cfg n s url payload err_msg depth w data w1,
    sign L E cfg s url payload w = (Ok data, w1) ->
    (forall d, respond L cfg url (Some data) err_msg depth
                 (env_urlopen E (trace w1) url (Some data)) <> Raise (IndexError d)) ->
    send_signed L E cfg (S n) s url payload err_msg depth w
    = (respond L cfg url (Some data) err_msg depth
         (env_urlopen E (trace w1) url (Some data)),
       {| trace := Urlopen url (Some data) (env_urlopen E (trace w1) url (Some data))
                     :: trace w1;
          clock := clock w1 + 0
                   + Z.of_N (env_lag E (Urlopen url (Some data)
                                          (env_urlopen E (trace w1) url (Some data))
                                          :: trace w1)) |}).
Proof.
  intros L E cfg n s url payload err_msg depth w data w1 Hsign Hr.
  rewrite (@send_signed_once L E cfg n s url payload err_msg depth w data w1 Hsign Hr).
  reflexivity.
Qed.

Lemma X3_only_the_retry_signal_is_retried_witness :
  exists v h w',
    _send_signed_request Scenario.lib (Scenario.env Scenario.happy) Scenario.cfg 1
      Scenario.registered Scenario.authz_url None "Error" Scenario.start
    = (Ok (v, 200%Z, h), w')
    /\ Scenario.post_count (trace w') = 1%nat.
Proof.
  destruct (sign Scenario.lib (Scenario.env Scenario.happy) Scenario.cfg
              Scenario.registered Scenario.authz_url None Scenario.start)
    as [[data | e0 |] w1] eqn:Hs;
    [| vm_compute in Hs; discriminate Hs | vm_compute in Hs; discriminate Hs].
  assert (Hr : forall d,
    respond Scenario.lib Scenario.cfg Scenario.authz_url (Some data) "Error" 0
      (env_urlopen (Scenario.env Scenario.happy) (trace w1) Scenario.authz_url (Some data))
    <> Raise (IndexError d)).
  { intros d. vm_compute in Hs. inversion Hs; subst. vm_compute. discriminate. }
  pose proof (@X3_only_the_retry_signal_is_retried
                Scenario.lib (Scenario.env Scenario.happy) Scenario.cfg 0
                Scenario.registered Scenario.authz_url None "Error" 0 Scenario.start
                data w1 Hs Hr) as Hrun.
  unfold _send_signed_request. rewrite Hrun.
  vm_compute in Hs. inversion Hs; subst.
  eexists. eexists. eexists. split; [vm_compute; reflexivity |].
  vm_compute. reflexivity.
Defined.

(** X4. What is signed is what is sent: when [sign] returns, the body has
    the protected header of exactly [url], [alg], [nonce] (the Replay-Nonce
    of the response to the request for a nonce) and one key member, [jwk]
    while there are no account headers and [kid] with their Location after
    that; its payload is empty for no payload and the base64url of the JSON
    of the payload otherwise; its signature is the base64url of what the
    command [openssl dgst -sha256 -sign <account key>] printed, which exited
    with 0 and was given the encoded protected header, a dot and the
    payload of this very body. *)
Theorem X4_signed_is_what_is_sent :
  forall L E cfg s url payload w data w',
    sign L E cfg s url payload w = (Ok data, w') ->
    exists get out err nu text code key,
      key = match acct_headers s with
            | None => ("jwk", jwk s)
            | Some h => ("kid", match header_get h "Location" with
                                | Ok loc => Json.of_option loc
                                | _ => JNull
                                end)
            end /\
      (forall h, acct_headers s = Some h -> exists loc, header_get h "Location" = Ok loc) /\
      sb_protected data =
        JObj [("url", url); ("alg", JStr (alg s));
              ("nonce", Json.of_option (get "Replay-Nonce")); key] /\
      sb_payload64 data = payload64_of payload /\
      sb_signature data = Codec._b64_encode_jose out /\
      trace w' =
        Popen ["openssl"; "dgst"; "-sha256"; "-sign"; account_key cfg] []
          (Some (protected64_of (sb_protected data) ++ "." ++ sb_payload64 data)%string)
          0 out err
        :: Urlopen nu None (Returned text code (Message get)) :: trace w.
Proof.
  intros L E cfg s url payload w data w' H.
  exact (@sign_body L E cfg s url payload w data w' H).
Qed.

Lemma X4_signed_is_what_is_sent_witness :
  exists data w',
    sign Scenario.lib (Scenario.env Scenario.happy) Scenario.cfg
      Scenario.registered Scenario.authz_url None Scenario.start = (Ok data, w')
    /\ sb_payload64 data = EmptyString
    /\ sb_signature data = "c2lnbmF0dXJl"%string
    /\ List.length (trace w') = 2%nat.
Proof.
  destruct (sign Scenario.lib (Scenario.env Scenario.happy) Scenario.cfg
              Scenario.registered Scenario.authz_url None Scenario.start)
    as [[data | e0 |] w'] eqn:Hs;
    [| vm_compute in Hs; discriminate Hs | vm_compute in Hs; discriminate Hs].
  destruct (@X4_signed_is_what_is_sent _ _ _ _ _ _ _ _ _ Hs)
    as (get & out & err & nu & text & code & key & _ & _ & _ & Hp & Hsig & Htr).
  exists data, w'. split; [reflexivity |].
  split; [exact Hp |].
  split; [vm_compute in Hs; inversion Hs; reflexivity |].
  rewrite Htr. reflexivity.
Defined.

(* ================================================================= *)
(** ** What the polling returns *)

Section Settled.

Variable L : pylib.
Variable E : environment.
Variable cfg : config.
Variable fuel : nat.
Variable s : session.
Variable url : json.
Variable pending : list string.
Variable err_msg : string.

Lemma poll_returns_settled t0 :
  forall n last w v w',
    poll L E cfg fuel n s url pending err_msg t0 last w = (Ok v, w') ->
    (exists st, getitem v "status" = Ok st /\ Json.in_strs st pending = false) /\
    (last = v
     \/ exists c h w1 w2,
          _send_signed_request L E cfg fuel s url None err_msg w1 = (Ok (v, c, h), w2)).
Proof.
  induction n as [| n IH]; intros last w v w' H; [discriminate H |].
  destruct (poll_cases L E cfg fuel s url pending err_msg t0 n last w)
    as [[_ Hp] | [(st & Hlast & Hst & Hin & Hp) | (e & Hlast & Hst & Hp)]];
    rewrite Hp in H.
  - rewrite turn_run in H.
    destruct (clock w - t0 <? 3600 * 1000)%Z; [| discriminate H].
    apply bind_inv_ok in H. destruct H as ([[a c] h] & w2 & Hsend & H).
    cbn [fst] in H. destruct (IH _ _ _ _ H) as [Hst [Hres | Hprev]].
    + split; [exact Hst |]. subst a. right.
      exists c, h, (slept E (if is_None last then 0 else 2) w), w2. exact Hsend.
    + split; [exact Hst | right; exact Hprev].
  - inversion H; subst. split; [exists st; split; assumption | left; reflexivity].
  - discriminate H.
Qed.

End Settled.

(** X5. What [_poll_until_complete] returns is the body of the response to
    one of its signed requests to the URL, it has a [status], and this
    status is none of the pending ones. *)
Theorem X5_poll_returns_settled :
  forall L E cfg fuel s url pending err_msg w v w',
    _poll_until_complete L E cfg fuel s url pending err_msg w = (Ok v, w') ->
    (exists st, getitem v "status" = Ok st /\ Json.in_strs st pending = false) /\
    exists c h w1 w2,
      _send_signed_request L E cfg fuel s url None err_msg w1 = (Ok (v, c, h), w2).
Proof.
  intros L E cfg fuel s url pending err_msg w v w' H.
  unfold _poll_until_complete in H. unfold bind at 1, time_time at 1 in H.
  destruct (@poll_returns_settled L E cfg fuel s url pending err_msg (clock w)
              fuel JNull w v w' H) as [Hst [Hnone | Hsent]].
  - exfalso. destruct Hst as (st & Hst & _). subst v. discriminate Hst.
  - split; [exact Hst | exact Hsent].
Qed.

Lemma X5_poll_returns_settled_witness :
  exists v w',
    _poll_until_complete Scenario.lib (Scenario.env Scenario.happy) Scenario.cfg 200
      Scenario.registered (JStr "https://ca.test/order/1") ["pending"; "processing"]
      "Error checking order status" Scenario.start = (Ok v, w')
    /\ getitem v "status" = Ok (JStr "valid").
Proof.
  destruct (_poll_until_complete Scenario.lib (Scenario.env Scenario.happy) Scenario.cfg 200
              Scenario.registered (JStr "https://ca.test/order/1") ["pending"; "processing"]
              "Error checking order status" Scenario.start)
    as [[v | e |] w'] eqn:Hrun;
    [| vm_compute in Hrun; discriminate Hrun | vm_compute in Hrun; discriminate Hrun].
  destruct (@X5_poll_returns_settled _ _ _ _ _ _ _ _ _ _ _ Hrun) as [(st & Hst & Hin) _].
  exists v, w'. split; [reflexivity |].
  vm_compute in Hrun. inversion Hrun; subst. reflexivity.
Defined.

(* ================================================================= *)
(** ** The domains of the request *)

Lemma set_add_spec x l :
  NoDup l ->
  NoDup (set_add x l) /\ forall d, In d (set_add x l) <-> d = x \/ In d l.
Proof.
  intros Hnd. unfold set_add.
  destruct (existsb (String.eqb x) l) eqn:Hex.
  - split; [exact Hnd |]. intros d. split; [intros H; right; exact H |].
    intros [-> | H]; [| exact H].
    apply existsb_exists in Hex. destruct Hex as (y & Hy & Heq).
    apply String.eqb_eq in Heq. subst y. exact Hy.
  - assert (Hnot : ~ In x l).
    { intros Hin. assert (existsb (String.eqb x) l = true).
      { apply existsb_exists. exists x. split; [exact Hin | apply String.eqb_refl]. }
      congruence. }
    split.
    + apply NoDup_app; [exact Hnd | repeat constructor; intros [] | ].
      intros a Ha [<- | []]. exact (Hnot Ha).
    + intros d. rewrite in_app_iff. cbn [In]. intuition congruence.
Qed.

Lemma fold_sans_spec sans :
  forall acc,
    NoDup acc ->
    let r := fold_left
               (fun acc san =>
                  if Str.startswith "DNS:" san then set_add (Str.drop 4 san) acc else acc)
               sans acc in
    NoDup r /\
    forall d, In d r <->
              In d acc
              \/ exists san, In san sans /\ Str.startswith "DNS:" san = true
                             /\ d = Str.drop 4 san.
Proof.
  induction sans as [| san sans IH]; intros acc Hnd; cbn [fold_left].
  - split; [exact Hnd |]. intros d. split; [intros H; left; exact H |].
    intros [H | (san & [] & _)]. exact H.
  - destruct (Str.startswith "DNS:" san) eqn:Hdns.
    + destruct (set_add_spec (Str.drop 4 san) Hnd) as [Hnd' Hin'].
      destruct (IH _ Hnd') as [Hr Hin]. split; [exact Hr |].
      intros d. rewrite Hin, Hin'. split.
      * intros [[-> | H] | (san' & Hs & Hp & Hd)].
        -- right. exists san. split; [left; reflexivity |]. split; [exact Hdns | reflexivity].
        -- left. exact H.
        -- right. exists san'. split; [right; exact Hs |]. split; assumption.
      * intros [H | (san' & [<- | Hs] & Hp & Hd)].
        -- left. right. exact H.
        -- left. left. exact Hd.
        -- right. exists san'. repeat split; assumption.
    + destruct (IH _ Hnd) as [Hr Hin]. split; [exact Hr |].
      intros d. rewrite Hin. split.
      * intros [H | (san' & Hs & Hp & Hd)]; [left; exact H |].
        right. exists san'. split; [right; exact Hs |]. split; assumption.
      * intros [H | (san' & [<- | Hs] & Hp & Hd)]; [left; exact H | congruence |].
        right. exists san'. repeat split; assumption.
Qed.

(** X6. The domains read from the text of the request are, each once, the
    common name when the text has one and, when it has a line of subject
    alternative names, what follows "DNS:" in every piece of that line
    between ", " that starts with "DNS:"; a piece that does not start with
    "DNS:" (an IP address, an e-mail address) gives no domain. *)
Theorem X6_csr_domains :
  forall L text,
    NoDup (csr_domains L text) /\
    forall d,
      In d (csr_domains L text) <->
      search_common_name L text = Some d
      \/ exists names san,
           search_alt_names L text = Some names
           /\ In san (Str.split ", " names)
           /\ Str.startswith "DNS:" san = true
           /\ d = Str.drop 4 san.
Proof.
  intros L text. unfold csr_domains.
  assert (Hcn : NoDup (match search_common_name L text with
                       | Some cn => set_add cn []
                       | None => []
                       end)
                /\ forall d, In d (match search_common_name L text with
                                   | Some cn => set_add cn []
                                   | None => []
                                   end)
                             <-> search_common_name L text = Some d).
  { destruct (search_common_name L text) as [cn |].
    - destruct (@set_add_spec cn [] (NoDup_nil _)) as [Hnd Hin]. split; [exact Hnd |].
      intros d. rewrite Hin. cbn [In]. split; [intros [-> | []]; reflexivity |].
      intros H. left. congruence.
    - split; [constructor |]. intros d. cbn [In]. split; [tauto | discriminate]. }
  destruct Hcn as [Hnd Hin].
  destruct (search_alt_names L text) as [names |].
  - destruct (fold_sans_spec (Str.split ", " names) Hnd) as [Hr Hfold].
    split; [exact Hr |]. intros d. rewrite Hfold, Hin. split.
    + intros [H | (san & Hs & Hp & Hd)]; [left; exact H |].
      right. exists names, san. repeat split; assumption.
    + intros [H | (names' & san & Hn & Hs & Hp & Hd)]; [left; exact H |].
      right. inversion Hn; subst names'. exists san. repeat split; assumption.
  - split; [exact Hnd |]. intros d. rewrite Hin. split; [intros H; left; exact H |].
    intros [H | (names & san & Hn & _)]; [exact H | discriminate Hn].
Qed.

(* ================================================================= *)
(** ** The choice of the challenge *)

Lemma find_challenge_none ct items :
  (forall ch, In ch items ->
              exists ty, getitem ch "type" = Ok ty /\ Json.eq_str ty ct = false) ->
  find_challenge ct items = Ok None.
Proof.
  induction items as [| c rest IH]; intros H; [reflexivity |].
  cbn [find_challenge].
  destruct (H c (or_introl eq_refl)) as (ty & Hty & Hne). rewrite Hty, Hne.
  apply IH. intros ch Hin. apply H. right. exact Hin.
Qed.

(** X8. The challenge that is answered is the first one, in the order of
    the authorization, whose [type] is the configured challenge type: the
    ones before it all have another type, and the ones after it are not
    looked at. *)
Theorem X8_first_challenge_of_type :
  forall ct items c,
    find_challenge ct items = Ok (Some c) <->
    exists before after,
      items = before ++ c :: after
      /\ (forall ch, In ch before ->
                     exists ty, getitem ch "type" = Ok ty /\ Json.eq_str ty ct = false)
      /\ exists ty, getitem c "type" = Ok ty /\ Json.eq_str ty ct = true.
Proof.
  intros ct items c. split.
  - induction items as [| x rest IH]; intros H; [discriminate H |].
    cbn [find_challenge] in H.
    destruct (getitem x "type") as [ty | e |] eqn:Hty; [| discriminate H | discriminate H].
    destruct (Json.eq_str ty ct) eqn:Heq.
    + inversion H; subst x. exists [], rest. split; [reflexivity |].
      split; [intros ch [] |]. exists ty. split; assumption.
    + destruct (IH H) as (before & after & Hitems & Hbefore & Hc).
      exists (x :: before), after. split; [rewrite Hitems; reflexivity |].
      split; [| exact Hc].
      intros ch [<- | Hin]; [exists ty; split; assumption | apply Hbefore, Hin].
  - intros (before & after & -> & Hbefore & ty & Hty & Heq).
    induction before as [| x before IH]; cbn [app find_challenge].
    + rewrite Hty, Heq. reflexivity.
    + destruct (Hbefore x (or_introl eq_refl)) as (tx & Htx & Hne). rewrite Htx, Hne.
      apply IH. intros ch Hin. apply Hbefore. right. exact Hin.
Qed.

(** X7. When a fetched authorization that is not yet valid offers no
    challenge of the configured type, the body of the loop raises the
    ValueError "Challenge type ... not available for domain ..." right
    after the fetch: no file is written, no command is run and nothing is
    sent for this authorization. *)
Theorem X7_no_challenge_of_type :
  forall L E cfg fuel s thumbprint auth_url w a c h w1 idf d st chs items,
    _send_signed_request L E cfg fuel s auth_url None "Error getting challenges" w
      = (Ok (a, c, h), w1) ->
    getitem a "identifier" = Ok idf ->
    getitem idf "value" = Ok d ->
    getitem a "status" = Ok st ->
    Json.eq_str st "valid" = false ->
    getitem a "challenges" = Ok chs ->
    iterate chs = Ok items ->
    (forall ch, In ch items ->
                exists ty, getitem ch "type" = Ok ty
                           /\ Json.eq_str ty (challenge_type cfg) = false) ->
    process_authorization L E cfg fuel s thumbprint auth_url w
    = (Raise (ValueError (No_challenge (challenge_type cfg) d)), w1).
Proof.
  intros L E cfg fuel s thumbprint auth_url w a c h w1 idf d st chs items
         Hfetch Hidf Hd Hst Hvalid Hchs Hitems Hnone.
  assert (Hplan : plan_of (challenge_type cfg) thumbprint a
                  = Raise (ValueError (No_challenge (challenge_type cfg) d))).
  { unfold plan_of. rewrite Hidf. cbn [rbind]. rewrite Hd. cbn [rbind].
    rewrite Hst. cbn [rbind]. rewrite Hvalid. rewrite Hchs. cbn [rbind].
    rewrite Hitems. cbn [rbind]. rewrite (find_challenge_none _ _ Hnone).
    reflexivity. }
  rewrite (@process_without_plan L E cfg fuel s thumbprint auth_url w a c h w1 Hfetch).
  - rewrite Hplan. reflexivity.
  - intros p Hp. rewrite Hplan in Hp. discriminate Hp.
Qed.

Lemma X7_no_challenge_of_type_witness :
  let cfg := {| account_key := "account.key"; csr := "domain.csr";
                acme_dir := Some "/var/www/challenges"; disable_check := false;
                directory_url := "https://ca.test/dir"; contact := None;
                check_port := None; challenge_type := "tls-alpn-01"; timeout := 30 |} in
  let run := process_authorization Scenario.lib (Scenario.env Scenario.happy) cfg 200
               Scenario.registered Scenario.thumbprint Scenario.authz_url Scenario.start in
  fst run = Raise (ValueError (No_challenge "tls-alpn-01" (JStr "example.com")))
  /\ Scenario.post_count (trace (snd run)) = 1%nat
  /\ Scenario.wrote (trace (snd run)) = false.
Proof.
  intros cfg run.
  destruct (_send_signed_request Scenario.lib (Scenario.env Scenario.happy) cfg 200
              Scenario.registered Scenario.authz_url None "Error getting challenges"
              Scenario.start) as [[[[a c] h] | e |] w1] eqn:Hfetch;
    [| vm_compute in Hfetch; discriminate Hfetch
     | vm_compute in Hfetch; discriminate Hfetch].
  assert (Ha : a = Scenario.authorization_doc "pending").
  { vm_compute in Hfetch. inversion Hfetch. reflexivity. }
  assert (Hrun : run = (Raise (ValueError (No_challenge "tls-alpn-01" (JStr "example.com"))),
                        w1)).
  { subst run.
    eapply (@X7_no_challenge_of_type Scenario.lib (Scenario.env Scenario.happy) cfg 200
              Scenario.registered Scenario.thumbprint Scenario.authz_url Scenario.start
              a c h w1).
    - exact Hfetch.
    - rewrite Ha. reflexivity.
    - reflexivity.
    - rewrite Ha. reflexivity.
    - reflexivity.
    - rewrite Ha. reflexivity.
    - reflexivity.
    - intros ch [<- | [<- | []]]; eexists; split; reflexivity. }
  rewrite Hrun. cbn [fst snd].
  split; [reflexivity |].
  vm_compute in Hfetch. inversion Hfetch. split; reflexivity.
Defined.

(* ================================================================= *)
(** ** When the response to the challenge cannot be put in place *)

Section PrepareFails.

Variable L : pylib.
Variable E : environment.
Variable cfg : config.
Variable fuel : nat.
Variable s : session.
Variable thumbprint : string.

(** What [prepare] raises ends the body of the loop, where it stands. *)
Lemma process_prepare_raises auth_url w a c h w1 p e w2 :
  _send_signed_request L E cfg fuel s auth_url None "Error getting challenges" w
    = (Ok (a, c, h), w1) ->
  plan_of (challenge_type cfg) thumbprint a = Ok (Some p) ->
  prepare L E cfg p w1 = (Raise e, w2) ->
  process_authorization L E cfg fuel s thumbprint auth_url w = (Raise e, w2).
Proof.
  intros Hfetch Hplan Hprep. unfold process_authorization, attempt.
  unfold bind at 1. unfold bind at 1. rewrite Hfetch. cbn [fst snd].
  unfold bind at 1, lift at 1. rewrite Hplan.
  unfold bind at 1. rewrite Hprep. reflexivity.
Qed.

Lemma execute_dns_api_no_script action dom tok key_auth w :
  env_script_ok E (trace w) = false ->
  _execute_dns_api E cfg action dom tok key_auth w
  = (Raise (ValueError (No_dns_script (env_api_script E))), w).
Proof.
  intros H. unfold _execute_dns_api, bind, ask. rewrite H. reflexivity.
Qed.

Lemma execute_dns_api_run action d tok key_auth w :
  env_script_ok E (trace w) = true ->
  let env := [("ACME_CHALLENGE_TYPE", challenge_type cfg);
              ("ACME_DOMAIN", d);
              ("ACME_TOKEN", tok);
              ("ACME_KEY_AUTH", or_empty key_auth);
              ("DNS_PROVIDER", or_empty (env_getenv E "DNS_PROVIDER"))] in
  let cmd := ["/bin/sh"; env_api_script E; action; d; tok; or_empty key_auth] in
  let r := env_popen E (trace w) cmd env None in
  _execute_dns_api E cfg action (JStr d) tok key_auth w
  = (if negb (fst (fst r) =? 0)%Z then Raise (IOError_dns (snd r)) else Ok (snd (fst r)),
     snd (call E (Popen cmd env None (fst (fst r)) (snd (fst r)) (snd r)) 0 w)).
Proof.
  intros H env cmd r. unfold _execute_dns_api.
  unfold bind at 1, ask at 1. rewrite H. cbn [negb].
  unfold bind. rewrite popen_run. cbv zeta. fold env cmd r.
  destruct r as [[rc out] err]. cbn [fst snd].
  destruct (negb (rc =? 0)%Z); reflexivity.
Qed.

End PrepareFails.

(** X9. With the dns-01 challenge, when the DNS API script is not there or
    cannot be executed, the body of the loop raises the ValueError "DNS API
    script not found or not executable: ..." right after the authorization
    was fetched: no command is run and the CA is not told anything. *)
Theorem X9_dns_script_missing :
  forall L E cfg fuel s thumbprint auth_url w a c h w1 p,
    _send_signed_request L E cfg fuel s auth_url None "Error getting challenges" w
      = (Ok (a, c, h), w1) ->
    plan_of (challenge_type cfg) thumbprint a = Ok (Some p) ->
    is_http01 cfg = false ->
    is_dns01 cfg = true ->
    env_script_ok E (trace w1) = false ->
    process_authorization L E cfg fuel s thumbprint auth_url w
    = (Raise (ValueError (No_dns_script (env_api_script E))), w1).
Proof.
  intros L E cfg fuel s thumbprint auth_url w a c h w1 p Hfetch Hplan Hhttp Hdns Hscript.
  apply (@process_prepare_raises L E cfg fuel s thumbprint auth_url w a c h w1 p _ w1
           Hfetch Hplan).
  unfold prepare. rewrite Hhttp, Hdns. unfold bind at 1.
  rewrite (@execute_dns_api_no_script E cfg "add" (domain p) (token p)
             (Some (keyauthorization p)) w1 Hscript).
  reflexivity.
Qed.

Lemma X9_dns_script_missing_witness :
  let E := {| env_urlopen := env_urlopen (Scenario.env Scenario.happy);
              env_popen := env_popen (Scenario.env Scenario.happy);
              env_write := fun _ _ _ => None;
              env_remove := fun _ _ => None;
              env_api_script := "/opt/dnsapi/dns_api.sh";
              env_script_ok := fun _ => false;
              env_getenv := fun _ => None;
              env_lag := fun _ => 5%N |} in
  let run := process_authorization Scenario.lib E Scenario.cfg_dns 200
               Scenario.registered Scenario.thumbprint Scenario.authz_url Scenario.start in
  fst run = Raise (ValueError (No_dns_script "/opt/dnsapi/dns_api.sh"))
  /\ Scenario.post_count (trace (snd run)) = 1%nat
  /\ List.length (trace (snd run)) = 3%nat.
Proof.
  intros E run.
  destruct (_send_signed_request Scenario.lib E Scenario.cfg_dns 200
              Scenario.registered Scenario.authz_url None "Error getting challenges"
              Scenario.start) as [[[[a c] h] | e |] w1] eqn:Hfetch;
    [| vm_compute in Hfetch; discriminate Hfetch
     | vm_compute in Hfetch; discriminate Hfetch].
  assert (Ha : a = Scenario.authorization_doc "pending").
  { vm_compute in Hfetch. inversion Hfetch. reflexivity. }
  destruct (plan_of (challenge_type Scenario.cfg_dns) Scenario.thumbprint a)
    as [[p |] | e |] eqn:Hplan;
    [| rewrite Ha in Hplan; vm_compute in Hplan; discriminate Hplan
     | rewrite Ha in Hplan; vm_compute in Hplan; discriminate Hplan
     | rewrite Ha in Hplan; vm_compute in Hplan; discriminate Hplan].
  assert (Hrun : run = (Raise (ValueError (No_dns_script (env_api_script E))), w1)).
  { subst run.
    apply (@X9_dns_script_missing Scenario.lib E Scenario.cfg_dns 200
             Scenario.registered Scenario.thumbprint Scenario.authz_url Scenario.start
             a c h w1 p Hfetch Hplan); reflexivity. }
  rewrite Hrun. cbn [fst snd].
  split; [reflexivity |].
  vm_compute in Hfetch. inversion Hfetch. split; reflexivity.
Defined.

(** X10. With the dns-01 challenge, when the script has added the record
    and the text of DNS_PROPAGATION_WAIT (or "30" without it) is not an
    integer or is a negative one, the body of the loop raises the
    ValueError of [int] or of [time.sleep] right after the command "add":
    the CA is not told anything, and the command "rm" is not run. *)
Theorem X10_dns_wait_malformed :
  forall L E cfg fuel s thumbprint auth_url w a c h w1 p d out err,
    _send_signed_request L E cfg fuel s auth_url None "Error getting challenges" w
      = (Ok (a, c, h), w1) ->
    plan_of (challenge_type cfg) thumbprint a = Ok (Some p) ->
    is_http01 cfg = false ->
    is_dns01 cfg = true ->
    env_script_ok E (trace w1) = true ->
    domain p = JStr d ->
    let env := [("ACME_CHALLENGE_TYPE", challenge_type cfg);
                ("ACME_DOMAIN", d);
                ("ACME_TOKEN", token p);
                ("ACME_KEY_AUTH", keyauthorization p);
                ("DNS_PROVIDER", or_empty (env_getenv E "DNS_PROVIDER"))] in
    let cmd := ["/bin/sh"; env_api_script E; "add"; d; token p; keyauthorization p] in
    env_popen E (trace w1) cmd env None = (0%Z, out, err) ->
    let wait := py_int L (match env_getenv E "DNS_PROPAGATION_WAIT" with
                          | Some v => v
                          | None => "30"
                          end) in
    match wait with
    | Some n => (n < 0)%Z
    | None => True
    end ->
    let run := process_authorization L E cfg fuel s thumbprint auth_url w in
    fst run = Raise (match wait with
                     | Some _ => Lib sleep_error
                     | None => value_error "invalid literal for int()"
                     end)
    /\ trace (snd run) = Popen cmd env None 0 out err :: trace w1.
Proof.
  intros L E cfg fuel s thumbprint auth_url w a c h w1 p d out err
         Hfetch Hplan Hhttp Hdns Hscript Hd env cmd Hpopen wait Hwait run.
  assert (Hprep :
    prepare L E cfg p w1
    = (Raise (match wait with
              | Some _ => Lib sleep_error
              | None => value_error "invalid literal for int()"
              end),
       snd (call E (Popen cmd env None 0 out err) 0 w1))).
  { unfold prepare. rewrite Hhttp, Hdns, Hd. unfold bind at 1.
    rewrite (@execute_dns_api_run E cfg "add" d (token p) (Some (keyauthorization p))
               w1 Hscript).
    cbv zeta. cbn [or_empty]. fold env cmd. rewrite Hpopen. cbn [fst snd].
    change (negb (0 =? 0)%Z) with false. cbv iota.
    fold wait. destruct wait as [n |].
    - unfold bind, time_sleep. apply Z.ltb_lt in Hwait. rewrite Hwait. reflexivity.
    - reflexivity. }
  subst run.
  rewrite (@process_prepare_raises L E cfg fuel s thumbprint auth_url w a c h w1 p _ _
             Hfetch Hplan Hprep).
  split; reflexivity.
Qed.

Lemma X10_dns_wait_malformed_witness :
  let E := {| env_urlopen := env_urlopen (Scenario.env Scenario.happy);
              env_popen := env_popen (Scenario.env Scenario.happy);
              env_write := fun _ _ _ => None;
              env_remove := fun _ _ => None;
              env_api_script := "/opt/dnsapi/dns_api.sh";
              env_script_ok := fun _ => true;
              env_getenv := fun name =>
                if String.eqb name "DNS_PROPAGATION_WAIT" then Some "soon" else None;
              env_lag := fun _ => 5%N |} in
  let run := process_authorization Scenario.lib E Scenario.cfg_dns 200
               Scenario.registered Scenario.thumbprint Scenario.authz_url Scenario.start in
  fst run = Raise (value_error "invalid literal for int()")
  /\ Scenario.post_count (trace (snd run)) = 1%nat
  /\ List.length (trace (snd run)) = 4%nat.
Proof.
  intros E run.
  destruct (_send_signed_request Scenario.lib E Scenario.cfg_dns 200
              Scenario.registered Scenario.authz_url None "Error getting challenges"
              Scenario.start) as [[[[a c] h] | e |] w1] eqn:Hfetch;
    [| vm_compute in Hfetch; discriminate Hfetch
     | vm_compute in Hfetch; discriminate Hfetch].
  assert (Ha : a = Scenario.authorization_doc "pending").
  { vm_compute in Hfetch. inversion Hfetch. reflexivity. }
  destruct (plan_of (challenge_type Scenario.cfg_dns) Scenario.thumbprint a)
    as [[p |] | e |] eqn:Hplan;
    [| rewrite Ha in Hplan; vm_compute in Hplan; discriminate Hplan
     | rewrite Ha in Hplan; vm_compute in Hplan; discriminate Hplan
     | rewrite Ha in Hplan; vm_compute in Hplan; discriminate Hplan].
  assert (Hp : domain p = JStr "example.com").
  { rewrite Ha in Hplan. vm_compute in Hplan. inversion Hplan. reflexivity. }
  destruct (@X10_dns_wait_malformed Scenario.lib E Scenario.cfg_dns 200
              Scenario.registered Scenario.thumbprint Scenario.authz_url Scenario.start
              a c h w1 p "example.com" "signature" EmptyString
              Hfetch Hplan eq_refl eq_refl eq_refl Hp eq_refl I)
    as [Hres Htrace].
  fold run in Hres, Htrace.
  split; [exact Hres |].
  rewrite Htrace. vm_compute in Hfetch. inversion Hfetch. split; reflexivity.
Defined.

(** X14. With the http-01 challenge and the check disabled, putting the
    response in place is writing the file and nothing else: the well-known
    URL is not requested. *)
Theorem X14_disabled_check_requests_nothing :
  forall L E cfg p dir w,
    is_http01 cfg = true ->
    acme_dir cfg = Some dir ->
    disable_check cfg = true ->
    let path := os_path_join dir (token p) in
    env_write E (trace w) path (keyauthorization p) = None ->
    fst (prepare L E cfg p w) = Ok (Some path)
    /\ trace (snd (prepare L E cfg p w))
       = FileWrite path (keyauthorization p) None :: trace w.
Proof.
  intros L E cfg p dir w Hhttp Hdir Hoff path Hwrite.
  assert (Hrun : prepare L E cfg p w
                 = (Ok (Some path),
                    snd (call E (FileWrite path (keyauthorization p) None) 0 w))).
  { unfold prepare. rewrite Hhttp, Hdir. fold path.
    unfold bind at 1. rewrite write_file_run. cbv zeta. rewrite Hwrite.
    unfold self_check. rewrite Hoff. reflexivity. }
  rewrite Hrun. split; reflexivity.
Qed.

Lemma X14_disabled_check_requests_nothing_witness :
  let cfg := {| account_key := "account.key"; csr := "domain.csr";
                acme_dir := Some "/var/www/challenges"; disable_check := true;
                directory_url := "https://ca.test/dir"; contact := None;
                check_port := None; challenge_type := "http-01"; timeout := 30 |} in
  let p := {| domain := JStr "example.com"; challenge := JObj [];
              token := "tok_en"; keyauthorization := Scenario.key_auth |} in
  fst (prepare Scenario.lib (Scenario.env Scenario.wrong_file) cfg p Scenario.start)
  = Ok (Some "/var/www/challenges/tok_en"%string)
  /\ List.length
       (trace (snd (prepare Scenario.lib (Scenario.env Scenario.wrong_file) cfg p
                      Scenario.start))) = 1%nat.
Proof.
  intros cfg p.
  destruct (@X14_disabled_check_requests_nothing Scenario.lib
              (Scenario.env Scenario.wrong_file) cfg p "/var/www/challenges"
              Scenario.start eq_refl eq_refl eq_refl eq_refl) as [Hres Htrace].
  split; [exact Hres |]. rewrite Htrace. reflexivity.
Defined.

(* ================================================================= *)
(** ** What a run that ends well has seen *)

Lemma plan_of_none_inv ct thumbprint a :
  plan_of ct thumbprint a = Ok None ->
  exists st, getitem a "status" = Ok st /\ Json.eq_str st "valid" = true.
Proof.
  unfold plan_of. intros H.
  apply rbind_inv_ok in H. destruct H as (idf & _ & H).
  apply rbind_inv_ok in H. destruct H as (d & _ & H).
  apply rbind_inv_ok in H. destruct H as (st & Hst & H).
  exists st. split; [exact Hst |].
  destruct (Json.eq_str st "valid"); [reflexivity |]. exfalso.
  apply rbind_inv_ok in H. destruct H as (chs & _ & H).
  apply rbind_inv_ok in H. destruct H as (items & _ & H).
  apply rbind_inv_ok in H. destruct H as (found & _ & H).
  destruct found as [c |]; [| discriminate H].
  apply rbind_inv_ok in H. destruct H as (tok & _ & H).
  destruct tok; discriminate H.
Qed.

(** X11. The body of the loop ends without an error only for an
    authorization that is valid: either the one that was fetched has the
    status "valid" and nothing else was done, or the one that the polling
    returned has the status "valid", and the cleanup has been done. *)
Theorem X11_authorization_passed_is_valid :
  forall L E cfg fuel s thumbprint auth_url w w',
    process_authorization L E cfg fuel s thumbprint auth_url w = (Ok tt, w') ->
    exists a c h w1,
      _send_signed_request L E cfg fuel s auth_url None "Error getting challenges" w
        = (Ok (a, c, h), w1)
      /\ ((exists st, getitem a "status" = Ok st /\ Json.eq_str st "valid" = true
                      /\ w' = w1)
          \/ (exists p wp polled w2 st,
                 plan_of (challenge_type cfg) thumbprint a = Ok (Some p)
                 /\ attempt L E cfg fuel s thumbprint auth_url w
                    = (Ok (Some (p, wp, polled)), w2)
                 /\ cleanup E cfg p wp w2 = (Ok tt, w')
                 /\ getitem polled "status" = Ok st
                 /\ Json.eq_str st "valid" = true)).
Proof.
  intros L E cfg fuel s thumbprint auth_url w w' H.
  unfold process_authorization in H.
  apply bind_inv_ok in H. destruct H as (r & w2 & Hattempt & H).
  pose proof Hattempt as Hatt. unfold attempt in Hatt.
  apply bind_inv_ok in Hatt. destruct Hatt as ([[a c] h] & w1 & Hfetch & Hatt).
  apply bind_inv_ok in Hatt. destruct Hatt as (todo & w1' & Hplan & Hatt).
  apply lift_inv_ok in Hplan. destruct Hplan as [Hplan ->]. cbn [fst] in Hplan.
  exists a, c, h, w1. split; [exact Hfetch |].
  destruct todo as [p |].
  - right.
    apply bind_inv_ok in Hatt. destruct Hatt as (wp & w3 & _ & Hatt).
    apply bind_inv_ok in Hatt. destruct Hatt as (polled & w4 & _ & Hatt).
    unfold ret in Hatt. inversion Hatt; subst r w4. clear Hatt.
    apply bind_inv_ok in H. destruct H as ([] & w5 & Hclean & H).
    unfold verdict in H.
    apply bind_inv_ok in H. destruct H as (st & w6 & Hst & H).
    apply lift_inv_ok in Hst. destruct Hst as [Hst ->].
    destruct (Json.eq_str st "valid") eqn:Hvalid; [| discriminate H].
    unfold ret in H. inversion H; subst w5.
    exists p, wp, polled, w2, st. repeat split; assumption.
  - left. unfold ret in Hatt. inversion Hatt; subst r w2.
    unfold ret in H. inversion H; subst w'.
    destruct (plan_of_none_inv _ _ _ Hplan) as (st & Hst & Hvalid).
    exists st. repeat split; assumption.
Qed.

Lemma X11_authorization_passed_is_valid_witness :
  exists a c h w1 w',
    process_authorization Scenario.lib (Scenario.env Scenario.already_valid) Scenario.cfg
      200 Scenario.registered Scenario.thumbprint Scenario.authz_url Scenario.start
    = (Ok tt, w')
    /\ _send_signed_request Scenario.lib (Scenario.env Scenario.already_valid) Scenario.cfg
         200 Scenario.registered Scenario.authz_url None "Error getting challenges"
         Scenario.start = (Ok (a, c, h), w1)
    /\ getitem a "status" = Ok (JStr "valid").
Proof.
  destruct (process_authorization Scenario.lib (Scenario.env Scenario.already_valid)
              Scenario.cfg 200 Scenario.registered Scenario.thumbprint Scenario.authz_url
              Scenario.start) as [[[] | e |] w'] eqn:Hrun;
    [| vm_compute in Hrun; discriminate Hrun | vm_compute in Hrun; discriminate Hrun].
  destruct (@X11_authorization_passed_is_valid _ _ _ _ _ _ _ _ _ Hrun)
    as (a & c & h & w1 & Hfetch & _).
  exists a, c, h, w1, w'. split; [reflexivity |]. split; [exact Hfetch |].
  vm_compute in Hfetch. inversion Hfetch. reflexivity.
Defined.

(** X12. When [get_crt] returns, what it returns is the body of the
    response to the last signed request, the one for the [certificate] URL
    of the order that the polling returned, and this order has the status
    "valid"; the requests were signed with RS256 under the JWK computed
    from the account key: from the modulus and the exponent found in the
    output of the first call, [openssl rsa -in <account key> -noout -text],
    which exited with 0. *)
Theorem X12_certificate_of_a_valid_order :
  forall L E cfg fuel w pem w',
    get_crt L E cfg fuel w = (Ok pem, w') ->
    let cmd := ["openssl"; "rsa"; "-in"; account_key cfg; "-noout"; "-text"] in
    let shown := env_popen E (trace w) cmd [] None in
    exists s location order st cert_url c h w1 w2 key,
      fst (fst shown) = 0%Z
      /\ search_pubkey L (snd (fst shown)) = Some key
      /\ compute_jwk (fst key) (snd key) = Ok (jwk s)
      /\ alg s = "RS256"%string
      /\ _poll_until_complete L E cfg fuel s location ["pending"; "processing"]
           "Error checking order status" w1 = (Ok order, w2)
      /\ getitem order "status" = Ok st
      /\ Json.eq_str st "valid" = true
      /\ getitem order "certificate" = Ok cert_url
      /\ _send_signed_request L E cfg fuel s cert_url None "Certificate download failed" w2
         = (Ok (pem, c, h), w').
Proof.
  intros L E cfg fuel w pem w' H cmd shown. unfold get_crt in H.
  apply bind_inv_ok in H. destruct H as (out1 & wa & Hkey & H).
  rewrite run_external_cmd_run in Hkey. cbv zeta in Hkey. fold cmd shown in Hkey.
  destruct (negb (fst (fst shown) =? 0)%Z) eqn:Hrc; [discriminate Hkey |].
  apply negb_false_iff, Z.eqb_eq in Hrc.
  assert (Hout : out1 = snd (fst shown)) by congruence. subst out1. clear Hkey.
  apply bind_inv_ok in H. destruct H as (key & wb & Hfound & H).
  assert (Hsearch : search_pubkey L (snd (fst shown)) = Some key).
  { destruct (search_pubkey L (snd (fst shown))) as [k |];
      [unfold ret in Hfound; inversion Hfound; reflexivity | discriminate Hfound]. }
  apply bind_inv_ok in H. destruct H as (jwk0 & wc & Hjwk & H).
  apply lift_inv_ok in Hjwk. destruct Hjwk as [Hjwk _].
  cbv zeta in H.
  apply bind_inv_ok in H. destruct H as (out2 & wd & _ & H).
  apply bind_inv_ok in H. destruct H as (d & we & _ & H).
  apply bind_inv_ok in H. destruct H as (new_account & wf & _ & H).
  apply bind_inv_ok in H. destruct H as (r & wg & _ & H).
  apply bind_inv_ok in H. destruct H as (location & wh & _ & H).
  apply bind_inv_ok in H. destruct H as (u & wi & _ & H).
  apply bind_inv_ok in H. destruct H as (new_order & wj & _ & H).
  apply bind_inv_ok in H. destruct H as (o & wk & _ & H).
  apply bind_inv_ok in H. destruct H as (authorizations & wl & _ & H).
  apply bind_inv_ok in H. destruct H as (auth_urls & wm & _ & H).
  apply bind_inv_ok in H. destruct H as (u2 & wn & _ & H).
  apply bind_inv_ok in H. destruct H as (csr_der & wo & _ & H).
  apply bind_inv_ok in H. destruct H as (finalize & wp & _ & H).
  apply bind_inv_ok in H. destruct H as (fin & wq & _ & H).
  apply bind_inv_ok in H. destruct H as (order_location & wr & _ & H).
  apply bind_inv_ok in H. destruct H as (order & ws & Hpoll & H).
  apply bind_inv_ok in H. destruct H as (st & wt & Hst & H).
  apply lift_inv_ok in Hst. destruct Hst as [Hst ->].
  destruct (Json.eq_str st "valid") eqn:Hvalid; cbn [negb] in H; [| discriminate H].
  apply bind_inv_ok in H. destruct H as (cert_url & wu & Hcert & H).
  apply lift_inv_ok in Hcert. destruct Hcert as [Hcert ->].
  apply bind_inv_ok in H. destruct H as ([[body c] h] & wv & Hsend & H).
  unfold ret in H. cbn [fst] in H. inversion H; subst body wv.
  exists {| directory := fst (fst d); acct_headers := Some (snd r);
            alg := "RS256"; jwk := jwk0 |}.
  exists (Json.of_option order_location), order, st, cert_url, c, h, wr, ws, key.
  split; [exact Hrc |]. split; [exact Hsearch |].
  split; [exact Hjwk |]. split; [reflexivity |].
  split; [exact Hpoll |]. split; [exact Hst |]. split; [exact Hvalid |].
  split; [exact Hcert | exact Hsend].
Qed.

Lemma X12_certificate_of_a_valid_order_witness :
  exists w',
    get_crt Scenario.lib (Scenario.env Scenario.happy) Scenario.cfg 200 Scenario.start
    = (Ok (JStr "-----BEGIN CERTIFICATE-----"), w').
Proof.
  destruct (get_crt Scenario.lib (Scenario.env Scenario.happy) Scenario.cfg 200
              Scenario.start) as [[pem | e |] w'] eqn:Hrun;
    [| vm_compute in Hrun; discriminate Hrun | vm_compute in Hrun; discriminate Hrun].
  destruct (@X12_certificate_of_a_valid_order _ _ _ _ _ _ _ Hrun)
    as (s & location & order & st & cert_url & c & h & w1 & w2 & key & _).
  exists w'. vm_compute in Hrun. inversion Hrun. reflexivity.
Defined.

(** X13. Nothing is requested before the account key has been read: when
    the command [openssl rsa -in <account key> -noout -text] exits with
    another code than 0, [get_crt] raises the IOError of "OpenSSL Error" and
    what the command wrote on its error output, and when its output has no
    public key in it, the AttributeError of the missing match; the command
    is the only call that was made. *)
Theorem X13_no_request_without_the_key :
  forall L E cfg fuel w,
    let cmd := ["openssl"; "rsa"; "-in"; account_key cfg; "-noout"; "-text"] in
    let r := env_popen E (trace w) cmd [] None in
    (fst (fst r) <> 0%Z \/ search_pubkey L (snd (fst r)) = None) ->
    let run := get_crt L E cfg fuel w in
    fst run = Raise (if negb (fst (fst r) =? 0)%Z
                     then IOError_command "OpenSSL Error" (snd r)
                     else AttributeError)
    /\ trace (snd run) = Popen cmd [] None (fst (fst r)) (snd (fst r)) (snd r) :: trace w.
Proof.
  intros L E cfg fuel w cmd r Hfail run.
  assert (Hrun : run = (Raise (if negb (fst (fst r) =? 0)%Z
                               then IOError_command "OpenSSL Error" (snd r)
                               else AttributeError),
                        snd (call E (Popen cmd [] None (fst (fst r)) (snd (fst r)) (snd r))
                               0 w))).
  { subst run. unfold get_crt. unfold bind at 1.
    rewrite run_external_cmd_run. cbv zeta. fold cmd r.
    destruct (negb (fst (fst r) =? 0)%Z) eqn:Hrc; [reflexivity |].
    destruct Hfail as [Hne | Hnone].
    - exfalso. apply negb_false_iff, Z.eqb_eq in Hrc. exact (Hne Hrc).
    - unfold bind at 1. rewrite Hnone. reflexivity. }
  rewrite Hrun. split; reflexivity.
Qed.

Lemma X13_no_request_without_the_key_witness :
  let E := {| env_urlopen := env_urlopen (Scenario.env Scenario.happy);
              env_popen := fun _ _ _ _ => (1%Z, EmptyString, "unable to load key"%string);
              env_write := fun _ _ _ => None;
              env_remove := fun _ _ => None;
              env_api_script := "/opt/dnsapi/dns_api.sh";
              env_script_ok := fun _ => true;
              env_getenv := fun _ => None;
              env_lag := fun _ => 5%N |} in
  let run := get_crt Scenario.lib E Scenario.cfg 200 Scenario.start in
  fst run = Raise (IOError_command "OpenSSL Error" "unable to load key")
  /\ List.length (trace (snd run)) = 1%nat.
Proof.
  intros E run.
  destruct (@X13_no_request_without_the_key Scenario.lib E Scenario.cfg 200 Scenario.start)
    as [Hres Htrace].
  - left. cbn. discriminate.
  - fold run in Hres, Htrace. split; [exact Hres |]. rewrite Htrace. reflexivity.
Defined.

(* ================================================================= *)
(** ** Every call of a whole run *)

Lemma emits_bind_with {A B} (P : list event -> Prop) (R : A -> Prop)
  (c : M A) (k : A -> M B) :
  composes P ->
  emits P c ->
  (forall w a w1, c w = (Ok a, w1) -> R a) ->
  (forall a, R a -> emits P (k a)) ->
  emits P (bind c k).
Proof.
  intros HP Hc HR Hk w. unfold bind.
  destruct (Hc w) as [Hclk [new [Htr Hnew]]].
  destruct (c w) as [[a | e |] w1] eqn:Hcw; simpl in *.
  - destruct (Hk a (HR _ _ _ Hcw) w1) as [Hclk' [new' [Htr' Hnew']]].
    split; [lia |]. exists (new' ++ new). split.
    + rewrite Htr', Htr. apply app_assoc.
    + apply (composes_app HP); assumption.
  - split; [lia |]. exists new. split; assumption.
  - split; [lia |]. exists new. split; assumption.
Qed.

Lemma each_composes (Q : event -> Prop) : composes (Forall Q).
Proof.
  split; [constructor |]. intros older newer Ho Hn. apply Forall_app. split; assumption.
Qed.

Section Conduct.

Variable L : pylib.
Variable E : environment.
Variable cfg : config.
Variable fuel : nat.

(** A property of single calls that every kind of call of the program has. *)
Variable Q : event -> Prop.

(** The algorithms of the sessions that are looked at. *)
Variable algs : string -> Prop.
Hypothesis algs_RS256 : algs "RS256".

Hypothesis Q_get : forall url out, Q (Urlopen url None out).
Hypothesis Q_post :
  forall url data out a nonce key,
    sb_protected data
    = JObj [("url", url); ("alg", JStr a); ("nonce", nonce); key] ->
    algs a ->
    Q (Urlopen url (Some data) out).
Hypothesis Q_openssl :
  forall args input rc o e, Q (Popen ("openssl" :: args) [] input rc o e).
Hypothesis Q_poll_sleep : Q (Sleep 0) /\ Q (Sleep 2).
Hypothesis Q_wait :
  is_http01 cfg = false -> is_dns01 cfg = true -> forall seconds, Q (Sleep seconds).
Hypothesis Q_dns :
  is_http01 cfg = false -> is_dns01 cfg = true ->
  forall action d tok ka env rc o e,
    action = "add" \/ action = "rm" ->
    Q (Popen ["/bin/sh"; env_api_script E; action; d; tok; ka] env None rc o e).
Hypothesis Q_write :
  forall dir raw content err,
    is_http01 cfg = true -> acme_dir cfg = Some dir ->
    Q (FileWrite (os_path_join dir (re_sub_token raw)) content err).
Hypothesis Q_remove :
  forall dir raw err,
    is_http01 cfg = true -> acme_dir cfg = Some dir ->
    Q (FileRemove (os_path_join dir (re_sub_token raw)) err).

Let P := Forall Q.
Let HP : composes P := each_composes Q.

Lemma conduct_event ev : Q ev -> P [ev].
Proof. intros H. constructor; [exact H | constructor]. Qed.

Lemma conduct_get url err_msg depth :
  emits P (_do_request L E cfg url None err_msg depth).
Proof.
  apply emits_do_request; [exact HP |]. intros out. apply conduct_event, Q_get.
Qed.

Lemma conduct_command args input err_msg :
  emits P (_run_external_cmd E ("openssl" :: args) input err_msg).
Proof.
  apply emits_run_external_cmd; [exact HP |]. intros. apply conduct_event, Q_openssl.
Qed.

Lemma conduct_sign s url payload : emits P (sign L E cfg s url payload).
Proof.
  unfold sign. cbv zeta.
  emits_step HP; [emits_step HP |].
  emits_step HP; [apply conduct_get |].
  emits_step HP; [emits_step HP |].
  emits_step HP.
  - destruct (acct_headers s) as [h |]; [| emits_step HP].
    emits_step HP; [emits_step HP | emits_step HP].
  - emits_step HP; [apply conduct_command | emits_step HP].
Qed.

Lemma conduct_send_signed s url payload err_msg :
  algs (alg s) ->
  forall n depth, emits P (send_signed L E cfg n s url payload err_msg depth).
Proof.
  intros Halg. induction n as [| n IH]; intros depth; cbn [send_signed].
  - apply (emits_diverge HP).
  - apply (@emits_bind_with _ _ P
             (fun data => exists nonce key,
                  sb_protected data
                  = JObj [("url", url); ("alg", JStr (alg s)); ("nonce", nonce); key])).
    + exact HP.
    + apply conduct_sign.
    + intros w data w1 H.
      apply sign_body in H.
      destruct H as (get & out & err & nu & text & code & key & _ & _ & Hp & _).
      exists (Json.of_option (get "Replay-Nonce")), key. exact Hp.
    + intros data (nonce & key & Hp). emits_step HP; [| apply IH].
      apply emits_do_request; [exact HP |]. intros out.
      apply conduct_event. exact (Q_post _ out Hp Halg).
Qed.

Lemma conduct_request s url payload err_msg :
  algs (alg s) ->
  emits P (_send_signed_request L E cfg fuel s url payload err_msg).
Proof. intros Halg. unfold _send_signed_request. apply conduct_send_signed, Halg. Qed.

Lemma conduct_poll s url pending err_msg t0 :
  algs (alg s) ->
  forall n result, emits P (poll L E cfg fuel n s url pending err_msg t0 result).
Proof.
  intros Halg. apply emits_poll; [exact HP | | |].
  - apply conduct_event, Q_poll_sleep.
  - apply conduct_event, Q_poll_sleep.
  - apply conduct_request, Halg.
Qed.

Lemma conduct_poll_until_complete s url pending err_msg :
  algs (alg s) ->
  emits P (_poll_until_complete L E cfg fuel s url pending err_msg).
Proof.
  intros Halg. unfold _poll_until_complete.
  emits_step HP; [apply emits_time_time; exact HP | apply conduct_poll, Halg].
Qed.

Lemma conduct_dns action dom tok key_auth :
  is_http01 cfg = false -> is_dns01 cfg = true ->
  action = "add" \/ action = "rm" ->
  emits P (_execute_dns_api E cfg action dom tok key_auth).
Proof.
  intros Hh Hd Ha. unfold _execute_dns_api. emits_step HP.
  - apply emits_ask. exact HP.
  - destruct (negb a); [emits_step HP |].
    destruct dom; try emits_step HP.
    + apply emits_popen; [exact HP |]. intros. apply conduct_event.
      apply (Q_dns Hh Hd). exact Ha.
    + destruct a0 as [[rc out] err].
      destruct (negb (rc =? 0)%Z); emits_step HP.
Qed.

Lemma conduct_prepare p :
  (exists raw, token p = re_sub_token raw) ->
  emits P (prepare L E cfg p).
Proof.
  intros [raw Htok]. unfold prepare. case_eq (is_http01 cfg); intros Hh.
  - case_eq (acme_dir cfg); [intros d Hd | intros Hd; emits_step HP].
    emits_step HP.
    + apply emits_write_file; [exact HP |]. intros err. apply conduct_event.
      rewrite Htok. apply Q_write; [exact Hh | exact Hd].
    + emits_step HP; [| emits_step HP].
      unfold self_check. emits_step HP; [| emits_step HP].
      destruct (disable_check cfg); [emits_step HP |].
      emits_step HP; [apply conduct_get |].
      destruct (Json.eq_str (fst (fst a0)) (keyauthorization p)); emits_step HP.
  - case_eq (is_dns01 cfg); intros Hdns; [| emits_step HP].
    emits_step HP; [apply conduct_dns; [exact Hh | exact Hdns | left; reflexivity] |].
    destruct (py_int L _); [| emits_step HP].
    emits_step HP; [| emits_step HP].
    apply emits_time_sleep; [exact HP |]. apply conduct_event.
    apply Q_wait; [exact Hh | exact Hdns].
Qed.

Lemma conduct_cleanup p wp :
  (is_http01 cfg = true ->
   exists dir raw, acme_dir cfg = Some dir /\ wp = Some (os_path_join dir (re_sub_token raw))) ->
  emits P (cleanup E cfg p wp).
Proof.
  intros Hwp. unfold cleanup. case_eq (is_http01 cfg); intros Hh.
  - destruct (Hwp Hh) as (dir & raw & Hd & ->).
    apply emits_os_remove; [exact HP |]. intros err. apply conduct_event.
    apply Q_remove; [exact Hh | exact Hd].
  - case_eq (is_dns01 cfg); intros Hdns; [| emits_step HP].
    emits_step HP; [| emits_step HP].
    apply conduct_dns; [exact Hh | exact Hdns | right; reflexivity].
Qed.

Lemma conduct_verdict p a : emits P (verdict p a).
Proof.
  unfold verdict. emits_step HP; [emits_step HP |].
  destruct (Json.eq_str a0 "valid"); emits_step HP.
Qed.

Lemma conduct_complete s auth_url p :
  algs (alg s) ->
  emits P (complete L E cfg fuel s auth_url p).
Proof.
  intros Halg. unfold complete. emits_step HP; [emits_step HP |].
  emits_step HP; [apply conduct_request, Halg |].
  apply conduct_poll_until_complete, Halg.
Qed.

Lemma conduct_attempt s thumbprint auth_url :
  algs (alg s) ->
  emits P (attempt L E cfg fuel s thumbprint auth_url).
Proof.
  intros Halg. unfold attempt.
  emits_step HP; [apply conduct_request, Halg |].
  apply (@emits_bind_with _ _ P
           (fun todo => match todo with
                        | Some p => exists raw, token p = re_sub_token raw
                        | None => True
                        end)).
  - exact HP.
  - emits_step HP.
  - intros w todo w1 H. apply lift_inv_ok in H. destruct H as [H _].
    destruct todo as [p |]; [| exact I].
    apply plan_of_inv in H. destruct H as (raw & _ & Htok & _). exists raw. exact Htok.
  - intros [p |] Hp; [| emits_step HP].
    emits_step HP; [apply conduct_prepare, Hp |].
    emits_step HP; [apply conduct_complete, Halg | emits_step HP].
Qed.

Lemma conduct_process s thumbprint auth_url :
  algs (alg s) ->
  emits P (process_authorization L E cfg fuel s thumbprint auth_url).
Proof.
  intros Halg. unfold process_authorization.
  apply (@emits_bind_with _ _ P
           (fun r => match r with
                     | Some (p, wp, a) =>
                         is_http01 cfg = true ->
                         exists dir raw,
                           acme_dir cfg = Some dir /\
                           wp = Some (os_path_join dir (re_sub_token raw))
                     | None => True
                     end)).
  - exact HP.
  - apply conduct_attempt, Halg.
  - intros w r w2 H. destruct r as [[[p wp] a] |]; [| exact I].
    intros Hh.
    apply attempt_inv in H. destruct H as (r0 & w0 & w1 & _ & Hplan & Hprep & _).
    apply plan_of_inv in Hplan. destruct Hplan as (raw & _ & Htok & _).
    apply prepare_ok_inv in Hprep. destruct Hprep as [Hpath _].
    destruct (Hpath Hh) as (dir & Hd & Hwp).
    exists dir, raw. rewrite <- Htok. split; assumption.
  - intros [[[p wp] a] |] Hr; [| emits_step HP].
    emits_step HP; [apply conduct_cleanup, Hr | apply conduct_verdict].
Qed.

Lemma conduct_authorize_all s thumbprint auth_urls :
  algs (alg s) ->
  emits P (authorize_all L E cfg fuel s thumbprint auth_urls).
Proof.
  intros Halg. induction auth_urls as [| u rest IH]; cbn [authorize_all].
  - emits_step HP.
  - emits_step HP; [apply conduct_process, Halg | exact IH].
Qed.

Lemma conduct_get_crt : emits P (get_crt L E cfg fuel).
Proof.
  unfold get_crt.
  emits_step HP; [apply conduct_command |].
  emits_step HP; [destruct (search_pubkey L a); emits_step HP |].
  emits_step HP; [emits_step HP |].
  cbv zeta.
  emits_step HP; [apply conduct_command |].
  emits_step HP; [apply conduct_get |].
  emits_step HP; [emits_step HP |].
  emits_step HP; [apply conduct_request; exact algs_RS256 |].
  emits_step HP; [emits_step HP |].
  emits_step HP.
  { destruct (contact cfg) as [c |]; [| emits_step HP].
    emits_step HP; [apply conduct_request; exact algs_RS256 |].
    emits_step HP. }
  emits_step HP; [emits_step HP |].
  emits_step HP; [apply conduct_request; exact algs_RS256 |].
  emits_step HP; [emits_step HP |].
  emits_step HP; [emits_step HP |].
  emits_step HP; [apply conduct_authorize_all; exact algs_RS256 |].
  emits_step HP; [apply conduct_command |].
  emits_step HP; [emits_step HP |].
  emits_step HP; [apply conduct_request; exact algs_RS256 |].
  emits_step HP; [emits_step HP |].
  emits_step HP; [apply conduct_poll_until_complete; exact algs_RS256 |].
  emits_step HP; [emits_step HP |].
  destruct (negb (Json.eq_str _ "valid")); [emits_step HP |].
  emits_step HP; [emits_step HP |].
  emits_step HP; [apply conduct_request; exact algs_RS256 |].
  emits_step HP.
Qed.

End Conduct.


(* ================================================================= *)
(** ** Cleaning up after the challenge, and not cleaning up *)

Section AfterPrepare.

Variable L : pylib.
Variable E : environment.
Variable cfg : config.
Variable fuel : nat.
Variable s : session.
Variable thumbprint : string.
Variable auth_url : json.

(** Once the response to the challenge is in place, the body of the loop
    goes the way the notification and the polling go. *)
Lemma process_after_prepare w r w0 p wp w1 :
  _send_signed_request L E cfg fuel s auth_url None "Error getting challenges" w
    = (Ok r, w0) ->
  plan_of (challenge_type cfg) thumbprint (fst (fst r)) = Ok (Some p) ->
  prepare L E cfg p w0 = (Ok wp, w1) ->
  process_authorization L E cfg fuel s thumbprint auth_url w =
  match complete L E cfg fuel s auth_url p w1 with
  | (Ok a, w2) => bind (cleanup E cfg p wp) (fun _ => verdict p a) w2
  | (Raise e, w2) => (Raise e, w2)
  | (Diverge, w2) => (Diverge, w2)
  end.
Proof.
  intros Hfetch Hplan Hprep.
  assert (Hatt :
    attempt L E cfg fuel s thumbprint auth_url w =
    match complete L E cfg fuel s auth_url p w1 with
    | (Ok a, w2) => (Ok (Some (p, wp, a)), w2)
    | (Raise e, w2) => (Raise e, w2)
    | (Diverge, w2) => (Diverge, w2)
    end).
  { unfold attempt. unfold bind at 1. rewrite Hfetch.
    unfold bind at 1, lift at 1. rewrite Hplan.
    unfold bind at 1. rewrite Hprep.
    unfold bind at 1. destruct (complete L E cfg fuel s auth_url p w1) as [[a | e |] w2];
      reflexivity. }
  unfold process_authorization. unfold bind at 1. rewrite Hatt.
  destruct (complete L E cfg fuel s auth_url p w1) as [[a | e |] w2]; reflexivity.
Qed.

(** Neither the notification nor the polling cleans up. *)
Lemma complete_cleans_nothing p w :
  exists new,
    trace (snd (complete L E cfg fuel s auth_url p w)) = new ++ trace w /\
    Forall (fun ev => cleans ev = false) new.
Proof.
  assert (H : emits (Forall (fun ev => cleans ev = false))
                (complete L E cfg fuel s auth_url p)).
  { apply conduct_complete with (algs := fun _ => True).
    - intros; reflexivity.
    - intros; reflexivity.
    - intros; reflexivity.
    - split; reflexivity.
    - exact I. }
  destruct (H w) as [_ Hnew]. exact Hnew.
Qed.

End AfterPrepare.

(** C3 (amended). For an authorization that is processed, once the response
    to the challenge is in place: when the notification of the CA raises
    (or the challenge has no [url] to notify), or when the polling of the
    authorization raises, the same error leaves the body of the loop, and
    neither has a file been removed nor the DNS script been run in between:
    no cleanup is done.  When the notification and the polling have both
    returned, whatever the authorization then says, the cleanup comes next:
    the challenge file is removed (http-01), or the DNS script is run with
    the action "rm" if it is still there (dns-01); only then is the status
    looked at, and a status other than "valid" makes the run fail after the
    cleanup. *)
Theorem C3_cleanup_after_polling :
  forall L E cfg fuel s thumbprint auth_url w r w0 p wp w1,
    _send_signed_request L E cfg fuel s auth_url None "Error getting challenges" w
      = (Ok r, w0) ->
    plan_of (challenge_type cfg) thumbprint (fst (fst r)) = Ok (Some p) ->
    prepare L E cfg p w0 = (Ok wp, w1) ->
    let run := process_authorization L E cfg fuel s thumbprint auth_url w in
    let notify url :=
      _send_signed_request L E cfg fuel s url (Some (JObj []))
        ("Error submitting challenges: " ++ fmt L (domain p)) in
    let check :=
      _poll_until_complete L E cfg fuel s auth_url ["pending"]
        ("Error checking challenge status for " ++ fmt L (domain p)) in
    let uncleaned w' :=
      exists new,
        trace w' = new ++ trace w1 /\ Forall (fun ev => cleans ev = false) new in
    (forall e, getitem (challenge p) "url" = Raise e -> run = (Raise e, w1)) /\
    (forall url e w2,
        getitem (challenge p) "url" = Ok url ->
        notify url w1 = (Raise e, w2) ->
        run = (Raise e, w2) /\ uncleaned w2) /\
    (forall url x w2 e w3,
        getitem (challenge p) "url" = Ok url ->
        notify url w1 = (Ok x, w2) ->
        check w2 = (Raise e, w3) ->
        run = (Raise e, w3) /\ uncleaned w3) /\
    (forall url x w2 a w3,
        getitem (challenge p) "url" = Ok url ->
        notify url w1 = (Ok x, w2) ->
        check w2 = (Ok a, w3) ->
        run = bind (cleanup E cfg p wp) (fun _ => verdict p a) w3 /\
        (is_http01 cfg = true ->
         exists dir,
           acme_dir cfg = Some dir /\
           trace (snd run) =
             FileRemove (os_path_join dir (token p))
               (env_remove E (trace w3) (os_path_join dir (token p))) :: trace w3 /\
           (forall st,
               getitem a "status" = Ok st ->
               Json.eq_str st "valid" = false ->
               env_remove E (trace w3) (os_path_join dir (token p)) = None ->
               fst run = Raise (ValueError (Challenge_failed (domain p) a)))) /\
        (is_http01 cfg = false ->
         is_dns01 cfg = true ->
         env_script_ok E (trace w3) = true ->
         exists d env rc out err,
           domain p = JStr d /\
           trace (snd run) =
             Popen ["/bin/sh"; env_api_script E; "rm"; d; token p; keyauthorization p]
               env None rc out err :: trace w3)).
Proof.
  intros L E cfg fuel s thumbprint auth_url w r w0 p wp w1 Hfetch Hplan Hprep
         run notify check uncleaned.
  pose proof (@process_after_prepare L E cfg fuel s thumbprint auth_url
                w r w0 p wp w1 Hfetch Hplan Hprep) as Hrun.
  fold run in Hrun.
  pose proof (@complete_cleans_nothing L E cfg fuel s auth_url p w1) as Hclean.
  pose proof Hprep as Hinv. apply prepare_ok_inv in Hinv.
  destruct Hinv as [Hhttp_inv Hdns_inv].
  split; [| split; [| split]].
  - intros e Hurl. rewrite Hrun. unfold complete. unfold bind at 1, lift at 1.
    rewrite Hurl. reflexivity.
  - intros url e w2 Hurl Hnot.
    assert (Hc : complete L E cfg fuel s auth_url p w1 = (Raise e, w2)).
    { unfold complete. unfold bind at 1, lift at 1. rewrite Hurl.
      unfold bind at 1. fold (notify url). rewrite Hnot. reflexivity. }
    rewrite Hc in Hrun, Hclean. split; [exact Hrun | exact Hclean].
  - intros url x w2 e w3 Hurl Hnot Hcheck.
    assert (Hc : complete L E cfg fuel s auth_url p w1 = (Raise e, w3)).
    { unfold complete. unfold bind at 1, lift at 1. rewrite Hurl.
      unfold bind at 1. fold (notify url). rewrite Hnot. exact Hcheck. }
    rewrite Hc in Hrun, Hclean. split; [exact Hrun | exact Hclean].
  - intros url x w2 a w3 Hurl Hnot Hcheck.
    assert (Hc : complete L E cfg fuel s auth_url p w1 = (Ok a, w3)).
    { unfold complete. unfold bind at 1, lift at 1. rewrite Hurl.
      unfold bind at 1. fold (notify url). rewrite Hnot. exact Hcheck. }
    rewrite Hc in Hrun. clear Hclean.
    split; [exact Hrun |]. split.
    + intros Hhttp. destruct (Hhttp_inv Hhttp) as (dir & Hdir & Hwp).
      exists dir. split; [exact Hdir |].
      rewrite Hrun. rewrite then_verdict.
      unfold cleanup. rewrite Hhttp, Hwp. rewrite os_remove_run. cbv zeta.
      split; [reflexivity |].
      intros st Hst Hne Hrm. unfold bind. rewrite os_remove_run. cbv zeta.
      rewrite Hrm. erewrite verdict_invalid; [reflexivity | exact Hst | exact Hne].
    + intros Hhttp Hdns Hscript. destruct (Hdns_inv Hhttp Hdns) as [d Hd].
      rewrite Hrun. rewrite then_verdict.
      unfold cleanup. rewrite Hhttp, Hdns.
      unfold _execute_dns_api. rewrite Hd.
      unfold bind at 1. unfold bind at 1. unfold ask at 1. rewrite Hscript.
      cbn [negb]. unfold bind at 1. rewrite popen_run. cbv zeta.
      match goal with
      | |- context [env_popen E ?tr ?cmd ?env ?input] =>
          destruct (env_popen E tr cmd env input) as [[rc out] err] eqn:Hpopen
      end.
      cbn [fst snd].
      exists d. do 4 eexists. split; [reflexivity |].
      destruct (negb (rc =? 0)%Z); reflexivity.
Qed.

Lemma C3_cleanup_after_polling_witness :
  let body E :=
    process_authorization Scenario.lib E Scenario.cfg 200 Scenario.registered
      Scenario.thumbprint Scenario.authz_url Scenario.start in
  (* the validation fails: the file is removed, then the run fails *)
  (Scenario.removed (trace (snd (body (Scenario.env Scenario.validation_fails)))) = true
   /\ fst (body (Scenario.env Scenario.validation_fails))
      = Raise (ValueError (Challenge_failed (JStr "example.com")
                             (Scenario.authorization_doc "invalid"))))
  (* the notification raises: the file stays *)
  /\ (fst (body (Scenario.env Scenario.notification_fails))
      = Raise (ValueError (Network_error "Error submitting challenges: example.com"
                             "HTTP Error 500: Internal Server Error"))
      /\ Scenario.wrote (trace (snd (body (Scenario.env Scenario.notification_fails)))) = true
      /\ Scenario.removed (trace (snd (body (Scenario.env Scenario.notification_fails))))
         = false)
  (* the polling raises: the file stays *)
  /\ (fst (body Scenario.env_poll_fails)
      = Raise (ValueError (Network_error "Error checking challenge status for example.com"
                             "HTTP Error 500: Internal Server Error"))
      /\ Scenario.wrote (trace (snd (body Scenario.env_poll_fails))) = true
      /\ Scenario.removed (trace (snd (body Scenario.env_poll_fails))) = false).
Proof.
  intro body.
  pose (p := {| domain := JStr "example.com";
                challenge := JObj [("type", JStr "http-01");
                                   ("token", JStr Scenario.raw_token);
                                   ("url", JStr "https://ca.test/chall/1")];
                token := "tok_en";
                keyauthorization := Scenario.key_auth |}).
  pose (r := (Scenario.authorization_doc "pending", 200%Z,
              Message (Scenario.with_headers []))).
  pose (fetch E :=
          _send_signed_request Scenario.lib E Scenario.cfg 200 Scenario.registered
            Scenario.authz_url None "Error getting challenges" Scenario.start).
  pose (ready E := prepare Scenario.lib E Scenario.cfg p (snd (fetch E))).
  pose (notify E :=
          _send_signed_request Scenario.lib E Scenario.cfg 200 Scenario.registered
            (JStr "https://ca.test/chall/1") (Some (JObj []))
            "Error submitting challenges: example.com" (snd (ready E))).
  pose (check E :=
          _poll_until_complete Scenario.lib E Scenario.cfg 200 Scenario.registered
            Scenario.authz_url ["pending"]
            "Error checking challenge status for example.com" (snd (notify E))).
  assert (Huse : forall E,
    fetch E = (Ok r, snd (fetch E)) ->
    ready E = (Ok (Some "/var/www/challenges/tok_en"%string), snd (ready E)) ->
    (forall e, notify E = (Raise e, snd (notify E)) ->
               body E = (Raise e, snd (notify E)))
    /\ (forall x e, notify E = (Ok x, snd (notify E)) ->
                    check E = (Raise e, snd (check E)) ->
                    body E = (Raise e, snd (check E)))
    /\ (forall x a, notify E = (Ok x, snd (notify E)) ->
                    check E = (Ok a, snd (check E)) ->
                    trace (snd (body E)) =
                      FileRemove "/var/www/challenges/tok_en"
                        (env_remove E (trace (snd (check E))) "/var/www/challenges/tok_en")
                      :: trace (snd (check E))
                    /\ (forall st,
                           getitem a "status" = Ok st ->
                           Json.eq_str st "valid" = false ->
                           env_remove E (trace (snd (check E))) "/var/www/challenges/tok_en"
                           = None ->
                           fst (body E)
                           = Raise (ValueError (Challenge_failed (JStr "example.com") a))))).
  { intros E Hfetch Hready.
    destruct (@C3_cleanup_after_polling Scenario.lib E Scenario.cfg 200
                Scenario.registered Scenario.thumbprint Scenario.authz_url Scenario.start
                r (snd (fetch E)) p (Some "/var/www/challenges/tok_en"%string)
                (snd (ready E)) Hfetch eq_refl Hready)
      as (_ & Hnot & Hpoll & Hdone).
    split; [| split].
    - intros e Hn. exact (proj1 (Hnot _ e _ eq_refl Hn)).
    - intros x e Hn Hc. exact (proj1 (Hpoll _ x _ e _ eq_refl Hn Hc)).
    - intros x a Hn Hc.
      destruct (Hdone _ x _ a _ eq_refl Hn Hc) as (_ & Hhttp & _).
      destruct (Hhttp eq_refl) as (dir & Hdir & Htrace & Hfail).
      inversion Hdir; subst dir. split; [exact Htrace | exact Hfail]. }
  split; [| split].
  - destruct (Huse (Scenario.env Scenario.validation_fails)) as (_ & _ & Hdone);
      [vm_compute; reflexivity | vm_compute; reflexivity |].
    destruct (Hdone (JObj [], 200%Z, Message (Scenario.with_headers []))
                (Scenario.authorization_doc "invalid")) as [Htrace Hfail];
      [vm_compute; reflexivity | vm_compute; reflexivity |].
    split.
    + rewrite Htrace. reflexivity.
    + apply (Hfail (JStr "invalid")); reflexivity.
  - destruct (Huse (Scenario.env Scenario.notification_fails)) as (Hnot & _ & _);
      [vm_compute; reflexivity | vm_compute; reflexivity |].
    rewrite (Hnot (ValueError (Network_error "Error submitting challenges: example.com"
                                 "HTTP Error 500: Internal Server Error")));
      [| vm_compute; reflexivity].
    split; [reflexivity |]. split; vm_compute; reflexivity.
  - destruct (Huse Scenario.env_poll_fails) as (_ & Hpoll & _);
      [vm_compute; reflexivity | vm_compute; reflexivity |].
    rewrite (Hpoll (JObj [], 200%Z, Message (Scenario.with_headers []))
               (ValueError (Network_error "Error checking challenge status for example.com"
                              "HTTP Error 500: Internal Server Error")));
      [| vm_compute; reflexivity | vm_compute; reflexivity].
    split; [reflexivity |]. split; vm_compute; reflexivity.
Defined.

Lemma challenge_type_cases cfg :
  (is_http01 cfg = true -> challenge_type cfg = "http-01") /\
  (is_dns01 cfg = true -> challenge_type cfg = "dns-01").
Proof.
  unfold is_http01, is_dns01. split; intros H; apply String.eqb_eq, H.
Qed.

(** X15. Every request with a body that a run of [get_crt] sends, whatever
    the outside answers and however the run ends, names in its protected
    header the very URL it is sent to, and RS256 as its algorithm. *)
Theorem X15_every_signed_request_names_its_url :
  forall L E cfg fuel w,
    exists new,
      trace (snd (get_crt L E cfg fuel w)) = new ++ trace w /\
      Forall bound_to_url new.
Proof.
  intros L E cfg fuel w.
  assert (H : emits (Forall bound_to_url) (get_crt L E cfg fuel)).
  { apply conduct_get_crt with (algs := fun a => a = "RS256"%string);
      try (intros; exact I).
    - reflexivity.
    - intros url data out a nonce key Hp Ha. cbn [bound_to_url]. rewrite Hp, Ha.
      split; reflexivity.
    - split; exact I. }
  destruct (H w) as [_ Hnew]. exact Hnew.
Qed.

(** X16. Whatever the outside answers and however the run ends, [get_crt]
    runs no other command than [openssl], with the environment of the
    caller, and, when the challenge type is dns-01, the DNS API script
    through [/bin/sh] with the action [add] or [rm]; it writes and removes
    files only when the challenge type is http-01, and then only files
    directly inside the challenge directory; and it sleeps 0 or 2 seconds,
    or, when the challenge type is dns-01, the time of the propagation
    wait. *)
Theorem X16_means_by_challenge_type :
  forall L E cfg fuel w,
    exists new,
      trace (snd (get_crt L E cfg fuel w)) = new ++ trace w /\
      Forall (within_means E cfg) new.
Proof.
  intros L E cfg fuel w.
  destruct (challenge_type_cases cfg) as [Hhttp Hdns].
  assert (H : emits (Forall (within_means E cfg)) (get_crt L E cfg fuel)).
  { apply conduct_get_crt with (algs := fun _ => True).
    - exact I.
    - intros; exact I.
    - intros; exact I.
    - intros args input rc o e. left. exists args. split; reflexivity.
    - split; [left; reflexivity | right; left; reflexivity].
    - intros _ Hd seconds. right. right. apply Hdns, Hd.
    - intros _ Hd action d tok ka env rc o e Ha. right.
      split; [apply Hdns, Hd |]. split; [reflexivity |].
      exists action, d, tok, ka. split; [reflexivity | exact Ha].
    - intros dir raw content err Hh Hdir. split; [apply Hhttp, Hh |].
      exists dir. split; [exact Hdir | apply os_path_join_inside].
    - intros dir raw err Hh Hdir. split; [apply Hhttp, Hh |].
      exists dir. split; [exact Hdir | apply os_path_join_inside]. }
  destruct (H w) as [_ Hnew]. exact Hnew.
Qed.
